(** * Bookstore admin backend: document store adapter, order workflow,
      dashboard aggregation and login

    A shallow embedding of [database.py], [schemas.py] and [main.py].

    Conventions of the embedding.
    - A Python [float] is a binary64 number ([PrimFloat.float]) and its
      arithmetic is that of the format, rounding to nearest even.  An [int]
      that meets a [float] in a product is converted first, which raises
      [OverflowError] when it is too large; the builtin [sum] adds from the
      left in binary64 (later interpreters compensate the rounding of the
      running total, which is outside the model).  The store's [$sum] is a
      variable of the section that holds the handlers.
    - A Python [int] is a [Z].  The driver encodes an integer in 64 bits
      and refuses one outside that range; the refusal is not modelled, and
      a property that promises that a request with an integer of its own
      is stored states the range.
    - A handler's result is what the function returns or raises; rendering
      a returned value as a response body is outside the model.
    - A clock reading ([datetime.now(timezone.utc)]) is a number of
      microseconds since the epoch and is an input of every operation that
      reads the clock.  BSON keeps a datetime as a number of milliseconds,
      which is what a stored document holds and what is read back.
    - The identifier the driver generates for an inserted document is an
      input of the operation that inserts.
    - A handler either returns or raises; the exception is part of the
      result, and the store is threaded through every call.
    - The store is MongoDB as the driver presents it: a collection is the
      sequence of its documents, [find_one], [update_one] and [delete_one]
      act on the first document that matches, and [update_one] counts a
      document as modified only when [$set] changed it.
    - Collaborators that live outside the repository (password hashing,
      token signing, e-mail validation) are variables of the section that
      holds the handlers.
    - The order in which the store sorts a listing is a variable of the
      section that holds the list endpoints.  The diagnostic endpoint is
      left out. *)

From Stdlib Require Import ZArith String Ascii Strings.Byte List Lia Floats.
From stdpp Require Import base option numbers strings list gmap fin_maps.

Import ListNotations.
Local Open Scope string_scope.
Local Open Scope Z_scope.

(** ** bson.ObjectId *)

Module ObjectId.

(** The [binary] of an identifier; the driver produces twelve bytes. *)
Definition t : Type := list byte.

Definition hexdigit (n : N) : ascii :=
  match n with
  | 0 => "0" | 1 => "1" | 2 => "2" | 3 => "3" | 4 => "4" | 5 => "5"
  | 6 => "6" | 7 => "7" | 8 => "8" | 9 => "9" | 10 => "a" | 11 => "b"
  | 12 => "c" | 13 => "d" | 14 => "e" | _ => "f"
  end%N%char.

Definition hexval (c : ascii) : option N :=
  let n := N_of_ascii c in
  if (48 <=? n)%N && (n <=? 57)%N then Some (n - 48)%N
  else if (97 <=? n)%N && (n <=? 102)%N then Some (n - 87)%N
  else if (65 <=? n)%N && (n <=? 70)%N then Some (n - 55)%N
  else None.

Definition byte_hex (b : byte) : list ascii :=
  [hexdigit (Byte.to_N b / 16); hexdigit (Byte.to_N b mod 16)].

Definition byte_fromhex (h l : ascii) : option byte :=
  match hexval h, hexval l with
  | Some x, Some y => Byte.of_N (16 * x + y)
  | _, _ => None
  end.

(** [bytes.fromhex] on a string of hexadecimal digit pairs. *)
Fixpoint fromhex (s : list ascii) : option (list byte) :=
  match s with
  | [] => Some []
  | h :: l :: rest =>
      match byte_fromhex h l, fromhex rest with
      | Some b, Some bs => Some (b :: bs)
      | _, _ => None
      end
  | [_] => None
  end.

(** [str(oid)]: twice as many lower-case hexadecimal digits as bytes. *)
Definition to_str (o : t) : string :=
  string_of_list_ascii (flat_map byte_hex o).

(** [ObjectId(s)] for a string [s]: twenty-four hexadecimal digits, or
    [InvalidId] (here [None]). *)
Definition parse (s : string) : option t :=
  if (String.length s =? 24)%nat then fromhex (list_ascii_of_string s)
  else None.

End ObjectId.

#[global] Instance byte_eq_dec : EqDecision byte := Byte.byte_eq_dec.

(** ** Python numbers *)

(** Two floats are the same value: the same bits, with one NaN. *)
#[global] Instance float_eq_dec : EqDecision float.
Proof.
  intros x y. destruct (PrimFloat.Leibniz.eqb x y) eqn:E.
  - left. apply FloatAxioms.Leibniz.eqb_spec. exact E.
  - right. intros H. apply FloatAxioms.Leibniz.eqb_spec in H. congruence.
Defined.

(** The binary64 number nearest to an integer, ties to even; infinite
    when the integer is beyond the format. *)
Definition float_of_Z (z : Z) : float :=
  SF2Prim (binary_normalize prec emax z 0 false).

(** The largest magnitude that still rounds to a finite binary64 number
    is just below [2^1024 - 2^970], half way between the largest finite
    number and [2^1024]. *)
Definition float_limit : Z := 2 ^ 1024 - 2 ^ 970.

(** A binary64 number, on the format's own description, that is a zero,
    positive or plus infinity: what [0 <= x] holds of. *)
Definition SFnonneg (s : spec_float) : bool :=
  match s with
  | S754_zero _ => true
  | S754_infinity sg | S754_finite sg _ _ => negb sg
  | S754_nan => false
  end.

(** The integers the driver encodes: BSON's 64-bit range. *)
Definition int64 (z : Z) : Prop := - 2 ^ 63 <= z < 2 ^ 63.

(** ** schemas.py: the embedded order line *)

Module OrderItem.
Record t : Type := mk {
  book_id : string;
  title : string;
  price : float;   (* float, ge=0 *)
  quantity : Z     (* int, ge=1 *)
}.

#[global] Instance eq_dec : EqDecision t.
Proof. solve_decision. Defined.

(** The field constraints, checked when the request body is parsed. *)
Definition valid (i : t) : Prop :=
  (0 <=? price i)%float = true /\ 1 <= quantity i.
End OrderItem.

(** ** Values and documents *)

(** The values a document of this program holds. *)
Inductive value : Type :=
| VNone
| VBool (b : bool)
| VInt (z : Z)
| VFloat (q : float)
| VStr (s : string)
| VDatetime (millis : Z)
| VObjectId (o : ObjectId.t)
| VItems (l : list OrderItem.t).

#[global] Instance value_eq_dec : EqDecision value.
Proof. solve_decision. Defined.

(** A Python [dict] with string keys. *)
Abbreviation pydict := (gmap string value).

(** A stored document: the store gives every document an [_id]; the other
    fields are a dictionary that never holds the key ["_id"]. *)
Record document : Type := mkdoc {
  _id : ObjectId.t;
  fields : gmap string value
}.

#[global] Instance document_eq_dec : EqDecision document.
Proof. solve_decision. Defined.

(** [d[k]] of the dictionary the driver returns for a stored document. *)
Definition doc_get (d : document) (k : string) : option value :=
  if decide (k = "_id") then Some (VObjectId (_id d)) else fields d !! k.

(** [d.get(k, dflt)] *)
Definition get_default (d : document) (k : string) (dflt : value) : value :=
  default dflt (doc_get d k).

(** Python truth value. *)
Definition truthy (v : value) : bool :=
  match v with
  | VNone => false
  | VBool b => b
  | VInt z => negb (Z.eqb z 0)
  | VFloat q => negb (q =? 0)%float
  | VStr s => negb (bool_decide (s = ""))
  | VDatetime _ => true
  | VObjectId _ => true
  | VItems l => negb (bool_decide (l = []))
  end.

(** A clock reading in microseconds, and the milliseconds BSON keeps of
    it. *)
Definition datetime : Type := Z.
Definition datetime_to_millis (now : datetime) : Z := now / 1000.

(** ** Exceptions and the store monad *)

Inductive exn : Type :=
| HTTPException (status_code : Z) (detail : string)
| ValidationError          (* pydantic: a model constraint is violated *)
| InvalidId                (* bson: the string is not an ObjectId *)
| Exception (msg : string) (* raised by [_ensure_db] *)
| TypeError                (* subscripting [None] *)
| AttributeError           (* [None.pop] *)
| DuplicateKeyError        (* the store: [_id] already present *)
| WriteError               (* the store: [$set] would change [_id] *)
| InvalidDocument          (* an [_id] that is not an ObjectId: not modelled *)
| OverflowError.           (* an [int] too large to convert to [float] *)

Inductive outcome (A : Type) : Type :=
| Return (a : A)
| Raise (e : exn).
Arguments Return {A} a.
Arguments Raise {A} e.

(** [float(n)], and the conversion of the [int] operand of a product
    with a [float]. *)
Definition float_of_int (z : Z) : outcome float :=
  if Z.abs z <? float_limit then Return (float_of_Z z)
  else Raise OverflowError.

(** The status line the framework answers with: an [HTTPException] carries
    its own code, any other exception that leaves a handler is a 500. *)
Definition status_of {A} (r : outcome A) : Z :=
  match r with
  | Return _ => 200
  | Raise (HTTPException c _) => c
  | Raise _ => 500
  end.

(** The database behind the module-level [db] handle: collections by
    name, each a sequence of documents in insertion order. *)
Abbreviation Database := (gmap string (list document)).

(** [db], which is [None] when the connection was not configured. *)
Definition World : Type := option Database.

Definition M (A : Type) : Type := World -> outcome A * World.

Definition ret {A} (a : A) : M A := fun w => (Return a, w).
Definition raise {A} (e : exn) : M A := fun w => (Raise e, w).
Definition bind {A B} (m : M A) (k : A -> M B) : M B :=
  fun w => match m w with
           | (Return a, w') => k a w'
           | (Raise e, w') => (Raise e, w')
           end.
(** [try: m  except Exception: h] *)
Definition try_except {A} (m : M A) (h : M A) : M A :=
  fun w => match m w with
           | (Return a, w') => (Return a, w')
           | (Raise _, w') => h w'
           end.
Definition lift {A} (r : outcome A) : M A := fun w => (r, w).

Notation "x <- m ;; k" := (bind m (fun x => k))
  (at level 100, m at next level, right associativity).
Notation "m ;; k" := (bind m (fun _ => k))
  (at level 100, right associativity).

(** ** The driver's collection operations *)

Module Collection.

(** A filter document: each field is compared for equality, or with
    [$ne]. *)
Inductive cond : Type :=
| Eq (v : value)
| Ne (v : value).

Definition query : Type := list (string * cond).

(** What the driver hands to Python for a stored document. *)
Definition to_dict (d : document) : pydict :=
  <["_id" := VObjectId (_id d)]> (fields d).

Definition holds (row : pydict) (kc : string * cond) : bool :=
  match kc.2 with
  | Eq v => bool_decide (row !! kc.1 = Some v)
  | Ne v => negb (bool_decide (row !! kc.1 = Some v))
  end.

Definition matches_row (q : query) (row : pydict) : bool :=
  forallb (holds row) q.

Definition matches (q : query) (d : document) : bool :=
  matches_row q (to_dict d).

Record UpdateResult : Type := { matched_count : Z; modified_count : Z }.
Record DeleteResult : Type := { deleted_count : Z }.

(** The documents of a collection; a collection without documents is
    not recorded in the database. *)
Definition docs (db : Database) (name : string) : list document :=
  default [] (db !! name).

Definition set_docs (name : string) (c : list document) (db : Database)
  : Database :=
  match c with
  | [] => delete name db
  | _ :: _ => <[name := c]> db
  end.

(** [db[name]], read and written. *)
Definition get (name : string) : M (list document) :=
  fun w => match w with
           | Some db => (Return (docs db name), w)
           | None => (Raise TypeError, w)
           end.

Definition put (name : string) (c : list document) : M unit :=
  fun w => match w with
           | Some db => (Return tt, Some (set_docs name c db))
           | None => (Raise TypeError, w)
           end.

Definition find_one (name : string) (q : query) : M (option document) :=
  c <- get name ;; ret (List.find (matches q) c).

Definition count_documents (name : string) (q : query) : M Z :=
  c <- get name ;; ret (Z.of_nat (List.length (List.filter (matches q) c))).

(** [insert_one]: a document without ["_id"] receives the identifier the
    driver generated; the store refuses an identifier it already
    holds. *)
Definition insert_one (name : string) (new_id : ObjectId.t) (doc : pydict)
  : M ObjectId.t :=
  c <- get name ;;
  oid <- lift match doc !! "_id" with
              | None => Return new_id
              | Some (VObjectId o) => Return o
              | Some _ => Raise InvalidDocument
              end ;;
  if existsb (fun d => bool_decide (_id d = oid)) c
  then raise DuplicateKeyError
  else (put name (c ++ [mkdoc oid (delete "_id" doc)]) ;; ret oid).

(** [$set]: the given fields overwrite, the others stay; [_id] is
    immutable. *)
Definition set_fields (data : pydict) (d : document) : outcome document :=
  match data !! "_id" with
  | None => Return (mkdoc (_id d) (data ∪ fields d))
  | Some v =>
      if decide (v = VObjectId (_id d))
      then Return (mkdoc (_id d) (delete "_id" data ∪ fields d))
      else Raise WriteError
  end.

(** The first document that matches is updated; it counts as modified
    only when the update changed it. *)
Fixpoint update_first (q : query) (data : pydict) (c : list document)
  : outcome (list document * UpdateResult) :=
  match c with
  | [] => Return ([], {| matched_count := 0; modified_count := 0 |})
  | d :: c' =>
      if matches q d then
        match set_fields data d with
        | Return d' =>
            Return (d' :: c',
                    {| matched_count := 1;
                       modified_count := if decide (d' = d) then 0 else 1 |})
        | Raise e => Raise e
        end
      else
        match update_first q data c' with
        | Return (c'', r) => Return (d :: c'', r)
        | Raise e => Raise e
        end
  end.

Definition update_one (name : string) (q : query) (data : pydict)
  : M UpdateResult :=
  c <- get name ;;
  cr <- lift (update_first q data c) ;;
  put name cr.1 ;; ret cr.2.

Fixpoint delete_first (q : query) (c : list document)
  : list document * DeleteResult :=
  match c with
  | [] => ([], {| deleted_count := 0 |})
  | d :: c' =>
      if matches q d then (c', {| deleted_count := 1 |})
      else let cr := delete_first q c' in (d :: cr.1, cr.2)
  end.

Definition delete_one (name : string) (q : query) : M DeleteResult :=
  c <- get name ;;
  let cr := delete_first q c in
  put name cr.1 ;; ret cr.2.

(** The two pipeline stages the program uses: [$match] and a [$group]
    with [_id: None] and one [$sum] accumulator over a field path. *)
Inductive stage : Type :=
| Match (q : query)
| GroupSum (out : string) (field : string).

(** A [$group] over no row yields no row; over some rows it yields one,
    whose accumulator is [sum] of what the field path finds in each row
    of the group, in the order of the rows, [None] where a row lacks the
    field.  [sum] is the store's [$sum], read as a double. *)
Definition run_stage (sum : list (option value) -> float) (s : stage)
    (rows : list pydict) : list pydict :=
  match s with
  | Match q => List.filter (matches_row q) rows
  | GroupSum out field =>
      match rows with
      | [] => []
      | _ :: _ =>
          [ <[out := VFloat (sum (map (fun row : pydict => row !! field) rows))]>
              {["_id" := VNone]} ]
      end
  end.

Definition aggregate (sum : list (option value) -> float) (name : string)
    (pipeline : list stage) : M (list pydict) :=
  c <- get name ;;
  ret (fold_left (fun rows s => run_stage sum s rows) pipeline (map to_dict c)).

End Collection.

(** ** database.py *)

(** A pydantic model is anything with a [model_dump]. *)
Class BaseModel (A : Type) : Type := model_dump : A -> pydict.

(** [Union[BaseModel, dict]] *)
Inductive model_or_dict : Type :=
| OfModel {A : Type} `{BaseModel A} (a : A)
| OfDict (d : pydict).

Definition _ensure_db : M unit :=
  fun w => match w with
           | None => (Raise (Exception "Database not available. Check DATABASE_URL and DATABASE_NAME environment variables."), w)
           | Some _ => (Return tt, w)
           end.

(** [ObjectId(doc_id)] *)
Definition ObjectId_new (doc_id : string) : M ObjectId.t :=
  match ObjectId.parse doc_id with
  | Some o => ret o
  | None => raise InvalidId
  end.

Definition create_document (now : datetime) (new_id : ObjectId.t)
    (collection_name : string) (data : model_or_dict) : M string :=
  _ensure_db ;;
  let data_dict := match data with
                   | OfModel a => model_dump a
                   | OfDict d => d
                   end in
  let data_dict := <["created_at" := VDatetime (datetime_to_millis now)]> data_dict in
  let data_dict := <["updated_at" := VDatetime (datetime_to_millis now)]> data_dict in
  inserted_id <- Collection.insert_one collection_name new_id data_dict ;;
  ret (ObjectId.to_str inserted_id).

Definition get_document_by_id (collection_name doc_id : string)
  : M (option document) :=
  _ensure_db ;;
  try_except
    (oid <- ObjectId_new doc_id ;;
     Collection.find_one collection_name [("_id", Collection.Eq (VObjectId oid))])
    (ret None).

Definition update_document (now : datetime) (collection_name doc_id : string)
    (data : pydict) : M bool :=
  _ensure_db ;;
  let data := <["updated_at" := VDatetime (datetime_to_millis now)]> data in
  oid <- ObjectId_new doc_id ;;
  res <- Collection.update_one collection_name
           [("_id", Collection.Eq (VObjectId oid))] data ;;
  ret (0 <? Collection.modified_count res).

Definition delete_document (collection_name doc_id : string) : M bool :=
  _ensure_db ;;
  oid <- ObjectId_new doc_id ;;
  res <- Collection.delete_one collection_name
           [("_id", Collection.Eq (VObjectId oid))] ;;
  ret (0 <? Collection.deleted_count res).

(** ** schemas.py *)

Module AdminUser.
Record t : Type := mk {
  name : string;
  email : string;          (* EmailStr *)
  password_hash : string;
  role : string;           (* Literal["admin", "staff"] *)
  is_active : bool
}.

#[global] Instance dump : BaseModel t := fun u =>
  {[ "name" := VStr (name u);
     "email" := VStr (email u);
     "password_hash" := VStr (password_hash u);
     "role" := VStr (role u);
     "is_active" := VBool (is_active u) ]}.
End AdminUser.

Module Book.
Record t : Type := mk {
  title : string;
  author : string;
  price : float;                 (* ge=0 *)
  stock : Z;                     (* ge=0 *)
  description : option string;
  cover_url : option string
}.

Definition valid (b : t) : Prop :=
  (0 <=? price b)%float = true /\ 0 <= stock b.
End Book.

(** [Optional[str]] as a dictionary value. *)
Definition opt_str (o : option string) : value :=
  match o with
  | Some s => VStr s
  | None => VNone
  end.

#[global] Instance Book_dump : BaseModel Book.t := fun b =>
  {[ "title" := VStr (Book.title b);
     "author" := VStr (Book.author b);
     "price" := VFloat (Book.price b);
     "stock" := VInt (Book.stock b);
     "description" := opt_str (Book.description b);
     "cover_url" := opt_str (Book.cover_url b) ]}.

Module Order.
Record t : Type := mk {
  customer_name : string;
  customer_email : string;       (* EmailStr *)
  items : list OrderItem.t;      (* conlist(OrderItem, min_length=1) *)
  total_amount : float;          (* ge=0 *)
  status : string;               (* Literal of the five statuses *)
  notes : option string
}.

Definition statuses : list string :=
  ["pending"; "processing"; "shipped"; "delivered"; "cancelled"].
End Order.

#[global] Instance Order_dump : BaseModel Order.t := fun o =>
  {[ "customer_name" := VStr (Order.customer_name o);
     "customer_email" := VStr (Order.customer_email o);
     "items" := VItems (Order.items o);
     "total_amount" := VFloat (Order.total_amount o);
     "status" := VStr (Order.status o);
     "notes" := opt_str (Order.notes o) ]}.

(** ** main.py: request and response models *)

Record AdminProfile : Type := {
  profile_id : string;
  profile_name : string;
  profile_email : string;
  profile_role : string
}.

Record LoginRequest : Type := { login_email : string; login_password : string }.

Record LoginResponse : Type := { token : string; profile : AdminProfile }.

Record DashboardStats : Type := {
  total_books : Z;
  total_orders : Z;
  pending_orders : Z;
  revenue : float
}.

Module BookUpdate.
Record t : Type := mk {
  title : option string;
  author : option string;
  price : option float;
  stock : option Z;
  description : option string;
  cover_url : option string
}.

(** [{k: v for k, v in payload.model_dump().items() if v is not None}] *)
Definition set_items (p : t) : pydict :=
  list_to_map
    (omap (fun kv : string * option value => (fun v => (kv.1, v)) <$> kv.2)
       [ ("title", VStr <$> title p);
         ("author", VStr <$> author p);
         ("price", VFloat <$> price p);
         ("stock", VInt <$> stock p);
         ("description", VStr <$> description p);
         ("cover_url", VStr <$> cover_url p) ]).
End BookUpdate.

Module OrderCreate.
Record t : Type := mk {
  customer_name : string;
  customer_email : string;       (* str *)
  items : list OrderItem.t;      (* List[OrderItem] *)
  notes : option string
}.
End OrderCreate.

Record OrderStatusUpdate : Type := { new_status : string }.

(** A response body in JSON, as far as its shape matters. *)
Inductive json : Type :=
| JStr (s : string)
| JObj (ms : members)
with members : Type :=
| MNil
| MCons (k : string) (v : json) (rest : members).

Definition AdminProfile_json (p : AdminProfile) : json :=
  JObj (MCons "id" (JStr (profile_id p))
       (MCons "name" (JStr (profile_name p))
       (MCons "email" (JStr (profile_email p))
       (MCons "role" (JStr (profile_role p)) MNil)))).

Definition LoginResponse_json (r : LoginResponse) : json :=
  JObj (MCons "token" (JStr (token r))
       (MCons "profile" (AdminProfile_json (profile r)) MNil)).

(** Every member name of a JSON value, at any depth. *)
Fixpoint json_keys (j : json) : list string :=
  match j with
  | JStr _ => []
  | JObj ms => members_keys ms
  end
with members_keys (ms : members) : list string :=
  match ms with
  | MNil => []
  | MCons k v rest => k :: json_keys v ++ members_keys rest
  end.

(** Every string of a JSON value, at any depth. *)
Fixpoint json_strings (j : json) : list string :=
  match j with
  | JStr s => [s]
  | JObj ms => members_strings ms
  end
with members_strings (ms : members) : list string :=
  match ms with
  | MNil => []
  | MCons _ v rest => json_strings v ++ members_strings rest
  end.

(** ** main.py: the handlers *)

Section Handlers.

(** [EmailStr]: the normalised address, or [None] when the string is not
    an address. *)
Variable validate_email : string -> option string.
(** [pwd_context.verify] and [pwd_context.hash] *)
Variable pwd_verify : string -> string -> bool.
Variable pwd_hash : string -> string.
(** [jwt.encode(claims, key, algorithm)] *)
Variable jwt_encode : pydict -> string -> string -> string.
Variable SECRET_KEY : string.
(** The store's [$sum] over what a field path finds in the documents of
    a group, [None] where a document lacks the field, as the double that
    [float] reads from the result. *)
Variable store_sum : list (option value) -> float.

Definition ALGORITHM : string := "HS256".

(** *** Model constructors, with their validation *)

Definition AdminUser_new (name email password_hash role : string)
    (is_active : bool) : outcome AdminUser.t :=
  match validate_email email with
  | None => Raise ValidationError
  | Some email' =>
      if bool_decide (role ∈ ["admin"; "staff"])
      then Return (AdminUser.mk name email' password_hash role is_active)
      else Raise ValidationError
  end.

Definition Order_new (customer_name customer_email : string)
    (items : list OrderItem.t) (total_amount : float) (status : string)
    (notes : option string) : outcome Order.t :=
  match validate_email customer_email with
  | None => Raise ValidationError
  | Some email' =>
      if bool_decide (1 <= Z.of_nat (List.length items))
         && (0 <=? total_amount)%float
         && bool_decide (status ∈ Order.statuses)
      then Return (Order.mk customer_name email' items total_amount status notes)
      else Raise ValidationError
  end.

(** [AdminProfile(...)]: every field is a [str]. *)
Definition AdminProfile_new (id : string) (name email role : value)
  : outcome AdminProfile :=
  match name, email, role with
  | VStr n, VStr e, VStr r =>
      Return {| profile_id := id; profile_name := n;
                profile_email := e; profile_role := r |}
  | _, _, _ => Raise ValidationError
  end.

(** *** Helpers *)

Definition create_access_token (data : pydict) : string :=
  jwt_encode data SECRET_KEY ALGORITHM.

(** [pwd_context.verify(secret, hash)] on a stored value: a missing hash
    ([None]) never verifies, anything that is not a string is refused. *)
Definition verify_stored (password : string) (h : value) : outcome bool :=
  match h with
  | VStr s => Return (pwd_verify password s)
  | VNone => Return false
  | _ => Raise TypeError
  end.

(** [doc["id"] = str(doc.pop("_id"))] *)
Definition with_id (d : document) : pydict :=
  <["id" := VStr (ObjectId.to_str (_id d))]> (fields d).

(** *** Seed admin *)

Definition ensure_admin_exists (now : datetime) (new_id : ObjectId.t) : M unit :=
  n <- Collection.count_documents "adminuser" [] ;;
  if n =? 0 then
    default <- lift (AdminUser_new "Admin" "admin@example.com"
                       (pwd_hash "admin123") "admin" true) ;;
    create_document now new_id "adminuser" (OfModel default) ;;
    ret tt
  else ret tt.

(** *** Auth *)

Definition admin_login (payload : LoginRequest) : M LoginResponse :=
  user <- Collection.find_one "adminuser"
            [("email", Collection.Eq (VStr (login_email payload)))] ;;
  match user with
  | None => raise (HTTPException 401 "Invalid credentials")
  | Some user =>
      ok <- lift (verify_stored (login_password payload)
                    (get_default user "password_hash" (VStr ""))) ;;
      if negb ok then raise (HTTPException 401 "Invalid credentials")
      else if negb (truthy (get_default user "is_active" (VBool true)))
      then raise (HTTPException 403 "User is inactive")
      else
        let role := get_default user "role" (VStr "staff") in
        if negb (bool_decide (role ∈ [VStr "admin"; VStr "staff"]))
        then raise (HTTPException 403 "Unauthorized role")
        else
          let token :=
            create_access_token
              {[ "sub" := VStr (ObjectId.to_str (_id user)); "role" := role ]} in
          profile <- lift (AdminProfile_new (ObjectId.to_str (_id user))
                             (get_default user "name" (VStr ""))
                             (get_default user "email" (VStr ""))
                             role) ;;
          ret {| token := token; profile := profile |}
  end.

(** *** Dashboard *)

(** [float(x)] of an aggregation result. *)
Definition py_float (v : value) : outcome float :=
  match v with
  | VFloat q => Return q
  | VInt z => float_of_int z
  | VBool b => Return (if b then 1%float else 0%float)
  | _ => Raise TypeError
  end.

Definition revenue_pipeline : list Collection.stage :=
  [ Collection.Match [("status", Collection.Ne (VStr "cancelled"))];
    Collection.GroupSum "sum" "total_amount" ].

Definition get_admin_stats : M DashboardStats :=
  total_books <- Collection.count_documents "book" [] ;;
  total_orders <- Collection.count_documents "order" [] ;;
  pending_orders <- Collection.count_documents "order"
                      [("status", Collection.Eq (VStr "pending"))] ;;
  agg <- Collection.aggregate store_sum "order" revenue_pipeline ;;
  revenue <- lift match agg with
                  | row :: _ =>
                      match row !! "sum" with
                      | Some v => py_float v
                      | None => Raise TypeError
                      end
                  | [] => Return 0%float
                  end ;;
  ret {| total_books := total_books; total_orders := total_orders;
         pending_orders := pending_orders; revenue := revenue |}.

(** *** Books *)

(** [doc = get_document_by_id(...); doc["id"] = str(doc.pop("_id"));
    return doc]: [None] has no [pop], which is an [AttributeError]. *)
Definition read_back (collection_name doc_id : string) : M pydict :=
  doc <- get_document_by_id collection_name doc_id ;;
  match doc with
  | Some d => ret (with_id d)
  | None => raise AttributeError
  end.

Definition create_book (now : datetime) (new_id : ObjectId.t)
    (payload : Book.t) : M pydict :=
  new_id <- create_document now new_id "book" (OfModel payload) ;;
  read_back "book" new_id.

Definition get_book (book_id : string) : M pydict :=
  doc <- get_document_by_id "book" book_id ;;
  match doc with
  | None => raise (HTTPException 404 "Book not found")
  | Some d => ret (with_id d)
  end.

Definition update_book (now : datetime) (book_id : string)
    (payload : BookUpdate.t) : M pydict :=
  updated <- update_document now "book" book_id (BookUpdate.set_items payload) ;;
  if negb updated
  then raise (HTTPException 404 "Book not found or no changes")
  else read_back "book" book_id.

Definition delete_book (book_id : string) : M pydict :=
  ok <- delete_document "book" book_id ;;
  if negb ok then raise (HTTPException 404 "Book not found")
  else ret {[ "status" := VStr "deleted" ]}.

(** *** Orders *)

(** [sum(...)] from a running total on: each item contributes
    [i.price * i.quantity], the quantity converted to a double, and is
    added to the running total in binary64, in the order of the items. *)
Fixpoint sum_from (acc : float) (items : list OrderItem.t) : outcome float :=
  match items with
  | [] => Return acc
  | i :: rest =>
      match float_of_int (OrderItem.quantity i) with
      | Return q => sum_from (acc + OrderItem.price i * q)%float rest
      | Raise e => Raise e
      end
  end.

(** [sum(i.price * i.quantity for i in items)]: the running total starts
    at zero. *)
Definition order_total (items : list OrderItem.t) : outcome float :=
  sum_from 0%float items.

Definition create_order (now : datetime) (new_id : ObjectId.t)
    (payload : OrderCreate.t) : M pydict :=
  total <- lift (order_total (OrderCreate.items payload)) ;;
  order <- lift (Order_new (OrderCreate.customer_name payload)
                   (OrderCreate.customer_email payload)
                   (OrderCreate.items payload)
                   total "pending"
                   (OrderCreate.notes payload)) ;;
  new_id <- create_document now new_id "order" (OfModel order) ;;
  read_back "order" new_id.

Definition allowed : list string :=
  ["pending"; "processing"; "shipped"; "delivered"; "cancelled"].

Definition update_order_status (now : datetime) (order_id : string)
    (payload : OrderStatusUpdate) : M pydict :=
  if negb (bool_decide (new_status payload ∈ allowed))
  then raise (HTTPException 400 "Invalid status")
  else
    ok <- update_document now "order" order_id
            {[ "status" := VStr (new_status payload) ]} ;;
    if negb ok then raise (HTTPException 404 "Order not found")
    else read_back "order" order_id.

(** *** The application as a transition system *)

(** A request of the application; [Startup] is the start-up hook. *)
Inductive request : Type :=
| Startup
| Login (payload : LoginRequest)
| Stats
| CreateBook (payload : Book.t)
| GetBook (book_id : string)
| UpdateBook (book_id : string) (payload : BookUpdate.t)
| DeleteBook (book_id : string)
| CreateOrder (payload : OrderCreate.t)
| UpdateOrderStatus (order_id : string) (payload : OrderStatusUpdate).

(** A request together with what the environment contributes while it is
    served: the clock reading and the identifier the driver would
    generate. *)
Record event : Type := {
  at_time : datetime;
  fresh_id : ObjectId.t;
  req : request
}.

(** The store after the request was served, whatever the response. *)
Definition handle (e : event) (w : World) : World :=
  match req e with
  | Startup => (ensure_admin_exists (at_time e) (fresh_id e) w).2
  | Login p => (admin_login p w).2
  | Stats => (get_admin_stats w).2
  | CreateBook p => (create_book (at_time e) (fresh_id e) p w).2
  | GetBook i => (get_book i w).2
  | UpdateBook i p => (update_book (at_time e) i p w).2
  | DeleteBook i => (delete_book i w).2
  | CreateOrder p => (create_order (at_time e) (fresh_id e) p w).2
  | UpdateOrderStatus i p => (update_order_status (at_time e) i p w).2
  end.

Definition run (es : list event) (w : World) : World :=
  fold_left (fun w e => handle e w) es w.

End Handlers.

(** The clock never goes back: readings from [t0] on are non-decreasing. *)
Fixpoint chronological (t0 : datetime) (es : list event) : bool :=
  match es with
  | [] => true
  | e :: es' => (t0 <=? at_time e) && chronological (at_time e) es'
  end.

(** ** The specification's words *)

(** The sum of a sequence of amounts in the precision of the numeric
    type: from zero, each amount added in turn. *)
Definition sum_amounts (l : list float) : float :=
  fold_left (fun acc x => (acc + x)%float) l 0%float.

(** [price * quantity] of one line, in the precision of the numeric
    type. *)
Definition line_amount (i : OrderItem.t) : float :=
  (OrderItem.price i * float_of_Z (OrderItem.quantity i))%float.

(** An order whose status is not ["cancelled"]. *)
Definition not_cancelled (d : document) : bool :=
  negb (bool_decide (fields d !! "status" = Some (VStr "cancelled"))).

(** The [total_amount] of an order document, where it has one. *)
Definition total_amount_of (d : document) : option value :=
  fields d !! "total_amount".

(** Revenue as the specification states it: the sum, as the store adds,
    of [total_amount] over the orders that are not cancelled, and zero
    when there is none. *)
Definition revenue_spec (sum : list (option value) -> float)
    (orders : list document) : float :=
  match List.filter not_cancelled orders with
  | [] => 0%float
  | (_ :: _) as counted => sum (map total_amount_of counted)
  end.

(** A response that is a client error (4xx). *)
Definition client_error {A} (r : outcome A) : Prop :=
  400 <= status_of r < 500.

(** The document the store holds under an identifier. *)
Definition find_by_id (oid : ObjectId.t) (c : list document) : option document :=
  List.find (fun d => bool_decide (_id d = oid)) c.

(** The stored administrator the login looks at: the first one, in the
    order of the collection, whose [email] is the given string. *)
Definition find_by_email (email : string) (db : Database) : option document :=
  List.find (fun d => bool_decide (fields d !! "email" = Some (VStr email)))
    (Collection.docs db "adminuser").

(** The response of a login that goes through, for a stored
    administrator with the given name, address and role. *)
Definition login_response (jwt_encode : pydict -> string -> string -> string)
    (SECRET_KEY : string) (user : document) (name email role : string)
  : LoginResponse :=
  {| token := jwt_encode {[ "sub" := VStr (ObjectId.to_str (_id user));
                            "role" := VStr role ]} SECRET_KEY "HS256";
     profile := {| profile_id := ObjectId.to_str (_id user);
                   profile_name := name;
                   profile_email := email;
                   profile_role := role |} |}.

(** An exception that carries its own status code. *)
Definition is_http (e : exn) : Prop :=
  match e with
  | HTTPException _ _ => True
  | _ => False
  end.

(** A computation that leaves the store as it found it. *)
Definition reads_only {A} (m : M A) : Prop := forall w, (m w).2 = w.

(** A computation that keeps a property of the store, whether it returns
    or raises. *)
Definition preserves {A} (I : World -> Prop) (m : M A) : Prop :=
  forall w, I w -> I (m w).2.

(** Every stored document satisfies [P]. *)
Definition all_docs (P : document -> Prop) (w : World) : Prop :=
  forall (db : Database) (name : string) (d : document),
    w = Some db -> In d (Collection.docs db name) -> P d.

(** The timestamps of a document are in order and not later than the
    clock reading [t]. *)
Definition stamped_by (t : datetime) (d : document) : Prop :=
  exists created updated : Z,
    fields d !! "created_at" = Some (VDatetime created)
    /\ fields d !! "updated_at" = Some (VDatetime updated)
    /\ created <= updated
    /\ updated <= datetime_to_millis t.

(** The timestamps of a document are in order. *)
Definition timestamps_ordered (d : document) : Prop :=
  exists created updated : Z,
    fields d !! "created_at" = Some (VDatetime created)
    /\ fields d !! "updated_at" = Some (VDatetime updated)
    /\ created <= updated.

(** ** Sample data *)

Module Sample.
Definition validate_email (s : string) : option string :=
  if bool_decide (s = "") then None else Some s.
Definition pwd_hash (p : string) : string := String.append "pbkdf2:" p.
Definition pwd_verify (p h : string) : bool := bool_decide (h = pwd_hash p).
Definition jwt_encode (claims : pydict) (key alg : string) : string :=
  match claims !! "sub" with
  | Some (VStr sub) => String.append "jwt:" sub
  | _ => "jwt"
  end.
Definition SECRET_KEY : string := "dev-secret-key-change-me".

(** A [$sum] that adds the numbers from the left in binary64 and skips
    what is not a number. *)
Definition store_sum (vs : list (option value)) : float :=
  fold_left (fun acc v => match v with
                          | Some (VFloat x) => (acc + x)%float
                          | Some (VInt z) => (acc + float_of_Z z)%float
                          | _ => acc
                          end) vs 0%float.

Definition oid1 : ObjectId.t :=
  [x65; x4f; x1a; x00; x9b; x3c; x2d; x7e; x10; x00; x00; x01]%byte.
Definition oid2 : ObjectId.t :=
  [x65; x4f; x1a; x00; x9b; x3c; x2d; x7e; x10; x00; x00; x02]%byte.
Definition oid3 : ObjectId.t :=
  [x65; x4f; x1a; x00; x9b; x3c; x2d; x7e; x10; x00; x00; x03]%byte.
Definition id1 : string := "654f1a009b3c2d7e10000001".

Definition book : Book.t :=
  Book.mk "Dune" "Frank Herbert" 9.5%float 3 None None.

(** One book, created at 5.000 ms. *)
Definition one_book : World :=
  (create_book 5000 oid1 book (Some ∅)).2.

(** The same store, written out. *)
Definition stored_book : document :=
  mkdoc oid1 (<["updated_at" := VDatetime 5]>
                (<["created_at" := VDatetime 5]> (model_dump book))).
Definition book_db : Database := {[ "book" := [stored_book] ]}.

Definition price_only : BookUpdate.t :=
  BookUpdate.mk None None (Some 12%float) None None None.
Definition no_fields : BookUpdate.t :=
  BookUpdate.mk None None None None None None.

(** [{price: 10.0, qty: 2}, {price: 5.5, qty: 1}] *)
Definition two_items : list OrderItem.t :=
  [ OrderItem.mk id1 "Dune" 10%float 2;
    OrderItem.mk "654f1a009b3c2d7e10000002" "Emma" 5.5%float 1 ].
Definition order_request : OrderCreate.t :=
  OrderCreate.mk "Ann" "ann@example.com" two_items None.
Definition empty_order_request : OrderCreate.t :=
  OrderCreate.mk "Ann" "ann@example.com" [] None.

(** One order, created at 5.000 ms. *)
Definition one_order : World :=
  (create_order validate_email 5000 oid1 order_request (Some ∅)).2.

Definition order_doc (oid : ObjectId.t) (total : float) (status : string)
  : document :=
  mkdoc oid {[ "total_amount" := VFloat total; "status" := VStr status ]}.

(** Orders of 100 (pending), 50 (cancelled) and 25 (shipped). *)
Definition three_orders : Database :=
  {[ "order" := [ order_doc oid1 100%float "pending";
                  order_doc oid2 50%float "cancelled";
                  order_doc oid3 25%float "shipped" ] ]}.

Definition admin (active : bool) : document :=
  mkdoc oid1 {[ "name" := VStr "Admin"; "email" := VStr "admin@example.com";
                "password_hash" := VStr (pwd_hash "admin123");
                "role" := VStr "admin"; "is_active" := VBool active ]}.
Definition admins (active : bool) : Database :=
  {[ "adminuser" := [admin active] ]}.

Definition day : list event :=
  [ {| at_time := 1000; fresh_id := oid1; req := Startup |};
    {| at_time := 5000; fresh_id := oid1; req := CreateBook book |};
    {| at_time := 5400; fresh_id := oid2; req := UpdateBook id1 price_only |};
    {| at_time := 7000; fresh_id := oid2; req := CreateOrder order_request |};
    {| at_time := 9000; fresh_id := oid3;
       req := UpdateOrderStatus "654f1a009b3c2d7e10000002" {| new_status := "shipped" |} |} ].
End Sample.

(** ** database.py and main.py: listing *)

Section Listing.

(** [cursor.sort(spec)]: the store's ordering of a result by the
    [(field, direction)] pairs of [spec]. *)
Variable cursor_sort : list (string * Z) -> list document -> list document.

(** [cursor.limit(n)] for a non-zero [n]: at most [|n|] documents. *)
Definition cursor_limit (n : Z) (c : list document) : list document :=
  firstn (Z.abs_nat n) c.

(** [filter_dict or {}], [if sort:] and [if limit:] take [None], the empty
    list and zero as absent. *)
Definition get_documents (collection_name : string)
    (filter_dict : option Collection.query) (limit : option Z)
    (sort : option (list (string * Z))) : M (list document) :=
  _ensure_db ;;
  c <- Collection.get collection_name ;;
  let cursor := List.filter (Collection.matches (default [] filter_dict)) c in
  let cursor := match sort with
                | Some ((_ :: _) as s) => cursor_sort s cursor
                | _ => cursor
                end in
  let cursor := match limit with
                | Some n => if n =? 0 then cursor else cursor_limit n cursor
                | None => cursor
                end in
  ret cursor.

Definition list_books : M (list pydict) :=
  books <- get_documents "book" None None (Some [("created_at", -1)]) ;;
  ret (map with_id books).

Definition list_orders : M (list pydict) :=
  orders <- get_documents "order" None None (Some [("created_at", -1)]) ;;
  ret (map with_id orders).

End Listing.

(** ** More of the specification's words *)

(** A property of every collection of the store, by name. *)
Definition each_collection (Q : string -> list document -> Prop) (w : World)
  : Prop :=
  forall (db : Database) (name : string),
    w = Some db -> Q name (Collection.docs db name).

(** No two documents of a collection share an identifier. *)
Definition unique_ids (name : string) (c : list document) : Prop :=
  NoDup (map _id c).

(** An order document as the order workflow leaves it: a non-empty
    sequence of items, the sum of their amounts, in the precision of the
    numeric type, as [total_amount], and one of the five statuses. *)
Definition order_ok (d : document) : Prop :=
  exists (items : list OrderItem.t) (status : string),
    fields d !! "items" = Some (VItems items)
    /\ items <> []
    /\ fields d !! "total_amount"
       = Some (VFloat (sum_amounts (map line_amount items)))
    /\ fields d !! "status" = Some (VStr status)
    /\ status ∈ allowed.

Definition orders_ok (name : string) (c : list document) : Prop :=
  name = "order" -> Forall order_ok c.

(** A collection without the first document under an identifier, and with
    that document replaced. *)
Fixpoint remove_by_id (oid : ObjectId.t) (c : list document) : list document :=
  match c with
  | [] => []
  | d :: c' => if bool_decide (_id d = oid) then c' else d :: remove_by_id oid c'
  end.

Fixpoint replace_by_id (oid : ObjectId.t) (d' : document) (c : list document)
  : list document :=
  match c with
  | [] => []
  | d :: c' =>
      if bool_decide (_id d = oid) then d' :: c'
      else d :: replace_by_id oid d' c'
  end.

(** The orders that are pending. *)
Definition is_pending (d : document) : bool :=
  bool_decide (fields d !! "status" = Some (VStr "pending")).

(** The message of [_ensure_db]. *)
Definition unavailable : exn :=
  Exception "Database not available. Check DATABASE_URL and DATABASE_NAME environment variables.".

(** An order document after a status update at [now] wrote [status]. *)
Definition with_status (now : datetime) (status : string) (d : document)
  : document :=
  mkdoc (_id d)
    (<["updated_at" := VDatetime (datetime_to_millis now)]>
       {[ "status" := VStr status ]} ∪ fields d).

Module Cases.
(** A sort of the store's kind: by one datetime field, ties in the order
    found; other specifications leave the result as it is. *)
Definition millis_of (k : string) (d : document) : Z :=
  match fields d !! k with
  | Some (VDatetime t) => t
  | _ => 0
  end.
Fixpoint insert_by (k : string) (dir : Z) (d : document) (l : list document)
  : list document :=
  match l with
  | [] => [d]
  | x :: l' =>
      if (if 0 <=? dir then millis_of k d <? millis_of k x
          else millis_of k x <? millis_of k d)
      then d :: x :: l'
      else x :: insert_by k dir d l'
  end.
Definition cursor_sort (spec : list (string * Z)) (c : list document)
  : list document :=
  match spec with
  | [(k, dir)] => foldr (insert_by k dir) [] c
  | _ => c
  end.

Definition emma : Book.t :=
  Book.mk "Emma" "Jane Austen" 8%float 1 (Some "A novel") None.

(** Two books, created at 5.000 ms and 7.000 ms. *)
Definition two_books : World :=
  (create_book 7000 Sample.oid2 emma Sample.one_book).2.

(** A stored administrator without [role] and [is_active]. *)
Definition bare_admin : document :=
  mkdoc Sample.oid2 {[ "name" := VStr "Bo"; "email" := VStr "bo@example.com";
                       "password_hash" := VStr (Sample.pwd_hash "secret") ]}.
(** A stored user with a role the application does not know. *)
Definition guest : document :=
  mkdoc Sample.oid3 {[ "name" := VStr "Cy"; "email" := VStr "cy@example.com";
                       "password_hash" := VStr (Sample.pwd_hash "secret");
                       "role" := VStr "guest" ]}.
Definition users : Database := {[ "adminuser" := [bare_admin; guest] ]}.
End Cases.

(** * Properties *)

(** ** Identifiers *)

Lemma byte_roundtrip (b : byte) :
  ObjectId.byte_fromhex (ObjectId.hexdigit (Byte.to_N b / 16))
                        (ObjectId.hexdigit (Byte.to_N b mod 16))
  = Some b.
Proof. destruct b; vm_compute; reflexivity. Qed.

Lemma fromhex_hex (o : ObjectId.t) :
  ObjectId.fromhex (flat_map ObjectId.byte_hex o) = Some o.
Proof.
  induction o as [|b o IH]; [reflexivity|].
  cbn [flat_map ObjectId.byte_hex app ObjectId.fromhex].
  rewrite byte_roundtrip, IH. reflexivity.
Qed.

Lemma length_hex (o : ObjectId.t) :
  List.length (flat_map ObjectId.byte_hex o) = (2 * List.length o)%nat.
Proof.
  induction o as [|b o IH];
    cbn [flat_map ObjectId.byte_hex app List.length]; lia.
Qed.

Lemma length_string_of_list_ascii (l : list ascii) :
  String.length (string_of_list_ascii l) = List.length l.
Proof. induction l as [|c l IH]; cbn; [reflexivity | now rewrite IH]. Qed.

(** Reading back the string form of a twelve-byte identifier gives the
    identifier. *)
Lemma parse_to_str (o : ObjectId.t) :
  List.length o = 12%nat -> ObjectId.parse (ObjectId.to_str o) = Some o.
Proof.
  intros Hlen. unfold ObjectId.parse, ObjectId.to_str.
  rewrite list_ascii_of_string_of_list_ascii, length_string_of_list_ascii.
  rewrite length_hex, Hlen. cbn. apply fromhex_hex.
Qed.

Lemma parse_to_str_inv (o o' : ObjectId.t) :
  ObjectId.parse (ObjectId.to_str o) = Some o' -> o' = o.
Proof.
  unfold ObjectId.parse, ObjectId.to_str.
  destruct (String.length _ =? 24)%nat; [|discriminate].
  rewrite list_ascii_of_string_of_list_ascii, fromhex_hex. congruence.
Qed.

(** ** Collections *)

Lemma docs_set_docs (db : Database) (name k : string) (c : list document) :
  Collection.docs (Collection.set_docs name c db) k
  = if decide (k = name) then c else Collection.docs db k.
Proof.
  unfold Collection.docs, Collection.set_docs.
  destruct c as [|d c]; case_decide; subst;
    rewrite ?lookup_delete_eq, ?lookup_insert_eq; try reflexivity.
  - rewrite lookup_delete_ne by congruence. reflexivity.
  - rewrite lookup_insert_ne by congruence. reflexivity.
Qed.

Lemma matches_id (oid : ObjectId.t) (d : document) :
  Collection.matches [("_id", Collection.Eq (VObjectId oid))] d
  = bool_decide (_id d = oid).
Proof.
  unfold Collection.matches, Collection.matches_row, Collection.holds,
    Collection.to_dict.
  cbn [forallb fst snd]. rewrite lookup_insert_eq, andb_true_r.
  apply bool_decide_ext. split; congruence.
Qed.

Lemma find_ext {A} (f g : A -> bool) (l : list A) :
  (forall x, f x = g x) -> List.find f l = List.find g l.
Proof.
  intros H. induction l as [|x l IH]; cbn; [reflexivity|].
  rewrite H, IH. reflexivity.
Qed.

Lemma find_id_query (oid : ObjectId.t) (c : list document) :
  List.find (Collection.matches [("_id", Collection.Eq (VObjectId oid))]) c
  = find_by_id oid c.
Proof. apply find_ext. intros d. apply matches_id. Qed.

Lemma find_by_id_id (oid : ObjectId.t) (c : list document) (d : document) :
  find_by_id oid c = Some d -> _id d = oid.
Proof.
  unfold find_by_id. intros H. apply find_some in H as [_ H].
  apply bool_decide_eq_true in H. exact H.
Qed.

Lemma find_by_id_In (oid : ObjectId.t) (c : list document) (d : document) :
  find_by_id oid c = Some d -> In d c.
Proof. unfold find_by_id. intros H. apply find_some in H as [H _]. exact H. Qed.

(** An identifier the collection does not hold is not found, and a
    document appended under it is. *)
Lemma find_by_id_app_new (oid : ObjectId.t) (c : list document) (d : document) :
  existsb (fun d => bool_decide (_id d = oid)) c = false ->
  _id d = oid ->
  find_by_id oid (c ++ [d]) = Some d.
Proof.
  intros Hnew Hid. unfold find_by_id.
  induction c as [|x c IH]; cbn in *.
  - rewrite bool_decide_eq_true_2 by exact Hid. reflexivity.
  - apply orb_false_iff in Hnew as [Hx Hc]. rewrite Hx. apply IH, Hc.
Qed.

Lemma set_fields_plain (data : pydict) (d : document) :
  data !! "_id" = None ->
  Collection.set_fields data d = Return (mkdoc (_id d) (data ∪ fields d)).
Proof. intros H. unfold Collection.set_fields. rewrite H. reflexivity. Qed.

(** [$set] gives back a document with the same identifier. *)
Lemma set_fields_id (data : pydict) (d d' : document) :
  Collection.set_fields data d = Return d' -> _id d' = _id d.
Proof.
  unfold Collection.set_fields. intros H.
  destruct (data !! "_id"); [destruct (decide _)|]; inversion H; reflexivity.
Qed.

(** The update of a collection in which the query finds nothing. *)
Lemma update_first_none (q : Collection.query) (data : pydict) (c : list document) :
  List.find (Collection.matches q) c = None ->
  Collection.update_first q data c
  = Return (c, {| Collection.matched_count := 0; Collection.modified_count := 0 |}).
Proof.
  induction c as [|x c IH]; cbn; [reflexivity|].
  destruct (Collection.matches q x); [discriminate|].
  intros H. rewrite (IH H). reflexivity.
Qed.

(** The update of a collection in which the query finds [d]: [d] is
    replaced where it stands, and the same query then finds the
    replacement. *)
Lemma update_first_some (q : Collection.query) (data : pydict)
    (c : list document) (d d' : document) :
  List.find (Collection.matches q) c = Some d ->
  Collection.set_fields data d = Return d' ->
  Collection.matches q d' = true ->
  exists c',
    Collection.update_first q data c
    = Return (c', {| Collection.matched_count := 1;
                     Collection.modified_count := if decide (d' = d) then 0 else 1 |})
    /\ List.find (Collection.matches q) c' = Some d'
    /\ (forall x, In x c' -> x = d' \/ In x c).
Proof.
  intros Hfind Hset Hm. induction c as [|x c IH]; cbn in *; [discriminate|].
  destruct (Collection.matches q x) eqn:Hx.
  - inversion Hfind; subst x. rewrite Hset.
    exists (d' :: c). cbn. rewrite Hm. repeat split; try reflexivity.
    intros y [Hy|Hy]; [left; congruence | right; right; exact Hy].
  - destruct (IH Hfind) as (c' & -> & Hf & Hin).
    exists (x :: c'). cbn. rewrite Hx. repeat split; try assumption; try reflexivity.
    intros y [Hy|Hy]; [right; left; exact Hy|].
    destruct (Hin y Hy); [left | right; right]; assumption.
Qed.

Lemma update_first_raise (q : Collection.query) (data : pydict)
    (c : list document) (e : exn) :
  Collection.update_first q data c = Raise e -> e = WriteError.
Proof.
  induction c as [|x c IH]; cbn; [discriminate|].
  destruct (Collection.matches q x).
  - unfold Collection.set_fields.
    destruct (data !! "_id"); [destruct (decide _)|]; intros H; inversion H; reflexivity.
  - destruct (Collection.update_first q data c) as [[c' r]|e']; [discriminate|].
    intros H. inversion H; subst. apply IH. reflexivity.
Qed.

(** ** The adapter *)

Lemma get_document_by_id_parsed (name doc_id : string) (oid : ObjectId.t)
    (db : Database) :
  ObjectId.parse doc_id = Some oid ->
  get_document_by_id name doc_id (Some db)
  = (Return (find_by_id oid (Collection.docs db name)), Some db).
Proof.
  intros Hp.
  unfold get_document_by_id, try_except, bind, _ensure_db, ObjectId_new,
    Collection.find_one, Collection.get, ret, bind.
  rewrite Hp. cbn. rewrite find_id_query. reflexivity.
Qed.

Lemma get_document_by_id_malformed (name doc_id : string) (db : Database) :
  ObjectId.parse doc_id = None ->
  get_document_by_id name doc_id (Some db) = (Return None, Some db).
Proof.
  intros Hp.
  unfold get_document_by_id, try_except, bind, _ensure_db, ObjectId_new.
  rewrite Hp. reflexivity.
Qed.

(** Reading never writes. *)
Lemma get_document_by_id_world (name doc_id : string) (w : World) :
  (get_document_by_id name doc_id w).2 = w.
Proof.
  destruct w as [db|]; [|reflexivity].
  destruct (ObjectId.parse doc_id) as [oid|] eqn:Hp.
  - rewrite (get_document_by_id_parsed _ _ _ _ Hp). reflexivity.
  - rewrite (get_document_by_id_malformed _ _ _ Hp). reflexivity.
Qed.

Lemma read_back_parsed (name doc_id : string) (oid : ObjectId.t)
    (db : Database) (d : document) :
  ObjectId.parse doc_id = Some oid ->
  find_by_id oid (Collection.docs db name) = Some d ->
  read_back name doc_id (Some db) = (Return (with_id d), Some db).
Proof.
  intros Hp Hf. unfold read_back, bind.
  rewrite (get_document_by_id_parsed _ _ _ _ Hp), Hf. reflexivity.
Qed.

Lemma read_back_world (name doc_id : string) (w : World) :
  (read_back name doc_id w).2 = w.
Proof.
  unfold read_back, bind.
  pose proof (get_document_by_id_world name doc_id w) as H.
  destruct (get_document_by_id name doc_id w) as [[[d|]|e] w']; cbn in *; exact H.
Qed.

(** [update_document] on an identifier the collection holds: the stored
    document takes the given fields and the refreshed [updated_at], and
    the answer says whether that changed it. *)
Lemma update_document_found (now : datetime) (name doc_id : string)
    (oid : ObjectId.t) (data : pydict) (db : Database) (d : document) :
  ObjectId.parse doc_id = Some oid ->
  data !! "_id" = None ->
  find_by_id oid (Collection.docs db name) = Some d ->
  let d' := mkdoc oid (<["updated_at" := VDatetime (datetime_to_millis now)]> data
                       ∪ fields d) in
  exists c',
    update_document now name doc_id data (Some db)
    = (Return (bool_decide (d' <> d)), Some (Collection.set_docs name c' db))
    /\ find_by_id oid c' = Some d'
    /\ (forall x, In x c' -> x = d' \/ In x (Collection.docs db name)).
Proof.
  intros Hp Hdata Hf d'.
  pose proof (find_by_id_id _ _ _ Hf) as Hid.
  assert (Hset : Collection.set_fields
                   (<["updated_at" := VDatetime (datetime_to_millis now)]> data) d
                 = Return d').
  { rewrite set_fields_plain by (rewrite lookup_insert_ne by discriminate; exact Hdata).
    unfold d'. rewrite Hid. reflexivity. }
  rewrite <- find_id_query in Hf.
  destruct (update_first_some _ _ _ _ _ Hf Hset) as (c' & Hu & Hf' & Hin).
  { rewrite matches_id. apply bool_decide_eq_true_2. reflexivity. }
  exists c'. rewrite find_id_query in Hf'. split; [|split; assumption].
  unfold update_document, bind, _ensure_db, ObjectId_new, Collection.update_one,
    Collection.get, Collection.put, lift, ret, bind.
  rewrite Hp. cbn. rewrite Hu. cbn.
  destruct (decide (d' = d)) as [He|Hne].
  - rewrite bool_decide_eq_false_2 by (intros H; apply H, He). reflexivity.
  - rewrite bool_decide_eq_true_2 by exact Hne. reflexivity.
Qed.

(** [update_document] on an identifier the collection does not hold. *)
Lemma update_document_missing (now : datetime) (name doc_id : string)
    (oid : ObjectId.t) (data : pydict) (db : Database) :
  ObjectId.parse doc_id = Some oid ->
  find_by_id oid (Collection.docs db name) = None ->
  (update_document now name doc_id data (Some db)).1 = Return false.
Proof.
  intros Hp Hf. rewrite <- find_id_query in Hf.
  unfold update_document, bind, _ensure_db, ObjectId_new, Collection.update_one,
    Collection.get, Collection.put, lift, ret, bind.
  rewrite Hp. cbn. rewrite (update_first_none _ _ _ Hf). reflexivity.
Qed.

(** [update_document] and [delete_document] on a string that is not an
    identifier. *)
Lemma update_document_malformed (now : datetime) (name doc_id : string)
    (data : pydict) (db : Database) :
  ObjectId.parse doc_id = None ->
  update_document now name doc_id data (Some db) = (Raise InvalidId, Some db).
Proof.
  intros Hp. unfold update_document, bind, _ensure_db, ObjectId_new.
  rewrite Hp. reflexivity.
Qed.

Lemma delete_document_malformed (name doc_id : string) (db : Database) :
  ObjectId.parse doc_id = None ->
  delete_document name doc_id (Some db) = (Raise InvalidId, Some db).
Proof.
  intros Hp. unfold delete_document, bind, _ensure_db, ObjectId_new.
  rewrite Hp. reflexivity.
Qed.

(** [create_document] of a dictionary without ["_id"]: refused when the
    collection holds the identifier already, appended otherwise. *)
Lemma create_document_outcome (now : datetime) (new_id : ObjectId.t)
    (name : string) (data : model_or_dict) (db : Database) :
  let dict := match data with OfModel a => model_dump a | OfDict d => d end in
  let stamped := <["updated_at" := VDatetime (datetime_to_millis now)]>
                   (<["created_at" := VDatetime (datetime_to_millis now)]> dict) in
  dict !! "_id" = None ->
  create_document now new_id name data (Some db)
  = if existsb (fun d => bool_decide (_id d = new_id)) (Collection.docs db name)
    then (Raise DuplicateKeyError, Some db)
    else (Return (ObjectId.to_str new_id),
          Some (Collection.set_docs name
                  (Collection.docs db name ++ [mkdoc new_id stamped]) db)).
Proof.
  intros dict stamped Hno.
  assert (Hs : stamped !! "_id" = None).
  { unfold stamped. rewrite !lookup_insert_ne by discriminate. exact Hno. }
  unfold create_document, bind, _ensure_db, Collection.insert_one,
    Collection.get, Collection.put, lift, ret, raise, bind.
  cbn. fold dict. fold stamped. rewrite Hs. cbn.
  destruct (existsb _ _); cbn; [reflexivity|].
  rewrite (delete_id _ _ Hs). reflexivity.
Qed.

Lemma create_document_new (now : datetime) (new_id : ObjectId.t)
    (name : string) (data : model_or_dict) (db : Database) :
  let dict := match data with OfModel a => model_dump a | OfDict d => d end in
  let stamped := <["updated_at" := VDatetime (datetime_to_millis now)]>
                   (<["created_at" := VDatetime (datetime_to_millis now)]> dict) in
  dict !! "_id" = None ->
  existsb (fun d => bool_decide (_id d = new_id)) (Collection.docs db name) = false ->
  create_document now new_id name data (Some db)
  = (Return (ObjectId.to_str new_id),
     Some (Collection.set_docs name
             (Collection.docs db name ++ [mkdoc new_id stamped]) db)).
Proof.
  intros dict stamped Hno Hnew.
  rewrite (create_document_outcome now new_id name data db Hno), Hnew.
  reflexivity.
Qed.

(** ** Binary64 rounding keeps what is not negative *)

Lemma leb_zero_nonneg (x : float) :
  (0 <=? x)%float = SFnonneg (Prim2SF x).
Proof.
  rewrite leb_spec. change (Prim2SF 0) with (S754_zero false).
  destruct (Prim2SF x) as [s|s| |s m e]; try destruct s; reflexivity.
Qed.

Lemma shr_1_nonneg (r : shr_record) : 0 <= shr_m r -> 0 <= shr_m (shr_1 r).
Proof.
  destruct r as [m r s]. cbn [shr_m]. destruct m as [|[p|p|]|p]; cbn; lia.
Qed.

Lemma shr_1_div2 (r : shr_record) : 0 <= shr_m r -> shr_m (shr_1 r) = Z.div2 (shr_m r).
Proof.
  destruct r as [m r s]. cbn [shr_m]. destruct m as [|[p|p|]|p]; cbn; try reflexivity; lia.
Qed.

Lemma iter_pos_shr (n : positive) (r : shr_record) :
  0 <= shr_m r ->
  shr_m (SpecFloat.iter_pos shr_1 n r) = Z.shiftr (shr_m r) (Zpos n).
Proof.
  revert r. induction n as [n IH|n IH|]; intros r Hr; cbn [SpecFloat.iter_pos].
  - assert (H1 : 0 <= shr_m (shr_1 r)) by (apply shr_1_nonneg, Hr).
    assert (H2 : 0 <= shr_m (SpecFloat.iter_pos shr_1 n (shr_1 r)))
      by (rewrite IH by exact H1; apply Z.shiftr_nonneg, H1).
    rewrite IH by exact H2. rewrite IH by exact H1.
    rewrite shr_1_div2 by exact Hr. rewrite Z.div2_spec.
    rewrite !Z.shiftr_shiftr by lia. f_equal. lia.
  - assert (H2 : 0 <= shr_m (SpecFloat.iter_pos shr_1 n r))
      by (rewrite IH by exact Hr; apply Z.shiftr_nonneg, Hr).
    rewrite IH by exact H2. rewrite IH by exact Hr.
    rewrite !Z.shiftr_shiftr by lia. f_equal. lia.
  - rewrite shr_1_div2 by exact Hr. apply Z.div2_spec.
Qed.

Lemma digits2_pos_bounds (p : positive) :
  2 ^ (Zpos (digits2_pos p) - 1) <= Zpos p < 2 ^ Zpos (digits2_pos p).
Proof.
  induction p as [p IH|p IH|]; cbn [digits2_pos].
  - rewrite Pos2Z.inj_succ. replace (Z.succ (Zpos (digits2_pos p)) - 1) with (Z.succ (Zpos (digits2_pos p) - 1)) by lia.
    rewrite !Z.pow_succ_r by lia. lia.
  - rewrite Pos2Z.inj_succ. replace (Z.succ (Zpos (digits2_pos p)) - 1) with (Z.succ (Zpos (digits2_pos p) - 1)) by lia.
    rewrite !Z.pow_succ_r by lia. lia.
  - cbn. lia.
Qed.

Lemma digits2_pos_le (p : positive) (k : Z) :
  Zpos p < 2 ^ k -> Zpos (digits2_pos p) <= k.
Proof.
  intros H. destruct (digits2_pos_bounds p) as [Hlo _].
  destruct (Z.le_gt_cases (Zpos (digits2_pos p)) k) as [|Hgt]; [assumption|].
  exfalso. assert (2 ^ k <= 2 ^ (Zpos (digits2_pos p) - 1)) by (apply Z.pow_le_mono_r; lia).
  lia.
Qed.

Lemma shr_record_of_loc_m (m : Z) (l : location) :
  shr_m (shr_record_of_loc m l) = m.
Proof. destruct l as [|[]]; reflexivity. Qed.

Lemma shr_fexp_nonneg (m e : Z) (l : location) :
  0 <= m -> 0 <= shr_m (shr_fexp prec emax m e l).1.
Proof.
  intros Hm. unfold shr_fexp, shr.
  destruct (fexp prec emax (Zdigits2 m + e) - e) as [|k|k]; cbn [fst];
    try (rewrite shr_record_of_loc_m; exact Hm).
  rewrite iter_pos_shr by (rewrite shr_record_of_loc_m; exact Hm).
  apply Z.shiftr_nonneg. rewrite shr_record_of_loc_m. exact Hm.
Qed.

Lemma round_nearest_even_bounds (m : Z) (l : location) :
  m <= round_nearest_even m l <= m + 1.
Proof.
  unfold round_nearest_even. destruct l as [|[]]; try destruct (Z.even m); lia.
Qed.

(** Rounding a number that is not negative gives no NaN and no sign. *)
Lemma binary_round_aux_nonneg (m e : Z) (l : location) :
  0 <= m -> SFnonneg (binary_round_aux prec emax false m e l) = true.
Proof.
  intros Hm. unfold binary_round_aux.
  pose proof (shr_fexp_nonneg m e l Hm) as H1.
  destruct (shr_fexp prec emax m e l) as [r1 e1]. cbn [fst] in H1.
  pose proof (round_nearest_even_bounds (shr_m r1) (loc_of_shr_record r1)) as Hr.
  pose proof (shr_fexp_nonneg (round_nearest_even (shr_m r1) (loc_of_shr_record r1))
                e1 loc_Exact ltac:(lia)) as H2.
  destruct (shr_fexp prec emax _ e1 loc_Exact) as [r2 e2]. cbn [fst] in H2.
  destruct (shr_m r2) as [|q|q]; [reflexivity | | lia].
  destruct (e2 <=? emax - prec); reflexivity.
Qed.

Lemma binary_round_nonneg (p : positive) (e : Z) :
  SFnonneg (binary_round prec emax false p e) = true.
Proof.
  unfold binary_round. destruct (shl_align _ _ _) as [mz ez].
  apply binary_round_aux_nonneg. lia.
Qed.

Lemma shr_fexp_pos (m e : Z) (l : location) :
  0 < m -> -1074 <= e ->
  0 < shr_m (shr_fexp prec emax m e l).1 <= m
  /\ e <= (shr_fexp prec emax m e l).2 <= Z.max e (Zdigits2 m + e - 53).
Proof.
  intros Hm He. destruct m as [|p|p]; try lia.
  unfold shr_fexp, shr, fexp. cbn [Zdigits2].
  change (SpecFloat.emin prec emax) with (-1074). change prec with 53.
  pose proof (digits2_pos_bounds p) as [Hlo Hhi].
  set (d := Zpos (digits2_pos p)) in *.
  destruct (Z.max (d + e - 53) (-1074) - e) as [|k|k] eqn:En; cbn [fst snd];
    try (rewrite shr_record_of_loc_m; lia).
  rewrite iter_pos_shr by (rewrite shr_record_of_loc_m; lia).
  rewrite shr_record_of_loc_m, Z.shiftr_div_pow2 by lia.
  assert (Hk : Zpos k = d - 53) by lia.
  assert (Hpow : 0 < 2 ^ Zpos k <= Zpos p).
  { split; [apply Z.pow_pos_nonneg; lia|].
    etrans; [|exact Hlo]. apply Z.pow_le_mono_r; lia. }
  split; [split|lia].
  - apply Z.div_str_pos. lia.
  - apply Z.div_le_upper_bound; [lia|]. nia.
Qed.

(** Rounding a positive number of at most 64 bits, scaled down by at most
    [2^1074], gives a positive finite number. *)
Lemma binary_round_aux_finite (m e : Z) :
  0 < m < 2 ^ 64 -> -1074 <= e <= 0 ->
  exists m' e', binary_round_aux prec emax false m e loc_Exact
                = S754_finite false m' e'.
Proof.
  intros Hm He. unfold binary_round_aux.
  pose proof (shr_fexp_pos m e loc_Exact ltac:(lia) ltac:(lia)) as [H1 H1e].
  assert (Hd : Zdigits2 m <= 64).
  { destruct m as [|p|p]; try lia. apply digits2_pos_le. lia. }
  destruct (shr_fexp prec emax m e loc_Exact) as [r1 e1]. cbn [fst snd] in H1, H1e.
  pose proof (round_nearest_even_bounds (shr_m r1) (loc_of_shr_record r1)) as Hr.
  set (m2 := round_nearest_even (shr_m r1) (loc_of_shr_record r1)) in *.
  pose proof (shr_fexp_pos m2 e1 loc_Exact ltac:(lia) ltac:(lia)) as [H2 H2e].
  assert (Hd2 : Zdigits2 m2 <= 65).
  { destruct m2 as [|p|p]; try lia. apply digits2_pos_le.
    assert (2 ^ 65 = 2 * 2 ^ 64) by reflexivity. lia. }
  destruct (shr_fexp prec emax m2 e1 loc_Exact) as [r2 e2]. cbn [fst snd] in H2, H2e.
  destruct (shr_m r2) as [|q|q]; try lia.
  change (emax - prec) with 971.
  destruct (Z.leb_spec e2 971); [eauto | lia].
Qed.

Lemma iter_xO (p k : positive) :
  Zpos (Pos.iter xO p k) = Zpos p * 2 ^ Zpos k.
Proof.
  induction k as [|k IH] using Pos.peano_ind.
  - cbn. lia.
  - rewrite Pos.iter_succ, Pos2Z.inj_xO, IH, Pos2Z.inj_succ, Z.pow_succ_r by lia. lia.
Qed.

(** The double of an integer from 1 to [2^63 - 1] is positive and
    finite. *)
Lemma binary_normalize_finite (z : Z) :
  1 <= z < 2 ^ 63 ->
  exists m e, binary_normalize prec emax z 0 false = S754_finite false m e.
Proof.
  intros Hz. destruct z as [|p|p]; try lia.
  unfold binary_normalize, binary_round, shl_align, fexp.
  change (SpecFloat.emin prec emax) with (-1074). change prec with 53.
  pose proof (digits2_pos_bounds p) as [Hlo Hhi].
  assert (Hd : Zpos (digits2_pos p) <= 63) by (apply digits2_pos_le; lia).
  set (d := Zpos (digits2_pos p)) in *.
  assert (Hd1 : 1 <= d) by (unfold d; lia).
  replace (Z.max (d + 0 - 53) (-1074)) with (d - 53) by lia.
  destruct (d - 53 - 0) as [|k|k] eqn:Ek.
  - apply binary_round_aux_finite; [|lia].
    assert (2 ^ 64 = 2 * 2 ^ 63) by reflexivity. lia.
  - apply binary_round_aux_finite; [|lia].
    assert (2 ^ 64 = 2 * 2 ^ 63) by reflexivity. lia.
  - apply binary_round_aux_finite; [|lia].
    rewrite iter_xO. split; [nia|].
    assert (Zpos p * 2 ^ Zpos k < 2 ^ d * 2 ^ Zpos k).
    { apply Z.mul_lt_mono_pos_r; [apply Z.pow_pos_nonneg; lia | exact Hhi]. }
    rewrite <- Z.pow_add_r in H by lia.
    replace (d + Zpos k) with 53 in H by lia.
    assert (2 ^ 53 < 2 ^ 64) by reflexivity. lia.
Qed.

Lemma Prim2SF_float_of_Z (z : Z) :
  0 <= z < 2 ^ 63 ->
  Prim2SF (float_of_Z z) = binary_normalize prec emax z 0 false.
Proof.
  intros Hz. unfold float_of_Z.
  assert (E : Uint63Axioms.to_Z (Uint63Axioms.of_Z z) = z).
  { symmetry. apply Uint63.is_int. exact Hz. }
  rewrite <- E at 1 2. rewrite <- of_uint63_spec, SF2Prim_Prim2SF.
  rewrite of_uint63_spec, E. reflexivity.
Qed.

Lemma add_nonneg (x y : float) :
  (0 <=? x)%float = true -> (0 <=? y)%float = true ->
  (0 <=? x + y)%float = true.
Proof.
  rewrite !leb_zero_nonneg, add_spec. unfold SF64add, SFadd.
  destruct (Prim2SF x) as [sx|sx| |sx mx ex], (Prim2SF y) as [sy|sy| |sy my ey];
    cbn [SFnonneg]; try destruct sx; try destruct sy; cbn [negb];
    try discriminate; try reflexivity; intros _ _.
  cbn [cond_Zopp Z.add]. apply binary_round_nonneg.
Qed.

Lemma mul_nonneg (x : float) (z : Z) :
  (0 <=? x)%float = true -> 1 <= z < 2 ^ 63 ->
  (0 <=? x * float_of_Z z)%float = true.
Proof.
  rewrite !leb_zero_nonneg, mul_spec. intros Hx Hz.
  rewrite Prim2SF_float_of_Z by lia.
  destruct (binary_normalize_finite z Hz) as (m & e & ->).
  unfold SF64mul, SFmul.
  destruct (Prim2SF x) as [sx|sx| |sx mx ex]; cbn [SFnonneg] in *;
    try destruct sx; cbn [negb xorb] in *; try discriminate; try reflexivity.
  apply binary_round_aux_nonneg. lia.
Qed.

(** ** Sums *)

(** The bound of [float_of_int] is where rounding stops being finite. *)
Lemma float_limit_edge :
  is_infinity (float_of_Z (float_limit - 1)) = false
  /\ is_infinity (float_of_Z float_limit) = true
  /\ is_infinity (float_of_Z (- (float_limit - 1))) = false
  /\ is_infinity (float_of_Z (- float_limit)) = true.
Proof. vm_compute. repeat split. Qed.

Lemma float_of_int_int64 (z : Z) :
  int64 z -> float_of_int z = Return (float_of_Z z).
Proof.
  unfold int64, float_of_int. intros [Hlo Hhi].
  assert (H : 2 ^ 63 < float_limit) by (vm_compute; reflexivity).
  destruct (Z.ltb_spec (Z.abs z) float_limit) as [_|Hge]; [reflexivity|].
  exfalso. revert Hlo Hhi H Hge.
  generalize float_limit. generalize (2 ^ 63). lia.
Qed.

Lemma float_of_int_returns (z : Z) (q : float) :
  float_of_int z = Return q -> q = float_of_Z z.
Proof.
  unfold float_of_int. destruct (Z.abs z <? float_limit); [|discriminate].
  intros [= <-]. reflexivity.
Qed.

Lemma sum_from_amounts (items : list OrderItem.t) (acc t : float) :
  sum_from acc items = Return t ->
  t = fold_left (fun a x => (a + x)%float) (map line_amount items) acc.
Proof.
  revert acc. induction items as [|i items IH]; intros acc; cbn [sum_from map fold_left].
  - intros [= <-]. reflexivity.
  - destruct (float_of_int (OrderItem.quantity i)) as [q|e] eqn:Hq; [|discriminate].
    apply float_of_int_returns in Hq. subst q. apply IH.
Qed.

(** When the handler has a total, it is the sum of the line amounts. *)
Lemma order_total_sum (items : list OrderItem.t) (t : float) :
  order_total items = Return t -> t = sum_amounts (map line_amount items).
Proof. apply sum_from_amounts. Qed.

Lemma sum_from_int64 (items : list OrderItem.t) (acc : float) :
  Forall (fun i => int64 (OrderItem.quantity i)) items ->
  sum_from acc items
  = Return (fold_left (fun a x => (a + x)%float) (map line_amount items) acc).
Proof.
  intros H. revert acc.
  induction H as [|i items Hi _ IH]; intros acc; cbn [sum_from map fold_left].
  - reflexivity.
  - rewrite (float_of_int_int64 _ Hi). apply IH.
Qed.

(** Quantities that the driver encodes convert to doubles, so the
    handler has a total. *)
Lemma order_total_int64 (items : list OrderItem.t) :
  Forall (fun i => int64 (OrderItem.quantity i)) items ->
  order_total items = Return (sum_amounts (map line_amount items)).
Proof. apply sum_from_int64. Qed.

Lemma fold_amounts_nonneg (items : list OrderItem.t) (acc : float) :
  (0 <=? acc)%float = true ->
  Forall OrderItem.valid items ->
  Forall (fun i => int64 (OrderItem.quantity i)) items ->
  (0 <=? fold_left (fun a x => (a + x)%float) (map line_amount items) acc)%float
  = true.
Proof.
  intros Hacc Hv. revert acc Hacc.
  induction Hv as [|i items [Hp Hq] _ IH]; intros acc Hacc Hi; cbn [map fold_left].
  - exact Hacc.
  - inversion Hi as [|? ? [_ Hhi] Hi']; subst.
    apply IH; [|exact Hi'].
    apply add_nonneg; [exact Hacc|].
    apply mul_nonneg; [exact Hp | lia].
Qed.

(** Prices that are not negative and quantities from 1 up that the
    driver encodes add up to a total that is not negative, which is what
    the [Order] model checks of it. *)
Lemma sum_amounts_nonneg (items : list OrderItem.t) :
  Forall OrderItem.valid items ->
  Forall (fun i => int64 (OrderItem.quantity i)) items ->
  (0 <=? sum_amounts (map line_amount items))%float = true.
Proof. apply fold_amounts_nonneg. reflexivity. Qed.

(** One line of price 0.1 and quantity 3 amounts to
    0.30000000000000004, the double next above 0.3. *)
Lemma order_total_binary64 :
  order_total [OrderItem.mk Sample.id1 "Dune" 0x1.999999999999ap-4%float 3]
  = Return 0x1.3333333333334p-2%float
  /\ 0x1.3333333333334p-2%float <> 0x1.3333333333333p-2%float.
Proof.
  split; [vm_compute; reflexivity|].
  intros H. apply (f_equal (fun x => PrimFloat.Leibniz.eqb x 0x1.3333333333333p-2)) in H.
  vm_compute in H. discriminate H.
Qed.

(** ** Order creation *)

Section OrderCreation.
Variable validate_email : string -> option string.

(** A request to create an order, with a customer whose address
    validates and a non-empty sequence of valid items whose quantities
    the driver encodes, stores exactly one new order document and returns
    it. *)
Lemma create_order_succeeds (now : datetime) (new_id : ObjectId.t)
    (payload : OrderCreate.t) (db : Database) (email' : string) :
  validate_email (OrderCreate.customer_email payload) = Some email' ->
  OrderCreate.items payload <> [] ->
  Forall OrderItem.valid (OrderCreate.items payload) ->
  Forall (fun i => int64 (OrderItem.quantity i)) (OrderCreate.items payload) ->
  List.length new_id = 12%nat ->
  existsb (fun d => bool_decide (_id d = new_id)) (Collection.docs db "order") = false ->
  exists stored : document,
    create_order validate_email now new_id payload (Some db)
    = (Return (with_id stored),
       Some (Collection.set_docs "order" (Collection.docs db "order" ++ [stored]) db))
    /\ _id stored = new_id
    /\ fields stored !! "total_amount"
       = Some (VFloat (sum_amounts (map line_amount (OrderCreate.items payload))))
    /\ fields stored !! "status" = Some (VStr "pending")
    /\ with_id stored !! "total_amount"
       = Some (VFloat (sum_amounts (map line_amount (OrderCreate.items payload))))
    /\ with_id stored !! "status" = Some (VStr "pending").
Proof.
  intros Hemail Hne Hvalid Hint Hlen Hnew.
  pose proof (sum_amounts_nonneg _ Hvalid Hint) as Hge.
  set (items := OrderCreate.items payload) in *.
  set (total := sum_amounts (map line_amount items)) in *.
  set (order := Order.mk (OrderCreate.customer_name payload) email' items
                  total "pending" (OrderCreate.notes payload)).
  assert (Hnew_order : Order_new validate_email (OrderCreate.customer_name payload)
                         (OrderCreate.customer_email payload) items
                         total "pending" (OrderCreate.notes payload)
                       = Return order).
  { unfold Order_new. rewrite Hemail.
    rewrite bool_decide_eq_true_2.
    2:{ destruct items; [congruence | cbn; lia]. }
    rewrite Hge.
    rewrite bool_decide_eq_true_2 by (unfold Order.statuses; set_solver).
    reflexivity. }
  set (stored := mkdoc new_id
         (<["updated_at" := VDatetime (datetime_to_millis now)]>
            (<["created_at" := VDatetime (datetime_to_millis now)]>
               (model_dump order)))).
  exists stored.
  assert (Htotal : fields stored !! "total_amount" = Some (VFloat total)).
  { cbn. rewrite !lookup_insert_ne by discriminate.
    unfold model_dump, Order_dump. cbn.
    rewrite !lookup_insert_ne by discriminate. rewrite lookup_insert_eq.
    reflexivity. }
  assert (Hstatus : fields stored !! "status" = Some (VStr "pending")).
  { cbn. rewrite !lookup_insert_ne by discriminate.
    unfold model_dump, Order_dump. cbn.
    rewrite !lookup_insert_ne by discriminate. rewrite lookup_insert_eq.
    reflexivity. }
  split; [|split; [reflexivity|]; split; [exact Htotal|]; split; [exact Hstatus|]].
  - unfold create_order. unfold bind at 1. unfold lift at 1. fold items.
    rewrite (order_total_int64 items Hint). fold total.
    unfold bind at 1. unfold lift at 1. rewrite Hnew_order.
    unfold bind.
    rewrite (create_document_new now new_id "order" (OfModel order) db);
      [| reflexivity | exact Hnew].
    fold stored.
    apply (read_back_parsed "order" _ new_id).
    + apply parse_to_str, Hlen.
    + rewrite docs_set_docs. rewrite decide_True by reflexivity.
      apply find_by_id_app_new; [exact Hnew | reflexivity].
  - unfold with_id. rewrite !lookup_insert_ne by discriminate.
    split; [exact Htotal | exact Hstatus].
Qed.

(** Whenever the handler returns, it has stored one new order and
    returns that one. *)
Lemma create_order_returns (now : datetime) (new_id : ObjectId.t)
    (payload : OrderCreate.t) (w w' : World) (doc : pydict) :
  create_order validate_email now new_id payload w = (Return doc, w') ->
  exists (db : Database) (stored : document),
    w = Some db
    /\ w' = Some (Collection.set_docs "order"
                    (Collection.docs db "order" ++ [stored]) db)
    /\ doc = with_id stored
    /\ _id stored = new_id
    /\ fields stored !! "total_amount"
       = Some (VFloat (sum_amounts (map line_amount (OrderCreate.items payload))))
    /\ fields stored !! "status" = Some (VStr "pending").
Proof.
  intros H. unfold create_order in H. unfold bind at 1 in H. unfold lift at 1 in H.
  destruct (order_total (OrderCreate.items payload)) as [total|e] eqn:Hsum;
    [|discriminate H].
  apply order_total_sum in Hsum.
  unfold bind at 1 in H. unfold lift at 1 in H.
  destruct (Order_new validate_email (OrderCreate.customer_name payload)
              (OrderCreate.customer_email payload) (OrderCreate.items payload)
              total "pending"
              (OrderCreate.notes payload)) as [order|e] eqn:Hn; [|discriminate H].
  assert (Ho : Order.total_amount order = total
               /\ Order.status order = "pending").
  { unfold Order_new in Hn.
    destruct (validate_email _); [|discriminate Hn].
    destruct (_ && _); [|discriminate Hn].
    inversion Hn; subst order. split; reflexivity. }
  destruct Ho as [Htot Hst].
  destruct w as [db|]; [|discriminate H].
  unfold bind in H.
  assert (Hno : model_dump order !! "_id" = None).
  { unfold model_dump, Order_dump. rewrite !lookup_insert_ne by discriminate.
    apply lookup_singleton_ne. discriminate. }
  rewrite (create_document_outcome now new_id "order" (OfModel order) db Hno) in H.
  destruct (existsb _ _) eqn:Hnew; [discriminate H|].
  set (stored := mkdoc new_id
         (<["updated_at" := VDatetime (datetime_to_millis now)]>
            (<["created_at" := VDatetime (datetime_to_millis now)]>
               (model_dump order)))) in *.
  destruct (ObjectId.parse (ObjectId.to_str new_id)) as [oid|] eqn:Hp.
  - apply parse_to_str_inv in Hp as Hoid. subst oid.
    rewrite (read_back_parsed "order" _ new_id _ stored Hp) in H.
    2:{ rewrite docs_set_docs, decide_True by reflexivity.
        apply find_by_id_app_new; [exact Hnew | reflexivity]. }
    inversion H; subst doc w'. exists db, stored.
    split; [reflexivity|]. split; [reflexivity|]. split; [reflexivity|].
    split; [reflexivity|]. cbn [fields stored].
    rewrite !lookup_insert_ne by discriminate.
    unfold model_dump, Order_dump.
    rewrite !lookup_insert_ne by discriminate.
    rewrite !lookup_insert_eq.
    rewrite lookup_insert_ne by discriminate.
    rewrite !lookup_insert_ne by discriminate.
    rewrite Htot, Hst, Hsum. split; [reflexivity|].
    rewrite lookup_insert_eq. reflexivity.
  - unfold read_back, bind in H.
    rewrite (get_document_by_id_malformed _ _ _ Hp) in H. discriminate H.
Qed.

(** C1.  A request to create an order, with a customer whose address
    validates and a non-empty sequence of valid items whose quantities
    are within the 64-bit range of the driver, stores exactly one new
    order document and returns it; and whenever a request to create an
    order returns at all,
    the order it stored and returns has as [total_amount] the sum of
    [price * quantity] over the items, from zero and in the order of the
    items, each product and each addition in the precision of the numeric
    type, and as [status] ["pending"]. *)
Theorem create_order_total_pending :
  (forall (now : datetime) (new_id : ObjectId.t) (payload : OrderCreate.t)
          (db : Database) (email' : string),
     validate_email (OrderCreate.customer_email payload) = Some email' ->
     OrderCreate.items payload <> [] ->
     Forall OrderItem.valid (OrderCreate.items payload) ->
     Forall (fun i => int64 (OrderItem.quantity i)) (OrderCreate.items payload) ->
     List.length new_id = 12%nat ->
     existsb (fun d => bool_decide (_id d = new_id)) (Collection.docs db "order")
     = false ->
     exists doc : pydict,
       (create_order validate_email now new_id payload (Some db)).1 = Return doc)
  /\ (forall (now : datetime) (new_id : ObjectId.t) (payload : OrderCreate.t)
             (w w' : World) (doc : pydict),
        create_order validate_email now new_id payload w = (Return doc, w') ->
        exists (db : Database) (stored : document),
          w = Some db
          /\ w' = Some (Collection.set_docs "order"
                          (Collection.docs db "order" ++ [stored]) db)
          /\ doc = with_id stored
          /\ fields stored !! "total_amount"
             = Some (VFloat (sum_amounts (map line_amount (OrderCreate.items payload))))
          /\ fields stored !! "status" = Some (VStr "pending")
          /\ doc !! "total_amount"
             = Some (VFloat (sum_amounts (map line_amount (OrderCreate.items payload))))
          /\ doc !! "status" = Some (VStr "pending")).
Proof.
  split.
  - intros now new_id payload db email' He Hne Hv Hi Hl Hnew.
    destruct (create_order_succeeds now new_id payload db email' He Hne Hv Hi Hl Hnew)
      as (stored & Hrun & _).
    exists (with_id stored). rewrite Hrun. reflexivity.
  - intros now new_id payload w w' doc H.
    destruct (create_order_returns _ _ _ _ _ _ H)
      as (db & stored & -> & -> & -> & _ & Ht & Hs).
    exists db, stored. repeat split; try assumption.
    + unfold with_id. rewrite lookup_insert_ne by discriminate. exact Ht.
    + unfold with_id. rewrite lookup_insert_ne by discriminate. exact Hs.
Qed.

End OrderCreation.

Lemma create_order_total_pending_example :
  exists (doc : pydict) (w' : World),
    create_order Sample.validate_email 5000 Sample.oid1 Sample.order_request (Some ∅)
    = (Return doc, w')
    /\ doc !! "total_amount" = Some (VFloat 25.5%float)
    /\ doc !! "status" = Some (VStr "pending").
Proof.
  destruct (create_order_total_pending Sample.validate_email) as [Hruns Hshape].
  destruct (Hruns 5000 Sample.oid1 Sample.order_request ∅ "ann@example.com")
    as (doc & Hrun).
  - reflexivity.
  - discriminate.
  - repeat constructor; cbn; lia.
  - repeat constructor; cbn; lia.
  - reflexivity.
  - reflexivity.
  - destruct (create_order Sample.validate_email 5000 Sample.oid1
                Sample.order_request (Some ∅)) as [r w'] eqn:E.
    cbn in Hrun. subst r.
    destruct (Hshape _ _ _ _ _ _ E) as (db & stored & _ & _ & _ & _ & _ & Ht & Hs).
    exists doc, w'. split; [reflexivity|]. split; [|exact Hs].
    rewrite Ht. reflexivity.
Defined.

(** C4.  An order request without items is refused by the [Order] model
    inside the handler: the handler raises pydantic's [ValidationError],
    which is no [HTTPException], so the framework answers 500; nothing is
    stored. *)
Theorem create_order_empty_items (validate_email : string -> option string)
    (now : datetime) (new_id : ObjectId.t)
    (customer_name customer_email : string) (notes : option string) (w : World) :
  let payload := OrderCreate.mk customer_name customer_email [] notes in
  create_order validate_email now new_id payload w = (Raise ValidationError, w)
  /\ status_of (create_order validate_email now new_id payload w).1 = 500
  /\ ~ client_error (create_order validate_email now new_id payload w).1.
Proof.
  intros payload.
  assert (H : create_order validate_email now new_id payload w
              = (Raise ValidationError, w)).
  { unfold create_order, bind, lift, Order_new. cbn.
    destruct (validate_email customer_email); reflexivity. }
  rewrite H. split; [reflexivity|]. split; [reflexivity|].
  unfold client_error. cbn. lia.
Qed.

(** C2.  A string that is not an identifier: [get_document_by_id] answers
    "not found", while [update_document] and [delete_document] let
    [InvalidId] through, so that the book handlers built on them answer
    500 where [get_book] answers 404. *)
Theorem malformed_id_propagates (now : datetime) (name doc_id : string)
    (data : pydict) (payload : BookUpdate.t) (db : Database) :
  ObjectId.parse doc_id = None ->
  get_document_by_id name doc_id (Some db) = (Return None, Some db)
  /\ update_document now name doc_id data (Some db) = (Raise InvalidId, Some db)
  /\ delete_document name doc_id (Some db) = (Raise InvalidId, Some db)
  /\ status_of (get_book doc_id (Some db)).1 = 404
  /\ status_of (update_book now doc_id payload (Some db)).1 = 500
  /\ status_of (delete_book doc_id (Some db)).1 = 500.
Proof.
  intros Hp.
  split; [apply get_document_by_id_malformed, Hp|].
  split; [apply update_document_malformed, Hp|].
  split; [apply delete_document_malformed, Hp|].
  unfold get_book, update_book, delete_book, bind.
  rewrite (get_document_by_id_malformed _ _ _ Hp),
    (update_document_malformed _ _ _ _ _ Hp),
    (delete_document_malformed _ _ _ Hp).
  repeat split.
Qed.

Lemma malformed_id_propagates_example :
  get_document_by_id "book" "not-an-id" (Some ∅) = (Return None, Some ∅)
  /\ update_document 5000 "book" "not-an-id" ∅ (Some ∅) = (Raise InvalidId, Some ∅)
  /\ delete_document "book" "not-an-id" (Some ∅) = (Raise InvalidId, Some ∅)
  /\ status_of (get_book "not-an-id" (Some ∅)).1 = 404
  /\ status_of (update_book 5000 "not-an-id" Sample.no_fields (Some ∅)).1 = 500
  /\ status_of (delete_book "not-an-id" (Some ∅)).1 = 500.
Proof.
  apply (malformed_id_propagates 5000 "book" "not-an-id" ∅ Sample.no_fields ∅).
  reflexivity.
Defined.

(** ** Dashboard *)

Lemma filter_map {A B} (f : B -> bool) (g : A -> B) (l : list A) :
  List.filter f (map g l) = map g (List.filter (fun x => f (g x)) l).
Proof.
  induction l as [|x l IH]; cbn; [reflexivity|].
  destruct (f (g x)); cbn; rewrite IH; reflexivity.
Qed.

Lemma filter_ext_bool {A} (f g : A -> bool) (l : list A) :
  (forall x, f x = g x) -> List.filter f l = List.filter g l.
Proof.
  intros H. induction l as [|x l IH]; cbn; [reflexivity|].
  rewrite H, IH. reflexivity.
Qed.

Lemma matches_row_not_cancelled (d : document) :
  Collection.matches_row [("status", Collection.Ne (VStr "cancelled"))]
    (Collection.to_dict d)
  = not_cancelled d.
Proof.
  unfold Collection.matches_row, Collection.holds, Collection.to_dict, not_cancelled.
  cbn [forallb fst snd]. rewrite lookup_insert_ne by discriminate.
  apply andb_true_r.
Qed.

(** What the revenue pipeline yields: nothing when every order is
    cancelled, otherwise one row with the sum. *)
Lemma revenue_pipeline_rows (sum : list (option value) -> float)
    (c : list document) :
  fold_left (fun rows s => Collection.run_stage sum s rows) revenue_pipeline
    (map Collection.to_dict c)
  = match List.filter not_cancelled c with
    | [] => []
    | _ :: _ => [ <["sum" := VFloat (revenue_spec sum c)]> {["_id" := VNone]} ]
    end.
Proof.
  unfold revenue_pipeline, revenue_spec. cbn [fold_left Collection.run_stage].
  rewrite filter_map.
  rewrite (filter_ext_bool _ not_cancelled) by apply matches_row_not_cancelled.
  assert (Hmap : forall l : list document,
             map (fun row : pydict => row !! "total_amount")
               (map Collection.to_dict l)
             = map total_amount_of l).
  { intros l. rewrite map_map. apply map_ext. intros x.
    unfold total_amount_of, Collection.to_dict.
    rewrite lookup_insert_ne by discriminate. reflexivity. }
  destruct (List.filter not_cancelled c) as [|d l]; [reflexivity|].
  rewrite <- (Hmap (d :: l)). reflexivity.
Qed.

Lemma get_admin_stats_runs (sum : list (option value) -> float) (db : Database) :
  exists stats : DashboardStats,
    get_admin_stats sum (Some db) = (Return stats, Some db)
    /\ revenue stats = revenue_spec sum (Collection.docs db "order").
Proof.
  unfold get_admin_stats, bind, lift, ret, Collection.count_documents,
    Collection.aggregate, Collection.get, bind, ret.
  cbv beta iota. rewrite revenue_pipeline_rows.
  destruct (List.filter not_cancelled (Collection.docs db "order")) as [|d l] eqn:E.
  - eexists. split; [reflexivity|]. cbn.
    unfold revenue_spec. rewrite E. reflexivity.
  - rewrite lookup_insert_eq. cbn.
    eexists. split; reflexivity.
Qed.

(** C5.  In every state of the store the dashboard answers, and its
    revenue is the sum of [total_amount] over the orders whose status is
    not ["cancelled"], as the store's [$sum] adds them: 0.0 when there is
    no such order, and otherwise [$sum] of their [total_amount]s, taken
    in the order of the collection.  With a [$sum] that adds doubles from
    the left the revenue is 125.0 for orders of 100 (pending), 50
    (cancelled) and 25 (shipped); it is 0.0 for no orders at all. *)
Theorem get_admin_stats_revenue (store_sum : list (option value) -> float)
    (db : Database) :
  (exists stats : DashboardStats,
     get_admin_stats store_sum (Some db) = (Return stats, Some db)
     /\ revenue stats = revenue_spec store_sum (Collection.docs db "order")
     /\ (List.filter not_cancelled (Collection.docs db "order") = [] ->
         revenue stats = 0%float)
     /\ (List.filter not_cancelled (Collection.docs db "order") <> [] ->
         revenue stats
         = store_sum (map total_amount_of
                        (List.filter not_cancelled (Collection.docs db "order")))))
  /\ (exists stats : DashboardStats,
        get_admin_stats Sample.store_sum (Some Sample.three_orders)
        = (Return stats, Some Sample.three_orders)
        /\ revenue stats = 125%float)
  /\ (exists stats : DashboardStats,
        get_admin_stats store_sum (Some ∅) = (Return stats, Some ∅)
        /\ revenue stats = 0%float).
Proof.
  split; [|split].
  - destruct (get_admin_stats_runs store_sum db) as (stats & Hrun & Hrev).
    exists stats. split; [exact Hrun|]. split; [exact Hrev|].
    rewrite Hrev. unfold revenue_spec.
    destruct (List.filter not_cancelled (Collection.docs db "order")) as [|d l].
    + split; [reflexivity | congruence].
    + split; [discriminate | reflexivity].
  - destruct (get_admin_stats_runs Sample.store_sum Sample.three_orders)
      as (stats & Hrun & Hrev).
    exists stats. split; [exact Hrun|]. rewrite Hrev. reflexivity.
  - destruct (get_admin_stats_runs store_sum ∅) as (stats & Hrun & Hrev).
    exists stats. split; [exact Hrun|]. rewrite Hrev. reflexivity.
Qed.

(** ** Login *)

Lemma get_default_field (d : document) (k : string) (v dflt : value) :
  k <> "_id" -> fields d !! k = Some v -> get_default d k dflt = v.
Proof.
  intros Hk Hv. unfold get_default, doc_get.
  rewrite decide_False by exact Hk. rewrite Hv. reflexivity.
Qed.

Section Login.
Variable pwd_verify : string -> string -> bool.
Variable jwt_encode : pydict -> string -> string -> string.
Variable SECRET_KEY : string.

Lemma find_one_email (email : string) (db : Database) :
  Collection.find_one "adminuser" [("email", Collection.Eq (VStr email))] (Some db)
  = (Return (find_by_email email db), Some db).
Proof.
  unfold Collection.find_one, Collection.get, bind, ret, find_by_email.
  cbv beta iota. do 2 f_equal. apply find_ext. intros d.
  unfold Collection.matches, Collection.matches_row, Collection.holds,
    Collection.to_dict.
  cbn [forallb fst snd]. rewrite lookup_insert_ne by discriminate.
  apply andb_true_r.
Qed.

(** C6.  When the e-mail address finds a stored administrator: a password
    that does not verify against the stored hash gives "invalid
    credentials" (401), whether the account is active or not; a password
    that verifies on an account whose [is_active] is false gives "user is
    inactive" (403).  Neither writes to the store. *)
Theorem admin_login_failures (payload : LoginRequest) (db : Database)
    (user : document) (h : string) :
  find_by_email (login_email payload) db = Some user ->
  fields user !! "password_hash" = Some (VStr h) ->
  (pwd_verify (login_password payload) h = false ->
   admin_login pwd_verify jwt_encode SECRET_KEY payload (Some db)
   = (Raise (HTTPException 401 "Invalid credentials"), Some db))
  /\ (pwd_verify (login_password payload) h = true ->
      fields user !! "is_active" = Some (VBool false) ->
      admin_login pwd_verify jwt_encode SECRET_KEY payload (Some db)
      = (Raise (HTTPException 403 "User is inactive"), Some db)).
Proof.
  intros Hfind Hhash.
  assert (Hstored : get_default user "password_hash" (VStr "") = VStr h)
    by (apply get_default_field; [discriminate | exact Hhash]).
  split.
  - intros Hv. unfold admin_login, bind at 1.
    rewrite find_one_email, Hfind.
    unfold bind, lift. rewrite Hstored. cbn [verify_stored]. rewrite Hv.
    reflexivity.
  - intros Hv Hactive. unfold admin_login, bind at 1.
    rewrite find_one_email, Hfind.
    unfold bind, lift. rewrite Hstored. cbn [verify_stored]. rewrite Hv.
    cbn [negb].
    rewrite (get_default_field user "is_active" (VBool false)) by
      (discriminate || exact Hactive).
    reflexivity.
Qed.

Lemma admin_login_succeeds (payload : LoginRequest) (db : Database)
    (user : document) (name email role : string) :
  find_by_email (login_email payload) db = Some user ->
  verify_stored pwd_verify (login_password payload)
    (get_default user "password_hash" (VStr "")) = Return true ->
  truthy (get_default user "is_active" (VBool true)) = true ->
  get_default user "role" (VStr "staff") = VStr role ->
  role ∈ ["admin"; "staff"] ->
  get_default user "name" (VStr "") = VStr name ->
  get_default user "email" (VStr "") = VStr email ->
  admin_login pwd_verify jwt_encode SECRET_KEY payload (Some db)
  = (Return (login_response jwt_encode SECRET_KEY user name email role), Some db).
Proof.
  intros Hfind Hv Hact Hrole Hin Hname Hemail.
  unfold admin_login, bind at 1. rewrite find_one_email, Hfind.
  unfold bind, lift. rewrite Hv. cbn [negb]. rewrite Hact. cbn [negb].
  rewrite Hrole, Hname, Hemail.
  rewrite bool_decide_eq_true_2.
  2:{ apply list_elem_of_In. apply list_elem_of_In in Hin.
      cbn in *. destruct Hin as [<-|[<-|[]]]; auto. }
  reflexivity.
Qed.

Lemma admin_login_returns (payload : LoginRequest) (w w' : World)
    (r : LoginResponse) :
  admin_login pwd_verify jwt_encode SECRET_KEY payload w = (Return r, w') ->
  exists (db : Database) (user : document) (name email role : string),
    w = Some db /\ w' = Some db
    /\ find_by_email (login_email payload) db = Some user
    /\ verify_stored pwd_verify (login_password payload)
         (get_default user "password_hash" (VStr "")) = Return true
    /\ truthy (get_default user "is_active" (VBool true)) = true
    /\ get_default user "role" (VStr "staff") = VStr role
    /\ role ∈ ["admin"; "staff"]
    /\ get_default user "name" (VStr "") = VStr name
    /\ get_default user "email" (VStr "") = VStr email
    /\ r = login_response jwt_encode SECRET_KEY user name email role.
Proof.
  intros H. destruct w as [db|]; [|discriminate H].
  unfold admin_login, bind at 1 in H. rewrite find_one_email in H.
  destruct (find_by_email (login_email payload) db) as [user|] eqn:Hfind;
    [|discriminate H].
  unfold bind, lift in H.
  destruct (verify_stored pwd_verify (login_password payload)
              (get_default user "password_hash" (VStr ""))) as [ok|e] eqn:Hv;
    [|discriminate H].
  destruct ok; cbn [negb] in H; [|discriminate H].
  destruct (truthy (get_default user "is_active" (VBool true))) eqn:Hact;
    cbn [negb] in H; [|discriminate H].
  destruct (bool_decide (get_default user "role" (VStr "staff")
                         ∈ [VStr "admin"; VStr "staff"])) eqn:Hrole;
    cbn [negb] in H; [|discriminate H].
  apply bool_decide_eq_true in Hrole.
  assert (Hr : exists role, get_default user "role" (VStr "staff") = VStr role
                            /\ role ∈ ["admin"; "staff"]).
  { apply list_elem_of_In in Hrole. cbn in Hrole.
    destruct Hrole as [E|[E|[]]]; rewrite <- E; eexists; split;
      try reflexivity; set_solver. }
  destruct Hr as (role & Hr & Hin). rewrite Hr in H.
  unfold AdminProfile_new in H.
  destruct (get_default user "name" (VStr "")) as [| | | |name| | |] eqn:Hname;
    try discriminate H.
  destruct (get_default user "email" (VStr "")) as [| | | |email| | |] eqn:Hemail;
    try discriminate H.
  unfold ret in H. inversion H; subst.
  exists db, user, name, email, role. repeat split; try assumption; reflexivity.
Qed.

(** C9.  A login goes through exactly for a stored administrator whose
    password verifies, who is active and whose role is admin or staff, and
    it returns a token signed over the user's id and role together with a
    profile of exactly id, name, email and role.  The member names and the
    strings of that response are those and no others, so [password_hash]
    is no part of it. *)
Theorem admin_login_response :
  (forall (payload : LoginRequest) (w w' : World) (r : LoginResponse),
     admin_login pwd_verify jwt_encode SECRET_KEY payload w = (Return r, w')
     <-> exists (db : Database) (user : document) (name email role : string),
           w = Some db /\ w' = Some db
           /\ find_by_email (login_email payload) db = Some user
           /\ verify_stored pwd_verify (login_password payload)
                (get_default user "password_hash" (VStr "")) = Return true
           /\ truthy (get_default user "is_active" (VBool true)) = true
           /\ get_default user "role" (VStr "staff") = VStr role
           /\ role ∈ ["admin"; "staff"]
           /\ get_default user "name" (VStr "") = VStr name
           /\ get_default user "email" (VStr "") = VStr email
           /\ r = login_response jwt_encode SECRET_KEY user name email role)
  /\ (forall (user : document) (name email role : string),
        let r := login_response jwt_encode SECRET_KEY user name email role in
        token r = jwt_encode {[ "sub" := VStr (ObjectId.to_str (_id user));
                                "role" := VStr role ]} SECRET_KEY "HS256"
        /\ profile r = {| profile_id := ObjectId.to_str (_id user);
                          profile_name := name;
                          profile_email := email;
                          profile_role := role |}
        /\ json_keys (LoginResponse_json r)
           = ["token"; "profile"; "id"; "name"; "email"; "role"]
        /\ ("password_hash" ∉ json_keys (LoginResponse_json r))
        /\ json_strings (LoginResponse_json r)
           = [token r; ObjectId.to_str (_id user); name; email; role]).
Proof.
  split.
  - intros payload w w' r. split.
    + apply admin_login_returns.
    + intros (db & user & name & email & role
              & -> & -> & Hf & Hv & Ha & Hr & Hin & Hn & He & ->).
      apply admin_login_succeeds; assumption.
  - intros user name email role r.
    split; [reflexivity|]. split; [reflexivity|]. split; [reflexivity|].
    split; [|reflexivity].
    intros Hin. apply list_elem_of_In in Hin. cbn in Hin.
    repeat destruct Hin as [Hin|Hin]; try discriminate Hin. exact Hin.
Qed.

End Login.

Lemma admin_login_failures_example :
  admin_login Sample.pwd_verify Sample.jwt_encode Sample.SECRET_KEY
    {| login_email := "admin@example.com"; login_password := "guess" |}
    (Some (Sample.admins false))
  = (Raise (HTTPException 401 "Invalid credentials"), Some (Sample.admins false))
  /\ admin_login Sample.pwd_verify Sample.jwt_encode Sample.SECRET_KEY
       {| login_email := "admin@example.com"; login_password := "admin123" |}
       (Some (Sample.admins false))
     = (Raise (HTTPException 403 "User is inactive"), Some (Sample.admins false)).
Proof.
  split.
  - apply (proj1 (admin_login_failures Sample.pwd_verify Sample.jwt_encode
                    Sample.SECRET_KEY
                    {| login_email := "admin@example.com"; login_password := "guess" |}
                    (Sample.admins false) (Sample.admin false)
                    (Sample.pwd_hash "admin123") eq_refl eq_refl)).
    reflexivity.
  - apply (proj2 (admin_login_failures Sample.pwd_verify Sample.jwt_encode
                    Sample.SECRET_KEY
                    {| login_email := "admin@example.com"; login_password := "admin123" |}
                    (Sample.admins false) (Sample.admin false)
                    (Sample.pwd_hash "admin123") eq_refl eq_refl));
      reflexivity.
Defined.

Lemma admin_login_response_example :
  exists r : LoginResponse,
    admin_login Sample.pwd_verify Sample.jwt_encode Sample.SECRET_KEY
      {| login_email := "admin@example.com"; login_password := "admin123" |}
      (Some (Sample.admins true))
    = (Return r, Some (Sample.admins true))
    /\ token r = "jwt:654f1a009b3c2d7e10000001"
    /\ profile r = {| profile_id := "654f1a009b3c2d7e10000001";
                      profile_name := "Admin";
                      profile_email := "admin@example.com";
                      profile_role := "admin" |}
    /\ json_keys (LoginResponse_json r)
       = ["token"; "profile"; "id"; "name"; "email"; "role"].
Proof.
  destruct (admin_login_response Sample.pwd_verify Sample.jwt_encode
              Sample.SECRET_KEY) as [Hiff Hshape].
  exists (login_response Sample.jwt_encode Sample.SECRET_KEY (Sample.admin true)
            "Admin" "admin@example.com" "admin").
  split.
  - apply Hiff.
    exists (Sample.admins true), (Sample.admin true), "Admin", "admin@example.com",
      "admin".
    repeat split. apply list_elem_of_In. left. reflexivity.
  - destruct (Hshape (Sample.admin true) "Admin" "admin@example.com" "admin")
      as (Ht & Hp & Hk & _).
    split; [rewrite Ht; reflexivity|]. split; [exact Hp | exact Hk].
Defined.

(** ** Book updates *)

Lemma list_to_map_omap_key (l : list (string * option value)) (k : string) (v : value) :
  (list_to_map
     (omap (fun kv : string * option value => (fun v => (kv.1, v)) <$> kv.2) l)
   : pydict) !! k = Some v ->
  In k (map fst l).
Proof.
  intros H. apply elem_of_list_to_map_2 in H.
  apply list_elem_of_In in H. induction l as [|[k' [v'|]] l IH]; cbn in *.
  - contradiction.
  - destruct H as [H|H]; [left; congruence | right; apply IH, H].
  - right. apply IH, H.
Qed.

(** The keys a partial book update can set are the six fields of
    [BookUpdate]. *)
Lemma set_items_keys (p : BookUpdate.t) (k : string) (v : value) :
  BookUpdate.set_items p !! k = Some v ->
  In k ["title"; "author"; "price"; "stock"; "description"; "cover_url"].
Proof. intros H. apply list_to_map_omap_key in H. exact H. Qed.

Lemma set_items_not (p : BookUpdate.t) (k : string) :
  ~ In k ["title"; "author"; "price"; "stock"; "description"; "cover_url"] ->
  BookUpdate.set_items p !! k = None.
Proof.
  intros Hk. destruct (BookUpdate.set_items p !! k) as [v|] eqn:E; [|reflexivity].
  exfalso. apply Hk. apply (set_items_keys p k v E).
Qed.

Ltac not_a_book_field :=
  apply set_items_not; cbn; intros H;
  repeat destruct H as [H|H]; try discriminate H; exact H.

(** C7, as the code has it.  A partial update of a stored book that
    changes the document returns the book read back: every supplied field
    holds its new value, every other field except [updated_at] is as it
    was ([created_at] among them), and [updated_at] is the millisecond of
    the update's clock reading, which is later than [created_at] exactly
    when the update falls in a later millisecond than the creation. *)
Theorem update_book_reads_back (now : datetime) (book_id : string)
    (oid : ObjectId.t) (payload : BookUpdate.t) (db : Database) (d : document) :
  ObjectId.parse book_id = Some oid ->
  find_by_id oid (Collection.docs db "book") = Some d ->
  let data := BookUpdate.set_items payload in
  let d' := mkdoc oid (<["updated_at" := VDatetime (datetime_to_millis now)]> data
                       ∪ fields d) in
  d' <> d ->
  exists c' : list document,
    update_book now book_id payload (Some db)
    = (Return (with_id d'), Some (Collection.set_docs "book" c' db))
    /\ find_by_id oid c' = Some d'
    /\ (forall k v, data !! k = Some v -> with_id d' !! k = Some v)
    /\ (forall k, data !! k = None -> k <> "updated_at" ->
                  with_id d' !! k = with_id d !! k)
    /\ with_id d' !! "created_at" = fields d !! "created_at"
    /\ with_id d' !! "updated_at" = Some (VDatetime (datetime_to_millis now))
    /\ (forall created updated : Z,
          with_id d' !! "created_at" = Some (VDatetime created) ->
          with_id d' !! "updated_at" = Some (VDatetime updated) ->
          (created < updated <-> created < datetime_to_millis now)).
Proof.
  intros Hp Hf data d' Hchg.
  pose proof (find_by_id_id _ _ _ Hf) as Hid.
  assert (Hno : data !! "_id" = None) by (unfold data; not_a_book_field).
  destruct (update_document_found now "book" book_id oid data db d Hp Hno Hf)
    as (c' & Hrun & Hf' & _).
  fold d' in Hrun, Hf'.
  assert (Hupd : with_id d' !! "updated_at"
                 = Some (VDatetime (datetime_to_millis now))).
  { unfold with_id. rewrite lookup_insert_ne by discriminate. cbn [fields d'].
    apply lookup_union_Some_l. apply lookup_insert_eq. }
  assert (Hother : forall k, data !! k = None -> k <> "updated_at" ->
                             with_id d' !! k = with_id d !! k).
  { intros k Hk Hne. unfold with_id. cbn [_id fields d']. rewrite Hid.
    destruct (decide (k = "id")) as [->|Hkid].
    - rewrite !lookup_insert_eq. reflexivity.
    - rewrite !lookup_insert_ne by congruence.
      apply lookup_union_r. rewrite lookup_insert_ne by congruence. exact Hk. }
  assert (Hcreated : with_id d' !! "created_at" = fields d !! "created_at").
  { rewrite Hother; [| unfold data; not_a_book_field | discriminate].
    unfold with_id. rewrite lookup_insert_ne by discriminate. reflexivity. }
  exists c'. split; [|split; [exact Hf'|]].
  - unfold update_book, bind. fold data. rewrite Hrun.
    rewrite bool_decide_eq_true_2 by exact Hchg. cbn [negb].
    apply (read_back_parsed "book" book_id oid); [exact Hp|].
    rewrite docs_set_docs, decide_True by reflexivity. exact Hf'.
  - split; [|split; [exact Hother|split; [exact Hcreated|split; [exact Hupd|]]]].
    + intros k v Hk. unfold with_id. cbn [fields d'].
      assert (Hkid : k <> "id").
      { intros ->. apply set_items_keys in Hk. cbn in Hk.
        repeat destruct Hk as [Hk|Hk]; try discriminate Hk. exact Hk. }
      assert (Hku : k <> "updated_at").
      { intros ->. apply set_items_keys in Hk. cbn in Hk.
        repeat destruct Hk as [Hk|Hk]; try discriminate Hk. exact Hk. }
      rewrite lookup_insert_ne by congruence.
      apply lookup_union_Some_l. rewrite lookup_insert_ne by congruence. exact Hk.
    + intros created updated Hc Hu. rewrite Hupd in Hu.
      inversion Hu; subst. reflexivity.
Qed.

(** A book created at 5.000 ms has its price updated at 5.400 ms: the
    book read back has the new price, and [updated_at] equal to
    [created_at]. *)
Lemma update_book_same_millisecond :
  exists doc : pydict,
    (update_book 5400 Sample.id1 Sample.price_only Sample.one_book).1 = Return doc
    /\ doc !! "price" = Some (VFloat 12%float)
    /\ doc !! "created_at" = Some (VDatetime 5)
    /\ doc !! "updated_at" = Some (VDatetime 5)
    /\ ~ (5 < 5).
Proof.
  eexists. split; [vm_compute; reflexivity|].
  split; [reflexivity|]. split; [reflexivity|]. split; [reflexivity | lia].
Qed.

Lemma one_book_written_out : Sample.one_book = Some Sample.book_db.
Proof. vm_compute. reflexivity. Qed.

Lemma update_book_reads_back_example :
  exists (doc : pydict) (w' : World),
    update_book 9000 Sample.id1 Sample.price_only (Some Sample.book_db)
    = (Return doc, w')
    /\ doc !! "price" = Some (VFloat 12%float)
    /\ doc !! "title" = Some (VStr "Dune")
    /\ doc !! "created_at" = Some (VDatetime 5)
    /\ doc !! "updated_at" = Some (VDatetime 9).
Proof.
  destruct (update_book_reads_back 9000 Sample.id1 Sample.oid1 Sample.price_only
              Sample.book_db Sample.stored_book)
    as (c' & Hrun & _ & Hs & Ho & Hc & Hu & _).
  - reflexivity.
  - reflexivity.
  - intros H. apply (f_equal (fun d => fields d !! "updated_at")) in H.
    vm_compute in H. discriminate H.
  - eexists _, _. split; [exact Hrun|].
    split; [apply Hs; reflexivity|].
    split; [rewrite Ho; [reflexivity | reflexivity | discriminate]|].
    split; [rewrite Hc; reflexivity | rewrite Hu; reflexivity].
Defined.

(** C10, as the code has it.  An update of a stored document answers
    whether the stored document changed: with the fields of the partial
    and the refreshed [updated_at] written over it, is it another
    document?  So an update whose clock reading falls in another
    millisecond than the stored [updated_at] succeeds whatever the partial
    holds, and a book update with an all-empty partial then returns the
    book; in the millisecond of the stored [updated_at] that book update
    answers 404. *)
Theorem update_document_reports_change :
  (forall (now : datetime) (name doc_id : string) (oid : ObjectId.t)
          (data : pydict) (db : Database) (d : document),
     ObjectId.parse doc_id = Some oid ->
     data !! "_id" = None ->
     find_by_id oid (Collection.docs db name) = Some d ->
     let stamp := VDatetime (datetime_to_millis now) in
     let d' := mkdoc oid (<["updated_at" := stamp]> data ∪ fields d) in
     (update_document now name doc_id data (Some db)).1
     = Return (bool_decide (d' <> d))
     /\ (fields d !! "updated_at" <> Some stamp ->
         (update_document now name doc_id data (Some db)).1 = Return true))
  /\ (forall (now : datetime) (book_id : string) (oid : ObjectId.t)
             (payload : BookUpdate.t) (db : Database) (d : document),
        ObjectId.parse book_id = Some oid ->
        find_by_id oid (Collection.docs db "book") = Some d ->
        BookUpdate.set_items payload = ∅ ->
        let stamp := VDatetime (datetime_to_millis now) in
        (fields d !! "updated_at" <> Some stamp ->
         (update_book now book_id payload (Some db)).1
         = Return (with_id (mkdoc oid (<["updated_at" := stamp]> (fields d)))))
        /\ (fields d !! "updated_at" = Some stamp ->
            (update_book now book_id payload (Some db)).1
            = Raise (HTTPException 404 "Book not found or no changes"))).
Proof.
  assert (Hfresh : forall (oid : ObjectId.t) (stamp : value) (data0 : pydict)
                          (d : document),
             fields d !! "updated_at" <> Some stamp ->
             mkdoc oid (<["updated_at" := stamp]> data0 ∪ fields d) <> d).
  { intros oid stamp data0 d Hne H. apply Hne. rewrite <- H at 1. cbn [fields].
    apply lookup_union_Some_l. apply lookup_insert_eq. }
  split.
  - intros now name doc_id oid data db d Hp Hno Hf stamp d'.
    destruct (update_document_found now name doc_id oid data db d Hp Hno Hf)
      as (c' & Hrun & _).
    fold stamp in Hrun. fold d' in Hrun.
    split; [rewrite Hrun; reflexivity|].
    intros Hne. rewrite Hrun. cbn [fst]. f_equal.
    apply bool_decide_eq_true_2. apply Hfresh, Hne.
  - intros now book_id oid payload db d Hp Hf Hnone stamp.
    pose proof (find_by_id_id _ _ _ Hf) as Hid.
    destruct (update_document_found now "book" book_id oid ∅ db d Hp
                (lookup_empty _) Hf) as (c' & Hrun & Hf' & _).
    fold stamp in Hrun, Hf'.
    assert (Hempty : (<["updated_at" := stamp]> (∅ : pydict) ∪ fields d)
                     = <["updated_at" := stamp]> (fields d)).
    { rewrite <- insert_union_l. rewrite (left_id ∅ (∪)). reflexivity. }
    rewrite Hempty in Hrun, Hf'.
    unfold update_book, bind. rewrite Hnone, Hrun. split.
    + intros Hne. rewrite bool_decide_eq_true_2.
      2:{ rewrite <- Hempty. apply Hfresh, Hne. }
      cbn [negb].
      erewrite (read_back_parsed "book" book_id oid _ _ Hp); [reflexivity|].
      rewrite docs_set_docs, decide_True by reflexivity. exact Hf'.
    + intros Heq. rewrite bool_decide_eq_false_2; [reflexivity|].
      intros H. apply H. destruct d as [i f]. cbn in *. subst i. f_equal.
      apply insert_id, Heq.
Qed.

(** A book created at 5.000 ms is updated at 5.400 ms with a partial
    that holds no field: the identifier is well formed and the book
    exists, and the update reports no success, so the handler answers
    404. *)
Lemma update_empty_partial_same_millisecond :
  ObjectId.parse Sample.id1 = Some Sample.oid1
  /\ find_by_id Sample.oid1 (Collection.docs Sample.book_db "book")
     = Some Sample.stored_book
  /\ (update_document 5400 "book" Sample.id1 ∅ (Some Sample.book_db)).1
     = Return false
  /\ (update_book 5400 Sample.id1 Sample.no_fields (Some Sample.book_db)).1
     = Raise (HTTPException 404 "Book not found or no changes").
Proof. repeat split; vm_compute; reflexivity. Qed.

Lemma update_document_reports_change_example :
  (update_document 9000 "book" Sample.id1 ∅ (Some Sample.book_db)).1 = Return true
  /\ exists doc : pydict,
       (update_book 9000 Sample.id1 Sample.no_fields (Some Sample.book_db)).1
       = Return doc
       /\ doc !! "updated_at" = Some (VDatetime 9)
       /\ doc !! "title" = Some (VStr "Dune").
Proof.
  destruct update_document_reports_change as [Hupd Hbook].
  split.
  - apply (Hupd 9000 "book" Sample.id1 Sample.oid1 ∅ Sample.book_db
             Sample.stored_book eq_refl (lookup_empty _) eq_refl).
    vm_compute. discriminate.
  - destruct (Hbook 9000 Sample.id1 Sample.oid1 Sample.no_fields Sample.book_db
                Sample.stored_book eq_refl eq_refl eq_refl) as [Hok _].
    eexists. split; [apply Hok; vm_compute; discriminate|].
    split; reflexivity.
Defined.

(** ** Order status *)

(** The adapter raises no [HTTPException] of its own. *)
Lemma update_document_not_http (now : datetime) (name doc_id : string)
    (data : pydict) (w : World) (e : exn) :
  (update_document now name doc_id data w).1 = Raise e -> ~ is_http e.
Proof.
  unfold update_document, bind, _ensure_db, ObjectId_new, Collection.update_one,
    Collection.get, Collection.put, lift, ret, raise, bind.
  destruct w as [db|]; cbv beta iota; [|intros H; inversion H; subst; exact id].
  destruct (ObjectId.parse doc_id) as [oid|]; cbv beta iota;
    [|intros H; inversion H; subst; exact id].
  destruct (Collection.update_first _ _ _) as [[c' r]|e'] eqn:Hu; cbn.
  - discriminate.
  - intros H. inversion H; subst.
    rewrite (update_first_raise _ _ _ _ Hu). exact id.
Qed.

Lemma read_back_not_http (name doc_id : string) (w : World) (e : exn) :
  (read_back name doc_id w).1 = Raise e -> ~ is_http e.
Proof.
  unfold read_back, bind. destruct w as [db|].
  - destruct (ObjectId.parse doc_id) as [oid|] eqn:Hp.
    + rewrite (get_document_by_id_parsed _ _ _ _ Hp).
      destruct (find_by_id oid (Collection.docs db name)); cbn;
        [discriminate | intros H; inversion H; subst; exact id].
    + rewrite (get_document_by_id_malformed _ _ _ Hp). cbn.
      intros H; inversion H; subst; exact id.
  - cbn. intros H; inversion H; subst; exact id.
Qed.

Lemma allowed_spec (s : string) :
  s ∈ allowed
  <-> s = "pending" \/ s = "processing" \/ s = "shipped" \/ s = "delivered"
      \/ s = "cancelled".
Proof.
  unfold allowed. rewrite list_elem_of_In. cbn. intuition congruence.
Qed.

(** C3, as the code has it.  A status update answers 400 "Invalid status"
    exactly when the target status is none of pending, processing,
    shipped, delivered and cancelled, and then the store is as it was.  A
    target status from that set is never refused for the status the order
    has: whenever the update changes the stored order, the order read back
    holds the target status. *)
Theorem update_order_status_validation (now : datetime) (order_id : string)
    (payload : OrderStatusUpdate) (w : World) :
  ((update_order_status now order_id payload w).1
   = Raise (HTTPException 400 "Invalid status")
   <-> new_status payload ∉ allowed)
  /\ (new_status payload ∉ allowed ->
      (update_order_status now order_id payload w).2 = w)
  /\ (new_status payload ∈ allowed ->
      forall (db : Database) (oid : ObjectId.t) (d : document),
        w = Some db ->
        ObjectId.parse order_id = Some oid ->
        find_by_id oid (Collection.docs db "order") = Some d ->
        let d' := mkdoc oid (<["updated_at" := VDatetime (datetime_to_millis now)]>
                               {[ "status" := VStr (new_status payload) ]}
                             ∪ fields d) in
        d' <> d ->
        exists c' : list document,
          update_order_status now order_id payload w
          = (Return (with_id d'), Some (Collection.set_docs "order" c' db))
          /\ find_by_id oid c' = Some d'
          /\ with_id d' !! "status" = Some (VStr (new_status payload))).
Proof.
  unfold update_order_status.
  destruct (decide (new_status payload ∈ allowed)) as [Hin|Hout].
  - rewrite bool_decide_eq_true_2 by exact Hin. cbn [negb].
    split; [|split; [intros Hout; contradiction|]].
    + split; [|intros Hout; contradiction].
      intros H. exfalso. unfold bind in H.
      destruct (update_document now "order" order_id
                  {[ "status" := VStr (new_status payload) ]} w)
        as [[ok|e] w'] eqn:Hu.
      * destruct ok; cbn [negb] in H.
        -- apply (read_back_not_http _ _ _ _ H). exact I.
        -- discriminate H.
      * cbn in H. inversion H; subst.
        apply (update_document_not_http now "order" order_id
                 {[ "status" := VStr (new_status payload) ]} w
                 (HTTPException 400 "Invalid status")); [|exact I].
        rewrite Hu. reflexivity.
    + intros _ db oid d -> Hp Hf Hchg.
      set (d' := mkdoc oid _) in *.
      assert (Hno : ({[ "status" := VStr (new_status payload) ]} : pydict) !! "_id"
                    = None) by (apply lookup_singleton_ne; discriminate).
      destruct (update_document_found now "order" order_id oid
                  {[ "status" := VStr (new_status payload) ]} db d Hp Hno Hf)
        as (c' & Hrun & Hf' & _).
      fold d' in Hrun, Hf'.
      exists c'. split; [|split; [exact Hf'|]].
      * unfold bind. rewrite Hrun.
        rewrite bool_decide_eq_true_2 by exact Hchg. cbn [negb].
        apply (read_back_parsed "order" order_id oid); [exact Hp|].
        rewrite docs_set_docs, decide_True by reflexivity. exact Hf'.
      * unfold with_id. rewrite lookup_insert_ne by discriminate. cbn [fields d'].
        apply lookup_union_Some_l. rewrite lookup_insert_ne by discriminate.
        apply lookup_singleton_eq.
  - rewrite bool_decide_eq_false_2 by exact Hout. cbn [negb].
    split; [|split; [reflexivity | intros Hin; contradiction]].
    split; [intros _; exact Hout | reflexivity].
Qed.

(** An order is stored and a status update names a status of the set
    under an identifier the store does not hold: the answer is 404, a
    client error, although the status is a member of the set. *)
Lemma update_order_status_not_found :
  "shipped" ∈ allowed
  /\ (update_order_status 9000 "654f1a009b3c2d7e10000002"
        {| new_status := "shipped" |} Sample.one_order).1
     = Raise (HTTPException 404 "Order not found")
  /\ client_error (update_order_status 9000 "654f1a009b3c2d7e10000002"
                     {| new_status := "shipped" |} Sample.one_order).1
  /\ ~ (client_error (update_order_status 9000 "654f1a009b3c2d7e10000002"
                        {| new_status := "shipped" |} Sample.one_order).1
        <-> "shipped" ∉ allowed).
Proof.
  assert (Hin : "shipped" ∈ allowed) by (apply allowed_spec; auto).
  assert (Hrun : (update_order_status 9000 "654f1a009b3c2d7e10000002"
                    {| new_status := "shipped" |} Sample.one_order).1
                 = Raise (HTTPException 404 "Order not found"))
    by (vm_compute; reflexivity).
  assert (Hce : client_error (update_order_status 9000 "654f1a009b3c2d7e10000002"
                                {| new_status := "shipped" |} Sample.one_order).1)
    by (rewrite Hrun; unfold client_error; cbn; lia).
  split; [exact Hin|]. split; [exact Hrun|]. split; [exact Hce|].
  intros [H _]. exact (H Hce Hin).
Qed.

Lemma update_order_status_validation_example :
  update_order_status 9000 Sample.id1 {| new_status := "archived" |}
    (Some Sample.three_orders)
  = (Raise (HTTPException 400 "Invalid status"), Some Sample.three_orders)
  /\ exists (doc : pydict) (w' : World),
       update_order_status 9000 "654f1a009b3c2d7e10000003"
         {| new_status := "pending" |} (Some Sample.three_orders)
       = (Return doc, w')
       /\ doc !! "status" = Some (VStr "pending").
Proof.
  split.
  - destruct (update_order_status_validation 9000 Sample.id1
                {| new_status := "archived" |} (Some Sample.three_orders))
      as ([_ Hbad] & Hsame & _).
    assert (Hout : "archived" ∉ allowed).
    { intros H. apply allowed_spec in H.
      repeat destruct H as [H|H]; discriminate H. }
    specialize (Hbad Hout). specialize (Hsame Hout). cbn [new_status] in *.
    destruct (update_order_status 9000 Sample.id1 {| new_status := "archived" |}
                (Some Sample.three_orders)) as [r w'].
    cbn in Hbad, Hsame. subst. reflexivity.
  - destruct (update_order_status_validation 9000 "654f1a009b3c2d7e10000003"
                {| new_status := "pending" |} (Some Sample.three_orders))
      as (_ & _ & Hok).
    destruct (Hok (proj2 (allowed_spec "pending") (or_introl eq_refl))
                Sample.three_orders Sample.oid3
                (Sample.order_doc Sample.oid3 25 "shipped")
                eq_refl eq_refl eq_refl)
      as (c' & Hrun & _ & Hstatus).
    + intros H. apply (f_equal (fun d => fields d !! "status")) in H.
      vm_compute in H. discriminate H.
    + eexists _, _. split; [exact Hrun | exact Hstatus].
Defined.

(** ** Reading and preserving *)

Lemma reads_only_ret {A} (a : A) : reads_only (ret a).
Proof. intros w. reflexivity. Qed.

Lemma reads_only_raise {A} (e : exn) : reads_only (@raise A e).
Proof. intros w. reflexivity. Qed.

Lemma reads_only_lift {A} (r : outcome A) : reads_only (lift r).
Proof. intros w. reflexivity. Qed.

Lemma reads_only_bind {A B} (m : M A) (k : A -> M B) :
  reads_only m -> (forall a, reads_only (k a)) -> reads_only (bind m k).
Proof.
  intros Hm Hk w. unfold bind. specialize (Hm w).
  destruct (m w) as [[a|e] w']; cbn in *; subst; [apply Hk | reflexivity].
Qed.

Lemma reads_only_ensure_db : reads_only _ensure_db.
Proof. intros [db|]; reflexivity. Qed.

Lemma reads_only_get (name : string) : reads_only (Collection.get name).
Proof. intros [db|]; reflexivity. Qed.

Lemma reads_only_find_one (name : string) (q : Collection.query) :
  reads_only (Collection.find_one name q).
Proof.
  apply reads_only_bind; [apply reads_only_get | intros c; apply reads_only_ret].
Qed.

Lemma reads_only_count_documents (name : string) (q : Collection.query) :
  reads_only (Collection.count_documents name q).
Proof.
  apply reads_only_bind; [apply reads_only_get | intros c; apply reads_only_ret].
Qed.

Lemma reads_only_aggregate (sum : list (option value) -> float) (name : string)
    (p : list Collection.stage) :
  reads_only (Collection.aggregate sum name p).
Proof.
  apply reads_only_bind; [apply reads_only_get | intros c; apply reads_only_ret].
Qed.

Lemma reads_only_get_document_by_id (name doc_id : string) :
  reads_only (get_document_by_id name doc_id).
Proof. intros w. apply get_document_by_id_world. Qed.

Lemma reads_only_read_back (name doc_id : string) :
  reads_only (read_back name doc_id).
Proof. intros w. apply read_back_world. Qed.

Lemma reads_only_preserves {A} (I : World -> Prop) (m : M A) :
  reads_only m -> preserves I m.
Proof. intros Hm w Hw. rewrite Hm. exact Hw. Qed.

Lemma preserves_bind {A B} (I : World -> Prop) (m : M A) (k : A -> M B) :
  preserves I m -> (forall a, preserves I (k a)) -> preserves I (bind m k).
Proof.
  intros Hm Hk w Hw. unfold bind. specialize (Hm w Hw).
  destruct (m w) as [[a|e] w']; cbn in *; [apply Hk, Hm | exact Hm].
Qed.

Ltac reads :=
  repeat (cbv zeta;
          first [ apply reads_only_ret
                | apply reads_only_raise
                | apply reads_only_lift
                | apply reads_only_ensure_db
                | apply reads_only_find_one
                | apply reads_only_count_documents
                | apply reads_only_aggregate
                | apply reads_only_get_document_by_id
                | apply reads_only_read_back
                | apply reads_only_bind; [|intros ?]
                | match goal with
                  | |- reads_only (if ?b then _ else _) => destruct b
                  | |- reads_only (match ?x with _ => _ end) => destruct x
                  end ]).

Lemma all_docs_empty (P : document -> Prop) : all_docs P (Some ∅).
Proof. intros db name d [= <-] Hin. exact (False_ind _ Hin). Qed.

Lemma all_docs_set_docs (P : document -> Prop) (db : Database) (name : string)
    (c : list document) :
  all_docs P (Some db) ->
  (forall d, In d c -> P d) ->
  all_docs P (Some (Collection.set_docs name c db)).
Proof.
  intros Hdb Hc db' k d [= <-] Hin. rewrite docs_set_docs in Hin.
  destruct (decide (k = name)); [apply Hc, Hin | apply (Hdb db k d eq_refl Hin)].
Qed.

Lemma insert_one_all_docs (P : document -> Prop) (name : string)
    (new_id : ObjectId.t) (doc : pydict) :
  (forall o, P (mkdoc o (delete "_id" doc))) ->
  preserves (all_docs P) (Collection.insert_one name new_id doc).
Proof.
  intros HP w Hw.
  unfold Collection.insert_one, bind, Collection.get, Collection.put, lift,
    ret, raise, bind.
  destruct w as [db|]; cbv beta iota; [|exact Hw].
  destruct (doc !! "_id") as [[]|]; cbv beta iota; try exact Hw;
    (destruct (existsb _ _); cbn; [exact Hw|];
     apply all_docs_set_docs; [exact Hw|];
     intros d Hin; apply in_app_or in Hin as [Hin|[<-|[]]];
     [apply (Hw db name d eq_refl Hin) | apply HP]).
Qed.

Lemma update_first_In (q : Collection.query) (data : pydict)
    (c c' : list document) (r : Collection.UpdateResult) :
  Collection.update_first q data c = Return (c', r) ->
  forall x, In x c' ->
    In x c \/ exists d, In d c /\ Collection.set_fields data d = Return x.
Proof.
  revert c' r. induction c as [|y c IH]; intros c' r; cbn.
  - intros [= <- _] x [].
  - destruct (Collection.matches q y).
    + destruct (Collection.set_fields data y) as [y'|e] eqn:Hs; [|discriminate].
      intros [= <- _] x [<-|Hin].
      * right. exists y. split; [left; reflexivity | exact Hs].
      * left. right. exact Hin.
    + destruct (Collection.update_first q data c) as [[c'' r'']|e]; [|discriminate].
      intros [= <- _] x [<-|Hin].
      * left. left. reflexivity.
      * destruct (IH c'' r'' eq_refl x Hin) as [H|(d & Hd & Hs)].
        -- left. right. exact H.
        -- right. exists d. split; [right; exact Hd | exact Hs].
Qed.

Lemma update_one_all_docs (P : document -> Prop) (name : string)
    (q : Collection.query) (data : pydict) :
  (forall d d', P d -> Collection.set_fields data d = Return d' -> P d') ->
  preserves (all_docs P) (Collection.update_one name q data).
Proof.
  intros HP w Hw.
  unfold Collection.update_one, bind, Collection.get, Collection.put, lift,
    ret, bind.
  destruct w as [db|]; cbv beta iota; [|exact Hw].
  destruct (Collection.update_first q data (Collection.docs db name))
    as [[c' r]|e] eqn:Hu; cbn; [|exact Hw].
  apply all_docs_set_docs; [exact Hw|].
  intros x Hin. destruct (update_first_In _ _ _ _ _ Hu x Hin) as [H|(d & Hd & Hs)].
  - apply (Hw db name x eq_refl H).
  - apply (HP d x); [apply (Hw db name d eq_refl Hd) | exact Hs].
Qed.

Lemma delete_first_In (q : Collection.query) (c : list document) (x : document) :
  In x (Collection.delete_first q c).1 -> In x c.
Proof.
  induction c as [|y c IH]; cbn; [tauto|].
  destruct (Collection.matches q y); cbn.
  - intros H. right. exact H.
  - intros [<-|H]; [left; reflexivity | right; apply IH, H].
Qed.

Lemma delete_one_all_docs (P : document -> Prop) (name : string)
    (q : Collection.query) :
  preserves (all_docs P) (Collection.delete_one name q).
Proof.
  intros w Hw.
  unfold Collection.delete_one, bind, Collection.get, Collection.put, ret, bind.
  destruct w as [db|]; cbn; [|exact Hw].
  apply all_docs_set_docs; [exact Hw|].
  intros x Hin. apply delete_first_In in Hin. apply (Hw db name x eq_refl Hin).
Qed.

(** ** Timestamps *)

Lemma stamped_by_mono (t t' : datetime) (d : document) :
  t <= t' -> stamped_by t d -> stamped_by t' d.
Proof.
  intros Ht (c & u & Hc & Hu & Hcu & Hut). exists c, u.
  repeat split; try assumption.
  unfold datetime_to_millis in *.
  pose proof (Z.div_le_mono t t' 1000 ltac:(lia) Ht). lia.
Qed.

Lemma stamped_by_ordered (t : datetime) (d : document) :
  stamped_by t d -> timestamps_ordered d.
Proof. intros (c & u & Hc & Hu & Hcu & _). exists c, u. auto. Qed.

Lemma all_docs_impl (P Q : document -> Prop) (w : World) :
  (forall d, P d -> Q d) -> all_docs P w -> all_docs Q w.
Proof. intros HPQ Hw db name d E Hin. apply HPQ, (Hw db name d E Hin). Qed.

(** [create_document] stamps both timestamps with the clock reading. *)
Lemma create_document_stamps (now : datetime) (new_id : ObjectId.t)
    (name : string) (data : model_or_dict) :
  preserves (all_docs (stamped_by now)) (create_document now new_id name data).
Proof.
  unfold create_document.
  apply preserves_bind; [apply reads_only_preserves, reads_only_ensure_db|].
  intros _. cbv zeta.
  apply preserves_bind; [|intros oid; apply reads_only_preserves, reads_only_ret].
  apply insert_one_all_docs. intros o.
  exists (datetime_to_millis now), (datetime_to_millis now). cbn [fields].
  rewrite !lookup_delete_ne by discriminate.
  rewrite lookup_insert_ne by discriminate. rewrite !lookup_insert_eq.
  repeat split; lia.
Qed.

(** [$set] with a refreshed [updated_at] and no [created_at]. *)
Lemma set_fields_stamps (now : datetime) (data : pydict) (d d' : document) :
  data !! "created_at" = None ->
  stamped_by now d ->
  Collection.set_fields
    (<["updated_at" := VDatetime (datetime_to_millis now)]> data) d = Return d' ->
  stamped_by now d'
  /\ fields d' !! "created_at" = fields d !! "created_at"
  /\ fields d' !! "updated_at" = Some (VDatetime (datetime_to_millis now)).
Proof.
  intros Hdata (c & u & Hc & Hu & Hcu & Hut) Hset.
  set (data' := <["updated_at" := VDatetime (datetime_to_millis now)]> data) in *.
  assert (Hshape : exists data'' : pydict,
             fields d' = data'' ∪ fields d
             /\ data'' !! "created_at" = None
             /\ data'' !! "updated_at" = Some (VDatetime (datetime_to_millis now))).
  { unfold Collection.set_fields in Hset.
    destruct (data' !! "_id") as [v|].
    - destruct (decide (v = VObjectId (_id d))); [|discriminate Hset].
      inversion Hset; subst d'. exists (delete "_id" data'). cbn [fields].
      split; [reflexivity|]. rewrite !lookup_delete_ne by discriminate.
      unfold data'. rewrite lookup_insert_ne by discriminate.
      rewrite lookup_insert_eq. auto.
    - inversion Hset; subst d'. exists data'. cbn [fields].
      split; [reflexivity|]. unfold data'.
      rewrite lookup_insert_ne by discriminate. rewrite lookup_insert_eq. auto. }
  destruct Hshape as (data'' & Hf & Hcr & Hup).
  assert (Hc' : fields d' !! "created_at" = fields d !! "created_at")
    by (rewrite Hf; apply lookup_union_r, Hcr).
  assert (Hu' : fields d' !! "updated_at" = Some (VDatetime (datetime_to_millis now)))
    by (rewrite Hf; apply lookup_union_Some_l, Hup).
  split; [|split; assumption].
  exists c, (datetime_to_millis now).
  rewrite Hc', Hu'. repeat split; try assumption; lia.
Qed.

Lemma update_document_stamps (now : datetime) (name doc_id : string)
    (data : pydict) :
  data !! "created_at" = None ->
  preserves (all_docs (stamped_by now)) (update_document now name doc_id data).
Proof.
  intros Hdata. unfold update_document.
  apply preserves_bind; [apply reads_only_preserves, reads_only_ensure_db|].
  intros _. cbv zeta.
  apply preserves_bind.
  { apply reads_only_preserves. unfold ObjectId_new.
    destruct (ObjectId.parse doc_id); reads. }
  intros oid. apply preserves_bind; [|intros r; apply reads_only_preserves; reads].
  apply update_one_all_docs. intros d d' Hd Hset.
  apply (set_fields_stamps now data d d' Hdata Hd Hset).
Qed.

Lemma delete_document_all_docs (P : document -> Prop) (name doc_id : string) :
  preserves (all_docs P) (delete_document name doc_id).
Proof.
  unfold delete_document.
  apply preserves_bind; [apply reads_only_preserves, reads_only_ensure_db|].
  intros _. apply preserves_bind.
  { apply reads_only_preserves. unfold ObjectId_new.
    destruct (ObjectId.parse doc_id); reads. }
  intros oid. apply preserves_bind; [|intros r; apply reads_only_preserves; reads].
  apply delete_one_all_docs.
Qed.

Section Application.
Variable validate_email : string -> option string.
Variable pwd_verify : string -> string -> bool.
Variable pwd_hash : string -> string.
Variable jwt_encode : pydict -> string -> string -> string.
Variable SECRET_KEY : string.
Variable store_sum : list (option value) -> float.

Lemma handle_stamps (e : event) (w : World) :
  all_docs (stamped_by (at_time e)) w ->
  all_docs (stamped_by (at_time e))
    (handle validate_email pwd_verify pwd_hash jwt_encode SECRET_KEY store_sum e w).
Proof.
  destruct e as [now new_id r]. cbn [at_time]. unfold handle. cbn [req at_time fresh_id].
  revert w. destruct r as [|p| |p|i|i p|i|p|i p].
  - (* Startup *)
    apply (preserves_bind (all_docs (stamped_by now)));
      [apply reads_only_preserves; reads|].
    intros n. destruct (n =? 0); [|apply reads_only_preserves; reads].
    apply preserves_bind; [apply reads_only_preserves; reads|]. intros u.
    apply preserves_bind; [apply create_document_stamps|].
    intros s. apply reads_only_preserves; reads.
  - (* Login *)
    apply (reads_only_preserves (all_docs (stamped_by now))).
    unfold admin_login. reads.
  - (* Stats *)
    apply (reads_only_preserves (all_docs (stamped_by now))).
    unfold get_admin_stats. reads.
  - (* CreateBook *)
    apply (preserves_bind (all_docs (stamped_by now)));
      [apply create_document_stamps | intros s; apply reads_only_preserves; reads].
  - (* GetBook *)
    apply (reads_only_preserves (all_docs (stamped_by now))).
    unfold get_book. reads.
  - (* UpdateBook *)
    apply (preserves_bind (all_docs (stamped_by now))).
    + apply update_document_stamps. not_a_book_field.
    + intros ok. apply reads_only_preserves; reads.
  - (* DeleteBook *)
    apply (preserves_bind (all_docs (stamped_by now)));
      [apply delete_document_all_docs | intros ok; apply reads_only_preserves; reads].
  - (* CreateOrder *)
    apply (preserves_bind (all_docs (stamped_by now)));
      [apply reads_only_preserves; reads|].
    intros total. apply preserves_bind; [apply reads_only_preserves; reads|].
    intros o. apply preserves_bind;
      [apply create_document_stamps | intros s; apply reads_only_preserves; reads].
  - (* UpdateOrderStatus *)
    intros w Hw. unfold update_order_status.
    destruct (negb (bool_decide (new_status p ∈ allowed))); [exact Hw|].
    revert w Hw. apply (preserves_bind (all_docs (stamped_by now))).
    + apply update_document_stamps. apply lookup_singleton_ne. discriminate.
    + intros ok. apply reads_only_preserves; reads.
Qed.

Lemma run_stamps (es : list event) (t0 : datetime) (w : World) :
  chronological t0 es = true ->
  all_docs (stamped_by t0) w ->
  exists t, all_docs (stamped_by t)
              (run validate_email pwd_verify pwd_hash jwt_encode SECRET_KEY store_sum es w).
Proof.
  revert t0 w. induction es as [|e es IH]; intros t0 w Hchron Hw; cbn in *.
  - exists t0. exact Hw.
  - apply andb_true_iff in Hchron as [Hle Hchron]. apply Z.leb_le in Hle.
    apply (IH (at_time e)); [exact Hchron|].
    apply handle_stamps.
    apply (all_docs_impl (stamped_by t0)); [|exact Hw].
    intros d. apply stamped_by_mono, Hle.
Qed.

(** C8.  From a store whose documents have [created_at <= updated_at]
    and no timestamp ahead of the clock (the empty store among them),
    every sequence of requests served with clock readings that do not go
    back leaves a store in which every document has
    [created_at <= updated_at].  [create_document] stamps both timestamps
    with the one clock reading; [update_document], for fields other than
    [created_at], writes the clock reading to [updated_at] and leaves
    [created_at] alone. *)
Theorem timestamps_in_order :
  (forall (es : list event) (t0 : datetime) (w : World),
     chronological t0 es = true ->
     all_docs (stamped_by t0) w ->
     all_docs timestamps_ordered
       (run validate_email pwd_verify pwd_hash jwt_encode SECRET_KEY store_sum es w))
  /\ (forall (es : list event) (t0 : datetime),
        chronological t0 es = true ->
        all_docs timestamps_ordered
          (run validate_email pwd_verify pwd_hash jwt_encode SECRET_KEY store_sum es (Some ∅)))
  /\ (forall (now : datetime) (new_id : ObjectId.t) (name : string)
             (data : model_or_dict) (db : Database),
        match data with OfModel a => model_dump a | OfDict d => d end !! "_id" = None ->
        existsb (fun d => bool_decide (_id d = new_id)) (Collection.docs db name)
        = false ->
        exists stored : document,
          create_document now new_id name data (Some db)
          = (Return (ObjectId.to_str new_id),
             Some (Collection.set_docs name (Collection.docs db name ++ [stored]) db))
          /\ fields stored !! "created_at" = Some (VDatetime (datetime_to_millis now))
          /\ fields stored !! "updated_at" = Some (VDatetime (datetime_to_millis now)))
  /\ (forall (now : datetime) (name doc_id : string) (oid : ObjectId.t)
             (data : pydict) (db : Database) (d : document),
        ObjectId.parse doc_id = Some oid ->
        data !! "_id" = None ->
        data !! "created_at" = None ->
        find_by_id oid (Collection.docs db name) = Some d ->
        exists (c' : list document) (d' : document),
          update_document now name doc_id data (Some db)
          = (Return (bool_decide (d' <> d)), Some (Collection.set_docs name c' db))
          /\ find_by_id oid c' = Some d'
          /\ fields d' !! "created_at" = fields d !! "created_at"
          /\ fields d' !! "updated_at" = Some (VDatetime (datetime_to_millis now))).
Proof.
  assert (Hrun : forall es t0 w,
             chronological t0 es = true ->
             all_docs (stamped_by t0) w ->
             all_docs timestamps_ordered
               (run validate_email pwd_verify pwd_hash jwt_encode SECRET_KEY store_sum es w)).
  { intros es t0 w Hchron Hw.
    destruct (run_stamps es t0 w Hchron Hw) as (t & Ht).
    apply (all_docs_impl (stamped_by t)); [|exact Ht].
    intros d. apply stamped_by_ordered. }
  split; [exact Hrun|]. split; [|split].
  - intros es t0 Hchron. apply (Hrun es t0); [exact Hchron | apply all_docs_empty].
  - intros now new_id name data db Hno Hnew.
    eexists. split; [apply (create_document_new now new_id name data db Hno Hnew)|].
    cbn [fields]. rewrite lookup_insert_ne by discriminate.
    rewrite !lookup_insert_eq. split; reflexivity.
  - intros now name doc_id oid data db d Hp Hno Hcr Hf.
    destruct (update_document_found now name doc_id oid data db d Hp Hno Hf)
      as (c' & Hupd & Hf' & _).
    eexists c', _. split; [exact Hupd|]. split; [exact Hf'|]. cbn [fields].
    split.
    + apply lookup_union_r. rewrite lookup_insert_ne by discriminate. exact Hcr.
    + apply lookup_union_Some_l, lookup_insert_eq.
Qed.

End Application.

Lemma timestamps_in_order_example :
  match run Sample.validate_email Sample.pwd_verify Sample.pwd_hash
          Sample.jwt_encode Sample.SECRET_KEY Sample.store_sum Sample.day (Some ∅) with
  | Some db =>
      Forall timestamps_ordered
        (Collection.docs db "adminuser" ++ Collection.docs db "book"
         ++ Collection.docs db "order")
      /\ List.length (Collection.docs db "adminuser" ++ Collection.docs db "book"
                      ++ Collection.docs db "order") = 3%nat
  | None => False
  end.
Proof.
  pose proof (proj1 (proj2 (timestamps_in_order Sample.validate_email
                              Sample.pwd_verify Sample.pwd_hash Sample.jwt_encode
                              Sample.SECRET_KEY Sample.store_sum))
                Sample.day 0 eq_refl) as H.
  destruct (run Sample.validate_email Sample.pwd_verify Sample.pwd_hash
              Sample.jwt_encode Sample.SECRET_KEY Sample.store_sum Sample.day (Some ∅))
    as [db|] eqn:E; [|vm_compute in E; discriminate E].
  split.
  - apply List.Forall_forall. intros d Hin.
    apply in_app_or in Hin as [Hin|Hin]; [|apply in_app_or in Hin as [Hin|Hin]];
      apply (H db _ d eq_refl Hin).
  - vm_compute in E. injection E as <-. vm_compute. reflexivity.
Defined.

(** * Further properties *)

(** ** Properties of every collection *)

Lemma each_collection_empty (Q : string -> list document -> Prop) :
  (forall name, Q name []) -> each_collection Q (Some ∅).
Proof. intros HQ db name [= <-]. apply HQ. Qed.

Lemma each_collection_set_docs (Q : string -> list document -> Prop)
    (db : Database) (name : string) (c : list document) :
  each_collection Q (Some db) -> Q name c ->
  each_collection Q (Some (Collection.set_docs name c db)).
Proof.
  intros Hdb Hc db' k [= <-]. rewrite docs_set_docs.
  destruct (decide (k = name)) as [->|]; [exact Hc | apply (Hdb db k eq_refl)].
Qed.

Lemma insert_one_each (Q : string -> list document -> Prop) (name : string)
    (new_id : ObjectId.t) (doc : pydict) :
  (forall (c : list document) (oid : ObjectId.t), Q name c ->
                 existsb (fun d => bool_decide (_id d = oid)) c = false ->
                 Q name (c ++ [mkdoc oid (delete "_id" doc)])%list) ->
  preserves (each_collection Q) (Collection.insert_one name new_id doc).
Proof.
  intros HQ w Hw.
  unfold Collection.insert_one, bind, Collection.get, Collection.put, lift,
    ret, raise, bind.
  destruct w as [db|]; cbv beta iota; [|exact Hw].
  destruct (doc !! "_id") as [[]|]; cbv beta iota; try exact Hw;
    (destruct (existsb _ _) eqn:Hnew; cbn; [exact Hw|];
     apply each_collection_set_docs; [exact Hw|];
     apply HQ; [apply (Hw db name eq_refl) | exact Hnew]).
Qed.

Lemma update_one_each (Q : string -> list document -> Prop) (name : string)
    (q : Collection.query) (data : pydict) :
  (forall c c' r, Q name c -> Collection.update_first q data c = Return (c', r) ->
                  Q name c') ->
  preserves (each_collection Q) (Collection.update_one name q data).
Proof.
  intros HQ w Hw.
  unfold Collection.update_one, bind, Collection.get, Collection.put, lift,
    ret, bind.
  destruct w as [db|]; cbv beta iota; [|exact Hw].
  destruct (Collection.update_first q data (Collection.docs db name))
    as [[c' r]|e] eqn:Hu; cbn; [|exact Hw].
  apply each_collection_set_docs; [exact Hw|].
  apply (HQ _ c' r (Hw db name eq_refl) Hu).
Qed.

Lemma delete_one_each (Q : string -> list document -> Prop) (name : string)
    (q : Collection.query) :
  (forall c, Q name c -> Q name (Collection.delete_first q c).1) ->
  preserves (each_collection Q) (Collection.delete_one name q).
Proof.
  intros HQ w Hw.
  unfold Collection.delete_one, bind, Collection.get, Collection.put, ret, bind.
  destruct w as [db|]; cbn; [|exact Hw].
  apply each_collection_set_docs; [exact Hw|].
  apply HQ, (Hw db name eq_refl).
Qed.

Lemma create_document_each (Q : string -> list document -> Prop)
    (now : datetime) (new_id : ObjectId.t) (name : string) (data : model_or_dict) :
  (forall (c : list document) (oid : ObjectId.t), Q name c ->
     existsb (fun d => bool_decide (_id d = oid)) c = false ->
     Q name (c ++ [mkdoc oid
                     (delete "_id"
                        (<["updated_at" := VDatetime (datetime_to_millis now)]>
                           (<["created_at" := VDatetime (datetime_to_millis now)]>
                              match data with
                              | OfModel a => model_dump a
                              | OfDict d => d
                              end)))])%list) ->
  preserves (each_collection Q) (create_document now new_id name data).
Proof.
  intros HQ. unfold create_document.
  apply preserves_bind; [apply reads_only_preserves, reads_only_ensure_db|].
  intros _. cbv zeta.
  apply preserves_bind; [|intros oid; apply reads_only_preserves, reads_only_ret].
  apply insert_one_each. exact HQ.
Qed.

Lemma update_document_each (Q : string -> list document -> Prop)
    (now : datetime) (name doc_id : string) (data : pydict) :
  (forall q c c' r, Q name c ->
     Collection.update_first q
       (<["updated_at" := VDatetime (datetime_to_millis now)]> data) c
     = Return (c', r) ->
     Q name c') ->
  preserves (each_collection Q) (update_document now name doc_id data).
Proof.
  intros HQ. unfold update_document.
  apply preserves_bind; [apply reads_only_preserves, reads_only_ensure_db|].
  intros _. cbv zeta.
  apply preserves_bind.
  { apply reads_only_preserves. unfold ObjectId_new.
    destruct (ObjectId.parse doc_id); reads. }
  intros oid. apply preserves_bind; [|intros r; apply reads_only_preserves; reads].
  apply update_one_each. apply HQ.
Qed.

Lemma delete_document_each (Q : string -> list document -> Prop)
    (name doc_id : string) :
  (forall q c, Q name c -> Q name (Collection.delete_first q c).1) ->
  preserves (each_collection Q) (delete_document name doc_id).
Proof.
  intros HQ. unfold delete_document.
  apply preserves_bind; [apply reads_only_preserves, reads_only_ensure_db|].
  intros _. apply preserves_bind.
  { apply reads_only_preserves. unfold ObjectId_new.
    destruct (ObjectId.parse doc_id); reads. }
  intros oid. apply preserves_bind; [|intros r; apply reads_only_preserves; reads].
  apply delete_one_each. apply HQ.
Qed.

(** What the [Order] model has checked of an order it accepted. *)
Lemma Order_new_inv (validate_email : string -> option string)
    (customer_name customer_email : string) (items : list OrderItem.t)
    (total : float) (status : string) (notes : option string) (o : Order.t) :
  Order_new validate_email customer_name customer_email items total status notes
  = Return o ->
  Order.items o = items /\ items <> [] /\ Order.total_amount o = total
  /\ Order.status o = status /\ status ∈ Order.statuses
  /\ (0 <=? total)%float = true.
Proof.
  unfold Order_new. destruct (validate_email customer_email); [|discriminate].
  destruct (bool_decide (1 <= Z.of_nat (List.length items))) eqn:Hl;
    cbn [andb]; [|discriminate].
  destruct (0 <=? total)%float eqn:Ht; cbn [andb]; [|discriminate].
  destruct (bool_decide (status ∈ Order.statuses)) eqn:Hs; [|discriminate].
  intros [= <-]. cbn.
  apply bool_decide_eq_true in Hl, Hs.
  repeat split; try assumption; try reflexivity.
  intros ->. cbn in Hl. lia.
Qed.

Section Requests.
Variable validate_email : string -> option string.
Variable pwd_verify : string -> string -> bool.
Variable pwd_hash : string -> string.
Variable jwt_encode : pydict -> string -> string -> string.
Variable SECRET_KEY : string.
Variable store_sum : list (option value) -> float.

(** A property of the store that the three writes of the adapter keep, at
    the places where the handlers call them, is kept by every request. *)
Lemma handle_preserves (I : World -> Prop) (e : event) :
  (forall u : AdminUser.t,
     preserves I (create_document (at_time e) (fresh_id e) "adminuser" (OfModel u))) ->
  (forall p : Book.t,
     preserves I (create_document (at_time e) (fresh_id e) "book" (OfModel p))) ->
  (forall o : Order.t,
     Order.items o <> [] -> Order.status o = "pending" ->
     order_total (Order.items o) = Return (Order.total_amount o) ->
     preserves I (create_document (at_time e) (fresh_id e) "order" (OfModel o))) ->
  (forall i p,
     preserves I (update_document (at_time e) "book" i (BookUpdate.set_items p))) ->
  (forall i s, s ∈ allowed ->
     preserves I (update_document (at_time e) "order" i {[ "status" := VStr s ]})) ->
  (forall i, preserves I (delete_document "book" i)) ->
  forall w, I w ->
    I (handle validate_email pwd_verify pwd_hash jwt_encode SECRET_KEY store_sum e w).
Proof.
  destruct e as [now new_id r]. cbn [at_time fresh_id].
  intros Hadmin Hbook Horder Hupd Hstatus Hdel.
  unfold handle. cbn [req at_time fresh_id].
  destruct r as [|p| |p|i|i p|i|p|i p].
  - apply (preserves_bind I); [apply reads_only_preserves; reads|].
    intros n. destruct (n =? 0); [|apply reads_only_preserves; reads].
    apply preserves_bind; [apply reads_only_preserves; reads|]. intros u.
    apply preserves_bind; [apply Hadmin|].
    intros s. apply reads_only_preserves; reads.
  - apply (reads_only_preserves I). unfold admin_login. reads.
  - apply (reads_only_preserves I). unfold get_admin_stats. reads.
  - apply (preserves_bind I);
      [apply Hbook | intros s; apply reads_only_preserves; reads].
  - apply (reads_only_preserves I). unfold get_book. reads.
  - apply (preserves_bind I);
      [apply Hupd | intros ok; apply reads_only_preserves; reads].
  - apply (preserves_bind I);
      [apply Hdel | intros ok; apply reads_only_preserves; reads].
  - intros w Hw. unfold create_order. unfold bind at 1. unfold lift at 1.
    destruct (order_total (OrderCreate.items p)) as [total|err] eqn:Hsum;
      [|exact Hw].
    unfold bind at 1. unfold lift at 1.
    destruct (Order_new validate_email _ _ _ _ _ _) as [o|err] eqn:Hn; [|exact Hw].
    apply Order_new_inv in Hn as (Hi & Hne & Ht & Hs & _).
    revert w Hw. apply (preserves_bind I).
    + apply Horder; [rewrite Hi; exact Hne | exact Hs | rewrite Ht, Hi; exact Hsum].
    + intros s. apply reads_only_preserves; reads.
  - intros w Hw. unfold update_order_status.
    destruct (bool_decide (new_status p ∈ allowed)) eqn:Hin; cbn [negb];
      [|exact Hw].
    apply bool_decide_eq_true in Hin.
    revert w Hw. apply (preserves_bind I).
    + apply Hstatus, Hin.
    + intros ok. apply reads_only_preserves; reads.
Qed.

Lemma run_preserves (I : World -> Prop) (es : list event) :
  (forall e w, I w ->
     I (handle validate_email pwd_verify pwd_hash jwt_encode SECRET_KEY store_sum e w)) ->
  forall w, I w ->
    I (run validate_email pwd_verify pwd_hash jwt_encode SECRET_KEY store_sum es w).
Proof.
  intros Hstep. induction es as [|e es IH]; intros w Hw; cbn.
  - exact Hw.
  - apply IH, Hstep, Hw.
Qed.

End Requests.

(** ** Identifiers stay unique *)

Lemma existsb_id_false (oid : ObjectId.t) (c : list document) :
  existsb (fun d => bool_decide (_id d = oid)) c = false ->
  ~ In oid (map _id c).
Proof.
  induction c as [|x c IH]; cbn; [tauto|].
  intros H. apply orb_false_iff in H as [Hx Hc].
  apply bool_decide_eq_false in Hx. intros [E|Hin]; [exact (Hx E) | exact (IH Hc Hin)].
Qed.

Lemma unique_ids_insert (name : string) (c : list document) (oid : ObjectId.t)
    (f : pydict) :
  unique_ids name c ->
  existsb (fun d => bool_decide (_id d = oid)) c = false ->
  unique_ids name (c ++ [mkdoc oid f]).
Proof.
  unfold unique_ids. intros Hc Hnew. apply existsb_id_false in Hnew.
  induction c as [|x c IH]; cbn in *.
  - apply NoDup_cons. split; [apply not_elem_of_nil | apply NoDup_nil_2].
  - apply NoDup_cons in Hc as [Hx Hc]. apply NoDup_cons. split.
    + intros Hin. apply list_elem_of_In in Hin. rewrite map_app in Hin.
      apply in_app_or in Hin as [Hin|[E|[]]].
      * apply Hx, list_elem_of_In, Hin.
      * cbn in E. apply Hnew. left. congruence.
    + apply IH; [exact Hc | intros Hin; apply Hnew; right; exact Hin].
Qed.

(** An update keeps the identifiers of a collection, in their order. *)
Lemma update_first_ids (q : Collection.query) (data : pydict)
    (c c' : list document) (r : Collection.UpdateResult) :
  Collection.update_first q data c = Return (c', r) -> map _id c' = map _id c.
Proof.
  revert c' r. induction c as [|y c IH]; intros c' r; cbn.
  - intros [= <- _]. reflexivity.
  - destruct (Collection.matches q y).
    + destruct (Collection.set_fields data y) as [y'|e] eqn:Hs; [|discriminate].
      intros [= <- _]. cbn. rewrite (set_fields_id _ _ _ Hs). reflexivity.
    + destruct (Collection.update_first q data c) as [[c'' r'']|e]; [|discriminate].
      intros [= <- _]. cbn. rewrite (IH c'' r'' eq_refl). reflexivity.
Qed.

Lemma unique_ids_delete (name : string) (q : Collection.query)
    (c : list document) :
  unique_ids name c -> unique_ids name (Collection.delete_first q c).1.
Proof.
  unfold unique_ids. induction c as [|x c IH]; cbn; [tauto|].
  intros H. apply NoDup_cons in H as [Hx Hc].
  destruct (Collection.matches q x); cbn; [exact Hc|].
  apply NoDup_cons. split; [|apply IH, Hc].
  intros Hin. apply Hx. apply list_elem_of_In. apply list_elem_of_In in Hin.
  apply in_map_iff in Hin as (d & Hd & Hin). apply in_map_iff.
  exists d. split; [exact Hd | apply (delete_first_In q), Hin].
Qed.

(** Under unique identifiers, every document is the one its identifier
    finds. *)
Lemma unique_ids_find (name : string) (c : list document) (d : document) :
  unique_ids name c -> In d c -> find_by_id (_id d) c = Some d.
Proof.
  unfold unique_ids, find_by_id. induction c as [|x c IH]; cbn; [tauto|].
  intros H Hin. apply NoDup_cons in H as [Hx Hc].
  destruct Hin as [->|Hin].
  - rewrite bool_decide_eq_true_2 by reflexivity. reflexivity.
  - rewrite bool_decide_eq_false_2; [apply IH; assumption|].
    intros E. apply Hx. apply list_elem_of_In. rewrite E.
    apply in_map, Hin.
Qed.

Section Invariants.
Variable validate_email : string -> option string.
Variable pwd_verify : string -> string -> bool.
Variable pwd_hash : string -> string.
Variable jwt_encode : pydict -> string -> string -> string.
Variable SECRET_KEY : string.
Variable store_sum : list (option value) -> float.

Lemma handle_unique_ids (e : event) (w : World) :
  each_collection unique_ids w ->
  each_collection unique_ids
    (handle validate_email pwd_verify pwd_hash jwt_encode SECRET_KEY store_sum e w).
Proof.
  apply handle_preserves.
  - intros u. apply create_document_each. intros c oid. apply unique_ids_insert.
  - intros p. apply create_document_each. intros c oid. apply unique_ids_insert.
  - intros o _ _ _. apply create_document_each. intros c oid.
    apply unique_ids_insert.
  - intros i p. apply update_document_each. intros q c c' r Hc Hu.
    unfold unique_ids. rewrite (update_first_ids _ _ _ _ _ Hu). exact Hc.
  - intros i s _. apply update_document_each. intros q c c' r Hc Hu.
    unfold unique_ids. rewrite (update_first_ids _ _ _ _ _ Hu). exact Hc.
  - intros i. apply delete_document_each. intros q c. apply unique_ids_delete.
Qed.

(** X1.  Whatever requests the application has served, from the empty
    store or from any store with unique identifiers, no two documents of a
    collection share an identifier, and every stored document is the one
    that its identifier finds. *)
Theorem identifiers_stay_unique (es : list event) :
  (forall w : World,
     each_collection unique_ids w ->
     each_collection unique_ids
       (run validate_email pwd_verify pwd_hash jwt_encode SECRET_KEY store_sum es w))
  /\ each_collection unique_ids
       (run validate_email pwd_verify pwd_hash jwt_encode SECRET_KEY store_sum es (Some ∅))
  /\ (forall (db : Database) (name : string) (d : document),
        run validate_email pwd_verify pwd_hash jwt_encode SECRET_KEY store_sum es (Some ∅)
        = Some db ->
        In d (Collection.docs db name) ->
        find_by_id (_id d) (Collection.docs db name) = Some d).
Proof.
  assert (Hrun : forall w, each_collection unique_ids w ->
             each_collection unique_ids
               (run validate_email pwd_verify pwd_hash jwt_encode SECRET_KEY store_sum es w)).
  { apply run_preserves. intros e w. apply handle_unique_ids. }
  assert (Hempty : each_collection unique_ids
             (run validate_email pwd_verify pwd_hash jwt_encode SECRET_KEY store_sum es (Some ∅))).
  { apply Hrun. apply each_collection_empty. intros name. apply NoDup_nil_2. }
  split; [exact Hrun|]. split; [exact Hempty|].
  intros db name d E Hin. apply (unique_ids_find name); [|exact Hin].
  apply (Hempty db name E).
Qed.

(** ** Orders stay well formed *)

Lemma order_ok_created (now : datetime) (oid : ObjectId.t) (o : Order.t) :
  Order.items o <> [] -> Order.status o = "pending" ->
  order_total (Order.items o) = Return (Order.total_amount o) ->
  order_ok (mkdoc oid
              (delete "_id"
                 (<["updated_at" := VDatetime (datetime_to_millis now)]>
                    (<["created_at" := VDatetime (datetime_to_millis now)]>
                       (model_dump o))))).
Proof.
  intros Hne Hs Ht. exists (Order.items o), "pending". cbn [fields].
  rewrite !lookup_delete_ne by discriminate.
  rewrite !lookup_insert_ne by discriminate.
  unfold model_dump, Order_dump.
  rewrite !lookup_insert_ne by discriminate.
  rewrite !lookup_insert_eq.
  rewrite !lookup_insert_ne by discriminate.
  rewrite !lookup_insert_eq.
  rewrite !lookup_insert_ne by discriminate.
  rewrite !lookup_insert_eq.
  rewrite (order_total_sum _ _ Ht), Hs.
  repeat split; try assumption. apply allowed_spec. auto.
Qed.

Lemma order_ok_status (now : datetime) (s : string) (d d' : document) :
  s ∈ allowed -> order_ok d ->
  Collection.set_fields
    (<["updated_at" := VDatetime (datetime_to_millis now)]>
       {[ "status" := VStr s ]}) d = Return d' ->
  order_ok d'.
Proof.
  intros Hs (items & st & Hi & Hne & Ht & _ & _) Hset.
  rewrite set_fields_plain in Hset.
  2:{ rewrite lookup_insert_ne by discriminate.
      apply lookup_singleton_ne. discriminate. }
  inversion Hset; subst d'. exists items, s. cbn [fields].
  split; [|split; [exact Hne|split; [|split; [|exact Hs]]]].
  - rewrite lookup_union_r; [exact Hi|].
    rewrite lookup_insert_ne by discriminate.
    apply lookup_singleton_ne. discriminate.
  - rewrite lookup_union_r; [exact Ht|].
    rewrite lookup_insert_ne by discriminate.
    apply lookup_singleton_ne. discriminate.
  - apply lookup_union_Some_l. rewrite lookup_insert_ne by discriminate.
    apply lookup_singleton_eq.
Qed.

Lemma handle_orders_ok (e : event) (w : World) :
  each_collection orders_ok w ->
  each_collection orders_ok
    (handle validate_email pwd_verify pwd_hash jwt_encode SECRET_KEY store_sum e w).
Proof.
  apply handle_preserves.
  - intros u. apply create_document_each. intros c oid _ _ E. discriminate E.
  - intros p. apply create_document_each. intros c oid _ _ E. discriminate E.
  - intros o Hne Hs Ht. apply create_document_each. intros c oid Hc _ _.
    apply Forall_app. split; [apply Hc; reflexivity|].
    constructor; [|constructor]. apply order_ok_created; assumption.
  - intros i p. apply update_document_each. intros q c c' r _ _ E. discriminate E.
  - intros i s Hs. apply update_document_each. intros q c c' r Hc Hu _.
    apply List.Forall_forall. intros x Hin.
    pose proof (proj1 (List.Forall_forall _ _) (Hc eq_refl)) as Hall.
    destruct (update_first_In _ _ _ _ _ Hu x Hin) as [H|(d & Hd & Hset)].
    + apply Hall, H.
    + apply (order_ok_status (at_time e) s d x Hs (Hall d Hd) Hset).
  - intros i. apply delete_document_each. intros q c _ E. discriminate E.
Qed.

(** X2.  Whatever requests the application has served, from the empty
    store or from any store whose orders are well formed, every stored
    order has a non-empty sequence of items, a [total_amount] that is the
    sum of [price * quantity] over them as the handler adds it, from
    zero, in the order of the items and in the precision of the numeric
    type, and one of the five statuses. *)
Theorem orders_stay_well_formed (es : list event) :
  (forall w : World,
     each_collection orders_ok w ->
     each_collection orders_ok
       (run validate_email pwd_verify pwd_hash jwt_encode SECRET_KEY store_sum es w))
  /\ (forall (db : Database) (d : document),
        run validate_email pwd_verify pwd_hash jwt_encode SECRET_KEY store_sum es (Some ∅)
        = Some db ->
        In d (Collection.docs db "order") ->
        order_ok d).
Proof.
  assert (Hrun : forall w, each_collection orders_ok w ->
             each_collection orders_ok
               (run validate_email pwd_verify pwd_hash jwt_encode SECRET_KEY store_sum es w)).
  { apply run_preserves. intros e w. apply handle_orders_ok. }
  split; [exact Hrun|].
  intros db d E Hin.
  assert (Hempty : each_collection orders_ok (Some ∅)).
  { apply each_collection_empty. intros name _. constructor. }
  pose proof (Hrun (Some ∅) Hempty db "order" E eq_refl) as Hall.
  apply (proj1 (List.Forall_forall _ _) Hall d Hin).
Qed.

End Invariants.

(** ** Creating, reading and deleting books *)

Lemma find_by_id_app_other (oid : ObjectId.t) (c : list document) (d : document) :
  _id d <> oid -> find_by_id oid (c ++ [d]) = find_by_id oid c.
Proof.
  intros Hne. unfold find_by_id. induction c as [|x c IH]; cbn.
  - rewrite bool_decide_eq_false_2 by exact Hne. reflexivity.
  - destruct (bool_decide (_id x = oid)); [reflexivity | exact IH].
Qed.

Lemma delete_first_by_id (oid : ObjectId.t) (c : list document) :
  Collection.delete_first [("_id", Collection.Eq (VObjectId oid))] c
  = (remove_by_id oid c,
     {| Collection.deleted_count :=
          match find_by_id oid c with Some _ => 1 | None => 0 end |}).
Proof.
  unfold find_by_id. induction c as [|x c IH]; cbn [Collection.delete_first
    remove_by_id List.find]; [reflexivity|].
  rewrite matches_id. destruct (bool_decide (_id x = oid)); [reflexivity|].
  rewrite IH. reflexivity.
Qed.


Lemma find_by_id_remove_other (oid oid' : ObjectId.t) (c : list document) :
  oid' <> oid -> find_by_id oid' (remove_by_id oid c) = find_by_id oid' c.
Proof.
  intros Hne. unfold find_by_id. induction c as [|x c IH]; cbn; [reflexivity|].
  destruct (bool_decide (_id x = oid)) eqn:Hx; cbn.
  - apply bool_decide_eq_true in Hx.
    rewrite bool_decide_eq_false_2 by congruence. reflexivity.
  - destruct (bool_decide (_id x = oid')); [reflexivity | exact IH].
Qed.

Lemma find_by_id_remove_same (name : string) (oid : ObjectId.t)
    (c : list document) :
  unique_ids name c -> find_by_id oid (remove_by_id oid c) = None.
Proof.
  unfold unique_ids, find_by_id. induction c as [|x c IH]; cbn; [reflexivity|].
  intros H. apply NoDup_cons in H as [Hx Hc].
  destruct (bool_decide (_id x = oid)) eqn:E; cbn.
  - apply bool_decide_eq_true in E. subst oid.
    destruct (List.find (fun d => bool_decide (_id d = _id x)) c) as [y|] eqn:Hf;
      [|reflexivity].
    exfalso. apply Hx. apply list_elem_of_In.
    apply find_some in Hf as [Hin Hy]. apply bool_decide_eq_true in Hy.
    rewrite <- Hy. apply in_map, Hin.
  - rewrite E. apply IH, Hc.
Qed.

(** [delete_document] on a well-formed identifier. *)
Lemma delete_document_parsed (name doc_id : string) (oid : ObjectId.t)
    (db : Database) :
  ObjectId.parse doc_id = Some oid ->
  delete_document name doc_id (Some db)
  = (Return (bool_decide (is_Some (find_by_id oid (Collection.docs db name)))),
     Some (Collection.set_docs name (remove_by_id oid (Collection.docs db name)) db)).
Proof.
  intros Hp.
  unfold delete_document, bind, _ensure_db, ObjectId_new, Collection.delete_one,
    Collection.get, Collection.put, ret, bind.
  rewrite Hp. cbv beta iota. rewrite delete_first_by_id. cbn.
  destruct (find_by_id oid (Collection.docs db name)); reflexivity.
Qed.

Lemma get_book_parsed (book_id : string) (oid : ObjectId.t) (db : Database) :
  ObjectId.parse book_id = Some oid ->
  get_book book_id (Some db)
  = match find_by_id oid (Collection.docs db "book") with
    | Some d => (Return (with_id d), Some db)
    | None => (Raise (HTTPException 404 "Book not found"), Some db)
    end.
Proof.
  intros Hp. unfold get_book, bind.
  rewrite (get_document_by_id_parsed _ _ _ _ Hp).
  destruct (find_by_id oid (Collection.docs db "book")); reflexivity.
Qed.

(** X3.  Creating a book whose [stock] is within the 64-bit range of
    the driver, under a fresh twelve-byte identifier, stores it and
    returns it with the six fields of the request, both timestamps at the
    clock reading and the identifier as the string [id]; reading it by
    that [id] returns the same document; every other book and every other
    collection is as before.  Under an identifier the collection holds
    already, nothing is stored. *)
Theorem create_book_reads_back (now : datetime) (new_id : ObjectId.t)
    (payload : Book.t) (db : Database) :
  List.length new_id = 12%nat ->
  int64 (Book.stock payload) ->
  (existsb (fun d => bool_decide (_id d = new_id)) (Collection.docs db "book")
   = false ->
   exists (doc : pydict) (db' : Database),
     create_book now new_id payload (Some db) = (Return doc, Some db')
     /\ get_book (ObjectId.to_str new_id) (Some db') = (Return doc, Some db')
     /\ doc !! "id" = Some (VStr (ObjectId.to_str new_id))
     /\ doc !! "title" = Some (VStr (Book.title payload))
     /\ doc !! "author" = Some (VStr (Book.author payload))
     /\ doc !! "price" = Some (VFloat (Book.price payload))
     /\ doc !! "stock" = Some (VInt (Book.stock payload))
     /\ doc !! "description" = Some (opt_str (Book.description payload))
     /\ doc !! "cover_url" = Some (opt_str (Book.cover_url payload))
     /\ doc !! "created_at" = Some (VDatetime (datetime_to_millis now))
     /\ doc !! "updated_at" = Some (VDatetime (datetime_to_millis now))
     /\ doc !! "_id" = None
     /\ (forall oid', oid' <> new_id ->
           find_by_id oid' (Collection.docs db' "book")
           = find_by_id oid' (Collection.docs db "book"))
     /\ (forall name, name <> "book" ->
           Collection.docs db' name = Collection.docs db name))
  /\ (existsb (fun d => bool_decide (_id d = new_id)) (Collection.docs db "book")
      = true ->
      create_book now new_id payload (Some db) = (Raise DuplicateKeyError, Some db)).
Proof.
  intros Hlen _.
  assert (Hno : model_dump payload !! "_id" = None).
  { unfold model_dump, Book_dump. rewrite !lookup_insert_ne by discriminate.
    apply lookup_singleton_ne. discriminate. }
  pose proof (create_document_outcome now new_id "book" (OfModel payload) db Hno)
    as Hout. cbv zeta in Hout.
  split; intros Hnew; rewrite Hnew in Hout.
  - set (stored := mkdoc new_id
           (<["updated_at" := VDatetime (datetime_to_millis now)]>
              (<["created_at" := VDatetime (datetime_to_millis now)]>
                 (model_dump payload)))) in *.
    set (db' := Collection.set_docs "book" (Collection.docs db "book" ++ [stored]) db)
      in *.
    assert (Hp : ObjectId.parse (ObjectId.to_str new_id) = Some new_id)
      by (apply parse_to_str, Hlen).
    assert (Hf : find_by_id new_id (Collection.docs db' "book") = Some stored).
    { unfold db'. rewrite docs_set_docs, decide_True by reflexivity.
      apply find_by_id_app_new; [exact Hnew | reflexivity]. }
    exists (with_id stored), db'.
    split; [|split].
    + unfold create_book, bind. rewrite Hout.
      apply (read_back_parsed "book" _ new_id _ _ Hp Hf).
    + rewrite (get_book_parsed _ _ _ Hp), Hf. reflexivity.
    + unfold with_id, stored. cbn [_id fields].
      unfold model_dump, Book_dump.
      repeat (split; [first [ apply lookup_insert_eq
                            | rewrite !lookup_insert_ne by discriminate;
                              first [ apply lookup_insert_eq
                                    | apply lookup_singleton_eq ] ]|]).
      split; [|split].
      * rewrite !lookup_insert_ne by discriminate.
        apply lookup_singleton_ne. discriminate.
      * intros oid' Hne. unfold db'.
        rewrite docs_set_docs, decide_True by reflexivity.
        apply find_by_id_app_other. cbn. congruence.
      * intros name Hne. unfold db'. rewrite docs_set_docs.
        rewrite decide_False by exact Hne. reflexivity.
  - unfold create_book, bind. rewrite Hout. reflexivity.
Qed.

Lemma create_book_reads_back_example :
  exists (doc : pydict) (db' : Database),
    create_book 5000 Sample.oid1 Sample.book (Some ∅) = (Return doc, Some db')
    /\ get_book Sample.id1 (Some db') = (Return doc, Some db')
    /\ doc !! "id" = Some (VStr Sample.id1)
    /\ doc !! "title" = Some (VStr "Dune")
    /\ doc !! "created_at" = Some (VDatetime 5).
Proof.
  assert (Hstock : int64 (Book.stock Sample.book)) by (unfold int64; cbn; lia).
  destruct (create_book_reads_back 5000 Sample.oid1 Sample.book ∅ eq_refl Hstock)
    as [Hnew _].
  destruct (Hnew eq_refl)
    as (doc & db' & Hc & Hg & Hid & Ht & _ & _ & _ & _ & _ & Hcr & _).
  exists doc, db'. repeat split; assumption.
Defined.

(** X4.  Deleting a book that the collection holds, in a collection with
    unique identifiers, answers [{"status": "deleted"}] and removes that
    book: reading or deleting it again answers 404, every other
    identifier finds what it found before, and the other collections are
    as they were. *)
Theorem delete_book_removes (book_id : string) (oid : ObjectId.t)
    (db : Database) (d : document) :
  ObjectId.parse book_id = Some oid ->
  unique_ids "book" (Collection.docs db "book") ->
  find_by_id oid (Collection.docs db "book") = Some d ->
  exists db' : Database,
    delete_book book_id (Some db)
    = (Return {[ "status" := VStr "deleted" ]}, Some db')
    /\ Collection.docs db' "book" = remove_by_id oid (Collection.docs db "book")
    /\ get_book book_id (Some db')
       = (Raise (HTTPException 404 "Book not found"), Some db')
    /\ (delete_book book_id (Some db')).1
       = Raise (HTTPException 404 "Book not found")
    /\ (forall oid', oid' <> oid ->
          find_by_id oid' (Collection.docs db' "book")
          = find_by_id oid' (Collection.docs db "book"))
    /\ (forall name, name <> "book" ->
          Collection.docs db' name = Collection.docs db name).
Proof.
  intros Hp Huniq Hf.
  set (db' := Collection.set_docs "book"
                (remove_by_id oid (Collection.docs db "book")) db).
  assert (Hdocs : Collection.docs db' "book"
                  = remove_by_id oid (Collection.docs db "book")).
  { unfold db'. rewrite docs_set_docs, decide_True by reflexivity. reflexivity. }
  assert (Hgone : find_by_id oid (Collection.docs db' "book") = None).
  { rewrite Hdocs. apply (find_by_id_remove_same "book"), Huniq. }
  exists db'. split; [|split; [exact Hdocs|split; [|split; [|split]]]].
  - unfold delete_book, bind. rewrite (delete_document_parsed _ _ _ _ Hp), Hf.
    reflexivity.
  - rewrite (get_book_parsed _ _ _ Hp), Hgone. reflexivity.
  - unfold delete_book, bind. rewrite (delete_document_parsed _ _ _ _ Hp), Hgone.
    reflexivity.
  - intros oid' Hne. rewrite Hdocs. apply find_by_id_remove_other, Hne.
  - intros name Hne. unfold db'. rewrite docs_set_docs.
    rewrite decide_False by exact Hne. reflexivity.
Qed.

Lemma delete_book_removes_example :
  exists db' : Database,
    delete_book Sample.id1 (Some Sample.book_db)
    = (Return {[ "status" := VStr "deleted" ]}, Some db')
    /\ Collection.docs db' "book" = []
    /\ get_book Sample.id1 (Some db')
       = (Raise (HTTPException 404 "Book not found"), Some db').
Proof.
  destruct (delete_book_removes Sample.id1 Sample.oid1 Sample.book_db
              Sample.stored_book eq_refl)
    as (db' & Hdel & Hdocs & Hget & _).
  - unfold unique_ids. cbn. apply NoDup_cons.
    split; [apply not_elem_of_nil | apply NoDup_nil_2].
  - reflexivity.
  - exists db'. split; [exact Hdel|]. split; [rewrite Hdocs; reflexivity | exact Hget].
Defined.



(** ** Without a database *)

(** X6.  When the database was not configured, nothing is written and
    every operation that needs the store fails: the four adapter functions
    raise the exception of [_ensure_db] ([get_document_by_id] too, whose
    [try] does not cover that check), the handlers that go to a collection
    directly raise [TypeError], and the handlers answer 500.  Only the
    checks made before the store is reached answer otherwise: a status
    outside the set is still a 400. *)
Theorem without_database (validate_email : string -> option string)
    (pwd_verify : string -> string -> bool) (pwd_hash : string -> string)
    (jwt_encode : pydict -> string -> string -> string) (SECRET_KEY : string)
    (store_sum : list (option value) -> float)
    (now : datetime) (new_id : ObjectId.t) (name doc_id : string)
    (data : model_or_dict) (fields : pydict) (book : Book.t)
    (partial : BookUpdate.t) (login : LoginRequest) (status : OrderStatusUpdate) :
  create_document now new_id name data None = (Raise unavailable, None)
  /\ get_document_by_id name doc_id None = (Raise unavailable, None)
  /\ update_document now name doc_id fields None = (Raise unavailable, None)
  /\ delete_document name doc_id None = (Raise unavailable, None)
  /\ create_book now new_id book None = (Raise unavailable, None)
  /\ get_book doc_id None = (Raise unavailable, None)
  /\ update_book now doc_id partial None = (Raise unavailable, None)
  /\ delete_book doc_id None = (Raise unavailable, None)
  /\ update_order_status now doc_id status None
     = (if bool_decide (new_status status ∈ allowed)
        then Raise unavailable
        else Raise (HTTPException 400 "Invalid status"), None)
  /\ admin_login pwd_verify jwt_encode SECRET_KEY login None = (Raise TypeError, None)
  /\ get_admin_stats store_sum None = (Raise TypeError, None)
  /\ ensure_admin_exists validate_email pwd_hash now new_id None
     = (Raise TypeError, None)
  /\ status_of (Raise unavailable : outcome unit) = 500
  /\ status_of (Raise TypeError : outcome unit) = 500.
Proof.
  repeat split; try reflexivity.
  unfold update_order_status.
  destruct (bool_decide (new_status status ∈ allowed)); reflexivity.
Qed.

(** ** The seeded administrator *)

Lemma filter_matches_all (c : list document) :
  List.filter (Collection.matches []) c = c.
Proof. induction c as [|x c IH]; cbn; [reflexivity | rewrite IH; reflexivity]. Qed.

Section Seed.
Variable validate_email : string -> option string.
Variable pwd_verify : string -> string -> bool.
Variable pwd_hash : string -> string.
Variable jwt_encode : pydict -> string -> string -> string.
Variable SECRET_KEY : string.

(** X7.  The start-up hook does nothing when the administrators'
    collection holds a document.  On an empty collection it stores one
    administrator (name Admin, the validated address, the hash of
    ["admin123"], role admin, active) and touches no other collection, or
    raises and stores nothing when the address does not validate.  After
    it has stored the administrator, running it again changes nothing, and
    a login with that address and ["admin123"] goes through whenever the
    hashing primitive verifies the hash it produced. *)
Theorem ensure_admin_exists_seeds (now : datetime) (new_id : ObjectId.t)
    (db : Database) :
  (Collection.docs db "adminuser" <> [] ->
   ensure_admin_exists validate_email pwd_hash now new_id (Some db)
   = (Return tt, Some db))
  /\ (Collection.docs db "adminuser" = [] ->
      validate_email "admin@example.com" = None ->
      ensure_admin_exists validate_email pwd_hash now new_id (Some db)
      = (Raise ValidationError, Some db))
  /\ (Collection.docs db "adminuser" = [] ->
      forall email : string,
        validate_email "admin@example.com" = Some email ->
        exists (db' : Database) (user : document),
          ensure_admin_exists validate_email pwd_hash now new_id (Some db)
          = (Return tt, Some db')
          /\ Collection.docs db' "adminuser" = [user]
          /\ (forall name, name <> "adminuser" ->
                Collection.docs db' name = Collection.docs db name)
          /\ _id user = new_id
          /\ fields user !! "name" = Some (VStr "Admin")
          /\ fields user !! "email" = Some (VStr email)
          /\ fields user !! "password_hash" = Some (VStr (pwd_hash "admin123"))
          /\ fields user !! "role" = Some (VStr "admin")
          /\ fields user !! "is_active" = Some (VBool true)
          /\ (forall now' new_id',
                ensure_admin_exists validate_email pwd_hash now' new_id' (Some db')
                = (Return tt, Some db'))
          /\ (pwd_verify "admin123" (pwd_hash "admin123") = true ->
              admin_login pwd_verify jwt_encode SECRET_KEY
                {| login_email := email; login_password := "admin123" |} (Some db')
              = (Return (login_response jwt_encode SECRET_KEY user "Admin" email
                           "admin"),
                 Some db'))).
Proof.
  assert (Hskip : forall now0 id0 db0,
             Collection.docs db0 "adminuser" <> [] ->
             ensure_admin_exists validate_email pwd_hash now0 id0 (Some db0)
             = (Return tt, Some db0)).
  { intros now0 id0 db0 Hne.
    unfold ensure_admin_exists, bind at 1, Collection.count_documents,
      Collection.get, bind, ret.
    cbv beta iota. rewrite filter_matches_all.
    destruct (Collection.docs db0 "adminuser") as [|x c]; [congruence|].
    reflexivity. }
  split; [apply Hskip|]. split.
  - intros Hempty Hbad.
    unfold ensure_admin_exists, bind at 1, Collection.count_documents,
      Collection.get, bind, ret.
    cbv beta iota. rewrite filter_matches_all, Hempty. cbn [List.length Z.of_nat Z.eqb].
    unfold bind, lift, AdminUser_new. rewrite Hbad. reflexivity.
  - intros Hempty email Hok.
    set (u := AdminUser.mk "Admin" email (pwd_hash "admin123") "admin" true).
    set (user := mkdoc new_id
           (<["updated_at" := VDatetime (datetime_to_millis now)]>
              (<["created_at" := VDatetime (datetime_to_millis now)]>
                 (model_dump u)))).
    set (db' := Collection.set_docs "adminuser" [user] db).
    assert (Hdocs : Collection.docs db' "adminuser" = [user]).
    { unfold db'. rewrite docs_set_docs, decide_True by reflexivity. reflexivity. }
    assert (Hfield : forall k v,
               k <> "updated_at" -> k <> "created_at" ->
               model_dump u !! k = Some v -> fields user !! k = Some v).
    { intros k v H1 H2 Hk. unfold user. cbn [fields].
      rewrite !lookup_insert_ne by congruence. exact Hk. }
    exists db', user.
    split; [|split; [exact Hdocs|split; [|split; [reflexivity|]]]].
    + unfold ensure_admin_exists, bind at 1, Collection.count_documents,
        Collection.get, bind, ret.
      cbv beta iota. rewrite filter_matches_all, Hempty.
      cbn [List.length Z.of_nat Z.eqb].
      unfold lift, AdminUser_new. rewrite Hok.
      rewrite bool_decide_eq_true_2 by (apply list_elem_of_In; left; reflexivity).
      fold u. change (Z.of_nat 0 =? 0) with true. cbv beta iota.
      rewrite (create_document_new now new_id "adminuser" (OfModel u) db);
        [| reflexivity | rewrite Hempty; reflexivity].
      rewrite Hempty. reflexivity.
    + intros name Hne. unfold db'. rewrite docs_set_docs.
      rewrite decide_False by exact Hne. reflexivity.
    + split; [apply Hfield; [discriminate | discriminate | reflexivity]|].
      split; [apply Hfield; [discriminate | discriminate | reflexivity]|].
      split; [apply Hfield; [discriminate | discriminate | reflexivity]|].
      split; [apply Hfield; [discriminate | discriminate | reflexivity]|].
      split; [apply Hfield; [discriminate | discriminate | reflexivity]|].
      split.
      * intros now' id'. apply Hskip. rewrite Hdocs. discriminate.
      * intros Hv.
        apply admin_login_succeeds.
        -- unfold find_by_email. rewrite Hdocs. cbn [List.find login_email].
           rewrite bool_decide_eq_true_2; [reflexivity|].
           apply Hfield; [discriminate | discriminate | reflexivity].
        -- rewrite (get_default_field user "password_hash"
                      (VStr (pwd_hash "admin123")));
             [| discriminate | apply Hfield; [discriminate | discriminate | reflexivity]].
           cbn. rewrite Hv. reflexivity.
        -- rewrite (get_default_field user "is_active" (VBool true));
             [reflexivity | discriminate
             | apply Hfield; [discriminate | discriminate | reflexivity]].
        -- apply get_default_field;
             [discriminate | apply Hfield; [discriminate | discriminate | reflexivity]].
        -- apply list_elem_of_In. left. reflexivity.
        -- apply get_default_field;
             [discriminate | apply Hfield; [discriminate | discriminate | reflexivity]].
        -- apply get_default_field;
             [discriminate | apply Hfield; [discriminate | discriminate | reflexivity]].
Qed.

End Seed.

Lemma ensure_admin_exists_seeds_example :
  exists (db' : Database) (r : LoginResponse),
    ensure_admin_exists Sample.validate_email Sample.pwd_hash 1000 Sample.oid1
      (Some ∅)
    = (Return tt, Some db')
    /\ admin_login Sample.pwd_verify Sample.jwt_encode Sample.SECRET_KEY
         {| login_email := "admin@example.com"; login_password := "admin123" |}
         (Some db')
       = (Return r, Some db')
    /\ profile_role (profile r) = "admin".
Proof.
  destruct (ensure_admin_exists_seeds Sample.validate_email Sample.pwd_verify
              Sample.pwd_hash Sample.jwt_encode Sample.SECRET_KEY 1000 Sample.oid1 ∅)
    as (_ & _ & Hseed).
  destruct (Hseed eq_refl "admin@example.com" eq_refl)
    as (db' & user & Hrun & _ & _ & _ & _ & _ & _ & _ & _ & _ & Hlogin).
  eexists db', _. split; [exact Hrun|]. split; [apply Hlogin; reflexivity|].
  reflexivity.
Defined.

(** ** The dashboard's counts *)

Lemma matches_pending (d : document) :
  Collection.matches [("status", Collection.Eq (VStr "pending"))] d = is_pending d.
Proof.
  unfold Collection.matches, Collection.matches_row, Collection.holds,
    Collection.to_dict, is_pending.
  cbn [forallb fst snd]. rewrite lookup_insert_ne by discriminate.
  apply andb_true_r.
Qed.

Lemma filter_length_le {A} (f : A -> bool) (l : list A) :
  (List.length (List.filter f l) <= List.length l)%nat.
Proof. induction l as [|x l IH]; cbn; [lia|]. destruct (f x); cbn; lia. Qed.

(** X8.  With a database, the dashboard always answers and writes
    nothing: [total_books] and [total_orders] are the numbers of documents
    of the two collections, and [pending_orders] is the number of orders
    whose status is ["pending"], which is never more than
    [total_orders]. *)
Theorem get_admin_stats_counts (store_sum : list (option value) -> float)
    (db : Database) :
  exists stats : DashboardStats,
    get_admin_stats store_sum (Some db) = (Return stats, Some db)
    /\ total_books stats = Z.of_nat (List.length (Collection.docs db "book"))
    /\ total_orders stats = Z.of_nat (List.length (Collection.docs db "order"))
    /\ pending_orders stats
       = Z.of_nat (List.length (List.filter is_pending (Collection.docs db "order")))
    /\ 0 <= pending_orders stats <= total_orders stats.
Proof.
  unfold get_admin_stats, bind, lift, ret, Collection.count_documents,
    Collection.aggregate, Collection.get, bind, ret.
  cbv beta iota. rewrite revenue_pipeline_rows, !filter_matches_all.
  rewrite (filter_ext_bool
             (Collection.matches [("status", Collection.Eq (VStr "pending"))])
             is_pending) by apply matches_pending.
  pose proof (filter_length_le is_pending (Collection.docs db "order")) as Hle.
  destruct (List.filter not_cancelled (Collection.docs db "order")) as [|d l].
  - eexists. split; [reflexivity|]. cbn. repeat split; lia.
  - rewrite lookup_insert_eq. cbn [py_float].
    eexists. split; [reflexivity|]. cbn. repeat split; lia.
Qed.

(** ** Logins that are refused, and defaults *)

Section LoginOutcomes.
Variable pwd_verify : string -> string -> bool.
Variable jwt_encode : pydict -> string -> string -> string.
Variable SECRET_KEY : string.

(** X9.  An address that no stored administrator has gives the same
    response as a wrong password, 401 "Invalid credentials".  A verified,
    active user whose role is neither admin nor staff gives 403
    "Unauthorized role".  A stored user without [is_active] and without
    [role] counts as active and as staff. *)
Theorem admin_login_outcomes (payload : LoginRequest) (db : Database) :
  (find_by_email (login_email payload) db = None ->
   admin_login pwd_verify jwt_encode SECRET_KEY payload (Some db)
   = (Raise (HTTPException 401 "Invalid credentials"), Some db))
  /\ (forall (user : document) (h : string) (role : value),
        find_by_email (login_email payload) db = Some user ->
        fields user !! "password_hash" = Some (VStr h) ->
        pwd_verify (login_password payload) h = true ->
        truthy (get_default user "is_active" (VBool true)) = true ->
        fields user !! "role" = Some role ->
        role <> VStr "admin" -> role <> VStr "staff" ->
        admin_login pwd_verify jwt_encode SECRET_KEY payload (Some db)
        = (Raise (HTTPException 403 "Unauthorized role"), Some db))
  /\ (forall (user : document) (h name email : string),
        find_by_email (login_email payload) db = Some user ->
        fields user !! "password_hash" = Some (VStr h) ->
        pwd_verify (login_password payload) h = true ->
        fields user !! "is_active" = None ->
        fields user !! "role" = None ->
        fields user !! "name" = Some (VStr name) ->
        fields user !! "email" = Some (VStr email) ->
        admin_login pwd_verify jwt_encode SECRET_KEY payload (Some db)
        = (Return (login_response jwt_encode SECRET_KEY user name email "staff"),
           Some db)).
Proof.
  split; [|split].
  - intros Hnone. unfold admin_login, bind at 1.
    rewrite find_one_email, Hnone. reflexivity.
  - intros user h role Hf Hh Hv Ha Hr Hna Hns.
    unfold admin_login, bind at 1. rewrite find_one_email, Hf.
    unfold bind, lift.
    rewrite (get_default_field user "password_hash" (VStr h)) by
      (discriminate || exact Hh).
    cbn [verify_stored]. rewrite Hv. cbn [negb]. rewrite Ha. cbn [negb].
    rewrite (get_default_field user "role" role) by (discriminate || exact Hr).
    rewrite bool_decide_eq_false_2; [reflexivity|].
    intros Hin. apply list_elem_of_In in Hin.
    destruct Hin as [E|[E|[]]]; [apply Hna | apply Hns]; congruence.
  - intros user h name email Hf Hh Hv Ha Hr Hn He.
    assert (Hmissing : forall k dflt, k <> "_id" -> fields user !! k = None ->
                                      get_default user k dflt = dflt).
    { intros k dflt Hk Hnone. unfold get_default, doc_get.
      rewrite decide_False by exact Hk. rewrite Hnone. reflexivity. }
    apply admin_login_succeeds; try assumption.
    + rewrite (get_default_field user "password_hash" (VStr h)) by
        (discriminate || exact Hh).
      cbn. rewrite Hv. reflexivity.
    + rewrite Hmissing by (discriminate || exact Ha). reflexivity.
    + apply Hmissing; [discriminate | exact Hr].
    + apply list_elem_of_In. right. left. reflexivity.
    + apply get_default_field; [discriminate | exact Hn].
    + apply get_default_field; [discriminate | exact He].
Qed.

End LoginOutcomes.

Lemma admin_login_outcomes_example :
  admin_login Sample.pwd_verify Sample.jwt_encode Sample.SECRET_KEY
    {| login_email := "nobody@example.com"; login_password := "secret" |}
    (Some Cases.users)
  = (Raise (HTTPException 401 "Invalid credentials"), Some Cases.users)
  /\ admin_login Sample.pwd_verify Sample.jwt_encode Sample.SECRET_KEY
       {| login_email := "cy@example.com"; login_password := "secret" |}
       (Some Cases.users)
     = (Raise (HTTPException 403 "Unauthorized role"), Some Cases.users)
  /\ exists r : LoginResponse,
       admin_login Sample.pwd_verify Sample.jwt_encode Sample.SECRET_KEY
         {| login_email := "bo@example.com"; login_password := "secret" |}
         (Some Cases.users)
       = (Return r, Some Cases.users)
       /\ profile_role (profile r) = "staff".
Proof.
  split; [|split].
  - apply (proj1 (admin_login_outcomes Sample.pwd_verify Sample.jwt_encode
                    Sample.SECRET_KEY
                    {| login_email := "nobody@example.com";
                       login_password := "secret" |} Cases.users)).
    reflexivity.
  - apply (proj1 (proj2 (admin_login_outcomes Sample.pwd_verify Sample.jwt_encode
                    Sample.SECRET_KEY
                    {| login_email := "cy@example.com";
                       login_password := "secret" |} Cases.users))
             Cases.guest (Sample.pwd_hash "secret") (VStr "guest"));
      try reflexivity; discriminate.
  - eexists. split.
    + apply (proj2 (proj2 (admin_login_outcomes Sample.pwd_verify Sample.jwt_encode
                      Sample.SECRET_KEY
                      {| login_email := "bo@example.com";
                         login_password := "secret" |} Cases.users))
               Cases.bare_admin (Sample.pwd_hash "secret") "Bo" "bo@example.com");
        reflexivity.
    + reflexivity.
Defined.

(** ** Listing *)

Lemma insert_by_permutation (k : string) (dir : Z) (d : document)
    (l : list document) :
  Permutation (Cases.insert_by k dir d l) (d :: l).
Proof.
  induction l as [|x l IH]; cbn; [reflexivity|].
  destruct (if 0 <=? dir then _ else _); [reflexivity|].
  rewrite IH. apply perm_swap.
Qed.

Lemma cursor_sort_permutation (spec : list (string * Z)) (c : list document) :
  Permutation (Cases.cursor_sort spec c) c.
Proof.
  unfold Cases.cursor_sort.
  destruct spec as [|[k dir] [|]]; try reflexivity.
  induction c as [|x c IH]; cbn; [reflexivity|].
  rewrite insert_by_permutation, IH. reflexivity.
Qed.

Section ListingProperties.
Variable cursor_sort : list (string * Z) -> list document -> list document.

Lemma reads_only_get_documents (name : string) (q : option Collection.query)
    (limit : option Z) (sort : option (list (string * Z))) :
  reads_only (get_documents cursor_sort name q limit sort).
Proof.
  unfold get_documents.
  apply reads_only_bind; [apply reads_only_ensure_db|]. intros _.
  apply reads_only_bind; [apply reads_only_get|]. intros c. apply reads_only_ret.
Qed.


(** X11.  With a database, the two list endpoints answer and write
    nothing: the answer is the store's sort of the collection by
    [created_at], descending, every document with its identifier as the
    string [id]; so when the store's sort rearranges and neither adds nor
    drops, every stored book and every stored order is listed exactly
    once. *)
Theorem list_endpoints_list_all (db : Database) :
  list_books cursor_sort (Some db)
  = (Return (map with_id (cursor_sort [("created_at", -1)] (Collection.docs db "book"))),
     Some db)
  /\ list_orders cursor_sort (Some db)
     = (Return (map with_id (cursor_sort [("created_at", -1)]
                               (Collection.docs db "order"))),
        Some db)
  /\ ((forall spec c, Permutation (cursor_sort spec c) c) ->
      exists books orders : list pydict,
        list_books cursor_sort (Some db) = (Return books, Some db)
        /\ list_orders cursor_sort (Some db) = (Return orders, Some db)
        /\ Permutation books (map with_id (Collection.docs db "book"))
        /\ Permutation orders (map with_id (Collection.docs db "order"))
        /\ List.length books = List.length (Collection.docs db "book")
        /\ List.length orders = List.length (Collection.docs db "order")).
Proof.
  assert (Hb : list_books cursor_sort (Some db)
               = (Return (map with_id (cursor_sort [("created_at", -1)]
                                         (Collection.docs db "book"))), Some db)).
  { unfold list_books, get_documents, bind, _ensure_db, Collection.get, ret, bind.
    cbv beta iota zeta. cbn [default]. rewrite filter_matches_all. reflexivity. }
  assert (Ho : list_orders cursor_sort (Some db)
               = (Return (map with_id (cursor_sort [("created_at", -1)]
                                         (Collection.docs db "order"))), Some db)).
  { unfold list_orders, get_documents, bind, _ensure_db, Collection.get, ret, bind.
    cbv beta iota zeta. cbn [default]. rewrite filter_matches_all. reflexivity. }
  split; [exact Hb|]. split; [exact Ho|].
  intros Hperm. eexists _, _. split; [exact Hb|]. split; [exact Ho|].
  split; [apply Permutation_map, Hperm|].
  split; [apply Permutation_map, Hperm|].
  rewrite !length_map.
  split; apply Permutation_length, Hperm.
Qed.

End ListingProperties.

Lemma list_endpoints_list_all_example :
  exists books : list pydict,
    list_books Cases.cursor_sort Cases.two_books = (Return books, Cases.two_books)
    /\ List.length books = 2%nat
    /\ map (fun b : pydict => b !! "title") books
       = [Some (VStr "Emma"); Some (VStr "Dune")].
Proof.
  assert (E : exists db, Cases.two_books = Some db
                         /\ List.length (Collection.docs db "book") = 2%nat).
  { eexists. split; [vm_compute; reflexivity | vm_compute; reflexivity]. }
  destruct E as (db & E & Hlen). rewrite E.
  destruct (list_endpoints_list_all Cases.cursor_sort db) as (Hb & _ & Hall).
  destruct (Hall cursor_sort_permutation) as (books & orders & Hb' & _ & _ & _ & Hl & _).
  exists books. split; [exact Hb'|]. split; [rewrite Hl; exact Hlen|].
  rewrite Hb in Hb'. injection Hb' as <-.
  vm_compute in E. injection E as <-. vm_compute. reflexivity.
Defined.

(** ** What reading leaves alone *)

(** X12.  The login, the dashboard, reading a book, reading a document
    by its id and the listings leave the store exactly as they found it,
    whether they return or raise. *)
Theorem reading_writes_nothing (pwd_verify : string -> string -> bool)
    (jwt_encode : pydict -> string -> string -> string) (SECRET_KEY : string)
    (store_sum : list (option value) -> float)
    (cursor_sort : list (string * Z) -> list document -> list document)
    (login : LoginRequest) (name doc_id : string) (q : option Collection.query)
    (limit : option Z) (sort : option (list (string * Z))) (w : World) :
  (admin_login pwd_verify jwt_encode SECRET_KEY login w).2 = w
  /\ (get_admin_stats store_sum w).2 = w
  /\ (get_book doc_id w).2 = w
  /\ (get_document_by_id name doc_id w).2 = w
  /\ (get_documents cursor_sort name q limit sort w).2 = w
  /\ (list_books cursor_sort w).2 = w
  /\ (list_orders cursor_sort w).2 = w.
Proof.
  split; [|split; [|split; [|split; [|split; [|split]]]]].
  - revert w. change (reads_only (admin_login pwd_verify jwt_encode SECRET_KEY login)).
    unfold admin_login. reads.
  - revert w. change (reads_only (get_admin_stats store_sum)).
    unfold get_admin_stats. reads.
  - revert w. change (reads_only (get_book doc_id)). unfold get_book. reads.
  - apply get_document_by_id_world.
  - apply reads_only_get_documents.
  - revert w. change (reads_only (list_books cursor_sort)). unfold list_books.
    apply reads_only_bind; [apply reads_only_get_documents | intros c; reads].
  - revert w. change (reads_only (list_orders cursor_sort)). unfold list_orders.
    apply reads_only_bind; [apply reads_only_get_documents | intros c; reads].
Qed.

(** ** What a status update changes *)

Lemma update_first_replace (oid : ObjectId.t) (data : pydict)
    (c : list document) (d d' : document) :
  find_by_id oid c = Some d ->
  Collection.set_fields data d = Return d' ->
  Collection.update_first [("_id", Collection.Eq (VObjectId oid))] data c
  = Return (replace_by_id oid d' c,
            {| Collection.matched_count := 1;
               Collection.modified_count := if decide (d' = d) then 0 else 1 |}).
Proof.
  unfold find_by_id. intros Hf Hset.
  induction c as [|x c IH]; [discriminate|].
  cbn [List.find] in Hf. cbn [Collection.update_first replace_by_id].
  rewrite matches_id. destruct (bool_decide (_id x = oid)).
  - inversion Hf; subst x. rewrite Hset. reflexivity.
  - rewrite (IH Hf). reflexivity.
Qed.

Lemma replace_by_id_split (oid : ObjectId.t) (d d' : document) (c : list document) :
  find_by_id oid c = Some d ->
  exists l1 l2, c = (l1 ++ d :: l2)%list
                /\ replace_by_id oid d' c = (l1 ++ d' :: l2)%list.
Proof.
  unfold find_by_id. induction c as [|x c IH]; cbn; [discriminate|].
  destruct (bool_decide (_id x = oid)).
  - intros [= ->]. exists [], c. split; reflexivity.
  - intros Hf. destruct (IH Hf) as (l1 & l2 & -> & ->).
    exists (x :: l1), l2. split; reflexivity.
Qed.

Lemma find_by_id_replace_other (oid oid' : ObjectId.t) (d' : document)
    (c : list document) :
  _id d' = oid -> oid' <> oid ->
  find_by_id oid' (replace_by_id oid d' c) = find_by_id oid' c.
Proof.
  intros Hid Hne. unfold find_by_id. induction c as [|x c IH]; cbn; [reflexivity|].
  destruct (bool_decide (_id x = oid)) eqn:Hx; cbn.
  - apply bool_decide_eq_true in Hx.
    rewrite !bool_decide_eq_false_2 by congruence. reflexivity.
  - destruct (bool_decide (_id x = oid')); [reflexivity | exact IH].
Qed.

Lemma find_by_id_replace_same (oid : ObjectId.t) (d d' : document)
    (c : list document) :
  find_by_id oid c = Some d -> _id d' = oid ->
  find_by_id oid (replace_by_id oid d' c) = Some d'.
Proof.
  unfold find_by_id. intros Hf Hid.
  induction c as [|x c IH]; [discriminate|].
  cbn [List.find] in Hf. cbn [replace_by_id].
  destruct (bool_decide (_id x = oid)) eqn:Hx; cbn [List.find].
  - rewrite bool_decide_eq_true_2 by exact Hid. reflexivity.
  - rewrite Hx. apply IH, Hf.
Qed.

Lemma update_document_replaces (now : datetime) (name doc_id : string)
    (oid : ObjectId.t) (data : pydict) (db : Database) (d : document) :
  ObjectId.parse doc_id = Some oid ->
  data !! "_id" = None ->
  find_by_id oid (Collection.docs db name) = Some d ->
  let d' := mkdoc oid (<["updated_at" := VDatetime (datetime_to_millis now)]> data
                       ∪ fields d) in
  update_document now name doc_id data (Some db)
  = (Return (bool_decide (d' <> d)),
     Some (Collection.set_docs name
             (replace_by_id oid d' (Collection.docs db name)) db)).
Proof.
  intros Hp Hdata Hf d'.
  pose proof (find_by_id_id _ _ _ Hf) as Hid.
  assert (Hset : Collection.set_fields
                   (<["updated_at" := VDatetime (datetime_to_millis now)]> data) d
                 = Return d').
  { rewrite set_fields_plain by (rewrite lookup_insert_ne by discriminate; exact Hdata).
    unfold d'. rewrite Hid. reflexivity. }
  unfold update_document, bind, _ensure_db, ObjectId_new, Collection.update_one,
    Collection.get, Collection.put, lift, ret, bind.
  rewrite Hp. cbv beta iota zeta.
  rewrite (update_first_replace oid _ _ d d' Hf Hset). cbn.
  destruct (decide (d' = d)) as [He|Hne].
  - rewrite bool_decide_eq_false_2 by (intros H; apply H, He). reflexivity.
  - rewrite bool_decide_eq_true_2 by exact Hne. reflexivity.
Qed.

(** The revenue is a matter of the amounts of the orders that count, in
    their order. *)
Lemma revenue_spec_values (sum : list (option value) -> float)
    (c c' : list document) :
  map total_amount_of (List.filter not_cancelled c)
  = map total_amount_of (List.filter not_cancelled c') ->
  revenue_spec sum c = revenue_spec sum c'.
Proof.
  unfold revenue_spec.
  destruct (List.filter not_cancelled c) as [|x l],
           (List.filter not_cancelled c') as [|x' l']; cbn [map];
    try discriminate; [reflexivity|].
  intros E. rewrite E. reflexivity.
Qed.

Lemma counted_replace_cancelled (oid : ObjectId.t) (d' : document)
    (c : list document) :
  not_cancelled d' = false ->
  List.filter not_cancelled (replace_by_id oid d' c)
  = List.filter not_cancelled (remove_by_id oid c).
Proof.
  intros Hc. induction c as [|x c IH]; [reflexivity|].
  cbn [replace_by_id remove_by_id].
  destruct (bool_decide (_id x = oid)).
  - cbn [List.filter]. rewrite Hc. reflexivity.
  - cbn [List.filter]. rewrite IH. reflexivity.
Qed.

Lemma counted_replace_same (oid : ObjectId.t) (d d' : document)
    (c : list document) :
  find_by_id oid c = Some d ->
  not_cancelled d = true -> not_cancelled d' = true ->
  total_amount_of d' = total_amount_of d ->
  map total_amount_of (List.filter not_cancelled (replace_by_id oid d' c))
  = map total_amount_of (List.filter not_cancelled c).
Proof.
  unfold find_by_id. intros Hf Hd Hd' Ht.
  induction c as [|x c IH]; [reflexivity|].
  cbn [List.find] in Hf. cbn [replace_by_id].
  destruct (bool_decide (_id x = oid)).
  - injection Hf as ->. cbn [List.filter]. rewrite Hd, Hd'. cbn [map].
    rewrite Ht. reflexivity.
  - cbn [List.filter]. destruct (not_cancelled x); cbn [map];
      rewrite (IH Hf); reflexivity.
Qed.

(** X13.  A status update that changes a stored order returns the order
    read back.  It has changed [status] and [updated_at] of that one order
    and nothing else: every other field of the order is as it was (the
    items and [total_amount] among them), every other identifier finds
    the order it found before, and the other collections hold what they
    held.  The dashboard follows: after a cancellation its revenue is
    that of the collection without the order, and a move between two
    statuses other than cancelled leaves the revenue as it was, the same
    amounts reaching the store's [$sum] in the same order. *)
Theorem update_order_status_changes (store_sum : list (option value) -> float)
    (now : datetime) (order_id : string)
    (oid : ObjectId.t) (payload : OrderStatusUpdate) (db : Database)
    (d : document) :
  ObjectId.parse order_id = Some oid ->
  new_status payload ∈ allowed ->
  find_by_id oid (Collection.docs db "order") = Some d ->
  let d' := with_status now (new_status payload) d in
  d' <> d ->
  exists (db' : Database) (before after : DashboardStats),
    update_order_status now order_id payload (Some db)
    = (Return (with_id d'), Some db')
    /\ (forall k, k <> "status" -> k <> "updated_at" ->
          with_id d' !! k = with_id d !! k)
    /\ (forall oid', oid' <> oid ->
          find_by_id oid' (Collection.docs db' "order")
          = find_by_id oid' (Collection.docs db "order"))
    /\ (forall name, name <> "order" ->
          Collection.docs db' name = Collection.docs db name)
    /\ get_admin_stats store_sum (Some db) = (Return before, Some db)
    /\ get_admin_stats store_sum (Some db') = (Return after, Some db')
    /\ (new_status payload = "cancelled" ->
        revenue after
        = revenue_spec store_sum (remove_by_id oid (Collection.docs db "order")))
    /\ (not_cancelled d = true -> new_status payload <> "cancelled" ->
        revenue after = revenue before).
Proof.
  intros Hp Hin Hf d' Hchg.
  pose proof (find_by_id_id _ _ _ Hf) as Hid.
  assert (Hno : ({[ "status" := VStr (new_status payload) ]} : pydict) !! "_id"
                = None) by (apply lookup_singleton_ne; discriminate).
  pose proof (update_document_replaces now "order" order_id oid _ db d Hp Hno Hf)
    as Hupd. cbv zeta in Hupd.
  assert (Hd' : mkdoc oid
                  (<["updated_at" := VDatetime (datetime_to_millis now)]>
                     {[ "status" := VStr (new_status payload) ]} ∪ fields d) = d')
    by (unfold d', with_status; rewrite Hid; reflexivity).
  rewrite Hd' in Hupd.
  set (db' := Collection.set_docs "order"
                (replace_by_id oid d' (Collection.docs db "order")) db) in *.
  assert (Hdocs : Collection.docs db' "order"
                  = replace_by_id oid d' (Collection.docs db "order")).
  { unfold db'. rewrite docs_set_docs, decide_True by reflexivity. reflexivity. }
  assert (Hf' : find_by_id oid (Collection.docs db' "order") = Some d').
  { rewrite Hdocs. rewrite <- find_id_query in Hf.
    destruct (update_first_some _ (<["updated_at" := VDatetime (datetime_to_millis now)]>
                                     {[ "status" := VStr (new_status payload) ]})
                _ d d' Hf) as (c' & Hu & Hfound & _).
    - rewrite set_fields_plain
        by (rewrite lookup_insert_ne by discriminate; exact Hno).
      rewrite Hid. exact (f_equal Return Hd').
    - rewrite matches_id. apply bool_decide_eq_true_2.
      unfold d', with_status. cbn. exact Hid.
    - rewrite find_id_query in Hf, Hfound.
      rewrite (update_first_replace oid _ _ d d' Hf) in Hu.
      + inversion Hu; subst c'. exact Hfound.
      + rewrite set_fields_plain
          by (rewrite lookup_insert_ne by discriminate; exact Hno).
        rewrite Hid. exact (f_equal Return Hd'). }
  destruct (get_admin_stats_runs store_sum db) as (before & Hb & Hrb).
  destruct (get_admin_stats_runs store_sum db') as (after & Ha & Hra).
  assert (Htotal : total_amount_of d' = total_amount_of d).
  { unfold total_amount_of, d', with_status. cbn [fields].
    rewrite lookup_union_r; [reflexivity|].
    rewrite lookup_insert_ne by discriminate.
    apply lookup_singleton_ne. discriminate. }
  assert (Hst : fields d' !! "status" = Some (VStr (new_status payload))).
  { unfold d', with_status. cbn [fields]. apply lookup_union_Some_l.
    rewrite lookup_insert_ne by discriminate. apply lookup_singleton_eq. }
  exists db', before, after.
  split; [|split; [|split; [|split; [|split; [exact Hb|split; [exact Ha|
    split]]]]]].
  - unfold update_order_status, bind.
    rewrite bool_decide_eq_true_2 by exact Hin. cbn [negb].
    rewrite Hupd. rewrite bool_decide_eq_true_2 by exact Hchg. cbn [negb].
    apply (read_back_parsed "order" order_id oid _ _ Hp Hf').
  - intros k Hk1 Hk2. unfold with_id, d', with_status. cbn [_id fields].
    destruct (decide (k = "id")) as [->|Hkid].
    + rewrite !lookup_insert_eq. reflexivity.
    + rewrite !lookup_insert_ne by congruence.
      apply lookup_union_r. rewrite lookup_insert_ne by congruence.
      apply lookup_singleton_ne. congruence.
  - intros oid' Hne. rewrite Hdocs.
    apply find_by_id_replace_other; [|exact Hne].
    unfold d', with_status. cbn. exact Hid.
  - intros name Hne. unfold db'. rewrite docs_set_docs.
    rewrite decide_False by exact Hne. reflexivity.
  - intros Hs. rewrite Hra, Hdocs.
    apply revenue_spec_values. f_equal.
    apply counted_replace_cancelled.
    unfold not_cancelled. rewrite Hst, Hs.
    rewrite bool_decide_eq_true_2 by reflexivity. reflexivity.
  - intros Hnc Hs. rewrite Hra, Hrb, Hdocs.
    apply revenue_spec_values.
    apply (counted_replace_same oid d d' _ Hf Hnc); [|exact Htotal].
    unfold not_cancelled. rewrite Hst.
    rewrite bool_decide_eq_false_2 by congruence. reflexivity.
Qed.

Lemma update_order_status_changes_example :
  exists (db' : Database) (before after : DashboardStats),
    (update_order_status 9000 Sample.id1 {| new_status := "cancelled" |}
       (Some Sample.three_orders)).2 = Some db'
    /\ get_admin_stats Sample.store_sum (Some Sample.three_orders)
       = (Return before, Some Sample.three_orders)
    /\ get_admin_stats Sample.store_sum (Some db') = (Return after, Some db')
    /\ revenue before = 125%float
    /\ revenue after = 25%float.
Proof.
  destruct (update_order_status_changes Sample.store_sum 9000 Sample.id1 Sample.oid1
              {| new_status := "cancelled" |} Sample.three_orders
              (Sample.order_doc Sample.oid1 100%float "pending") eq_refl)
    as (db' & before & after & Hrun & _ & _ & _ & Hb & Ha & Hcancel & _).
  - apply allowed_spec. cbn. auto 6.
  - reflexivity.
  - intros H. apply (f_equal (fun d => fields d !! "status")) in H.
    vm_compute in H. discriminate H.
  - exists db', before, after.
    split; [rewrite Hrun; reflexivity|]. split; [exact Hb|]. split; [exact Ha|].
    split.
    + destruct (get_admin_stats_runs Sample.store_sum Sample.three_orders)
        as (s & Hs & Hr).
      rewrite Hs in Hb. injection Hb as <-. rewrite Hr. reflexivity.
    + rewrite (Hcancel eq_refl). reflexivity.
Defined.

(** X14.  A book update that changes a stored book replaces that one
    document where it stands: every other identifier finds the book it
    found before, the identifiers of the collection and their order are
    the same, and the other collections hold what they held. *)
Theorem update_book_changes_one (now : datetime) (book_id : string)
    (oid : ObjectId.t) (payload : BookUpdate.t) (db : Database) (d : document) :
  ObjectId.parse book_id = Some oid ->
  find_by_id oid (Collection.docs db "book") = Some d ->
  let d' := mkdoc oid
              (<["updated_at" := VDatetime (datetime_to_millis now)]>
                 (BookUpdate.set_items payload) ∪ fields d) in
  d' <> d ->
  exists db' : Database,
    update_book now book_id payload (Some db) = (Return (with_id d'), Some db')
    /\ Collection.docs db' "book" = replace_by_id oid d' (Collection.docs db "book")
    /\ map _id (Collection.docs db' "book") = map _id (Collection.docs db "book")
    /\ (forall oid', oid' <> oid ->
          find_by_id oid' (Collection.docs db' "book")
          = find_by_id oid' (Collection.docs db "book"))
    /\ (forall name, name <> "book" ->
          Collection.docs db' name = Collection.docs db name).
Proof.
  intros Hp Hf d' Hchg.
  pose proof (find_by_id_id _ _ _ Hf) as Hid.
  assert (Hno : BookUpdate.set_items payload !! "_id" = None) by not_a_book_field.
  pose proof (update_document_replaces now "book" book_id oid _ db d Hp Hno Hf)
    as Hupd. cbv zeta in Hupd. fold d' in Hupd.
  set (db' := Collection.set_docs "book"
                (replace_by_id oid d' (Collection.docs db "book")) db) in *.
  assert (Hdocs : Collection.docs db' "book"
                  = replace_by_id oid d' (Collection.docs db "book")).
  { unfold db'. rewrite docs_set_docs, decide_True by reflexivity. reflexivity. }
  destruct (replace_by_id_split oid d d' _ Hf) as (l1 & l2 & Hc & Hc').
  exists db'. split; [|split; [exact Hdocs|split; [|split]]].
  - unfold update_book, bind. rewrite Hupd.
    rewrite bool_decide_eq_true_2 by exact Hchg. cbn [negb].
    apply (read_back_parsed "book" book_id oid _ _ Hp).
    rewrite Hdocs. apply (find_by_id_replace_same oid d d'); [exact Hf | reflexivity].
  - rewrite Hdocs, Hc', Hc, !map_app. cbn. rewrite Hid. reflexivity.
  - intros oid' Hne. rewrite Hdocs.
    apply find_by_id_replace_other; [reflexivity | exact Hne].
  - intros name Hne. unfold db'. rewrite docs_set_docs.
    rewrite decide_False by exact Hne. reflexivity.
Qed.

Lemma update_book_changes_one_example :
  exists (doc : pydict) (db' : Database),
    update_book 9000 Sample.id1 Sample.price_only (Some Sample.book_db)
    = (Return doc, Some db')
    /\ map _id (Collection.docs db' "book") = [Sample.oid1]
    /\ Collection.docs db' "order" = [].
Proof.
  destruct (update_book_changes_one 9000 Sample.id1 Sample.oid1 Sample.price_only
              Sample.book_db Sample.stored_book eq_refl eq_refl)
    as (db' & Hrun & _ & Hids & _ & Hother).
  - intros H. apply (f_equal (fun d => fields d !! "updated_at")) in H.
    vm_compute in H. discriminate H.
  - eexists _, db'. split; [exact Hrun|]. split; [rewrite Hids; reflexivity|].
    rewrite Hother by discriminate. reflexivity.
Defined.
